(** * Returns-Insight-Pro: the return-lag engines

    A shallow embedding of [utils/maturityAnalyzer.ts] (lag distribution
    builder, cohort projector, target dates, daily trend) and of
    [utils/contrastAnalyzer.ts] (fairness contrast engine), followed by the
    properties the specification states about them.

    Conventions of the embedding.
    - A calendar date string ["YYYY-MM-DD"] is represented by its day number
      since 1970-01-01 ([isodate]); [ymd] computes it from the civil date.
      [new Date(s).getTime()] is [getTime] (UTC midnight, in milliseconds),
      [new Date(t).toISOString().split('T')[0]] is [toISODate], and [===]
      on two date strings is equality of day numbers.
    - Unit counts are JavaScript numbers holding integers: [Z].
    - Fractional JavaScript numbers are idealised as exact rationals ([Q]);
      the outcome of a division that the source guards with a ternary is a
      [jsnum], which keeps the IEEE results [NaN] and the infinities apart
      from finite values.
    - [null]/[undefined] is [None]. *)

From Stdlib Require Import ZArith QArith Qminmax List Bool String Lia Lqa Permutation Sorted.
Import ListNotations.

Open Scope Z_scope.

(* ================================================================== *)
(** ** JavaScript helpers *)

Module JS.

(** Result of an IEEE division of two finite numbers. *)
Inductive jsnum : Type :=
| Fin (q : Q)
| PosInf
| NegInf
| NaN.

Definition Qpos_b (q : Q) : bool := 0 <? Qnum q.
Definition Qzero_b (q : Q) : bool := Qnum q =? 0.

(** [a / b] on finite operands. *)
Definition js_div (a b : Q) : jsnum :=
  if Qzero_b b then
    if Qzero_b a then NaN else if Qpos_b a then PosInf else NegInf
  else Fin (a / b).

Definition js_neg (x : jsnum) : jsnum :=
  match x with
  | Fin q => Fin (- q)
  | PosInf => NegInf
  | NegInf => PosInf
  | NaN => NaN
  end.

(** [x - y]. *)
Definition js_sub (x y : jsnum) : jsnum :=
  match x, y with
  | NaN, _ | _, NaN => NaN
  | Fin a, Fin b => Fin (a - b)
  | Fin _, PosInf => NegInf
  | Fin _, NegInf => PosInf
  | PosInf, PosInf => NaN
  | PosInf, _ => PosInf
  | NegInf, NegInf => NaN
  | NegInf, _ => NegInf
  end.

(** [x / y] on possibly non-finite operands. *)
Definition js_quot (x y : jsnum) : jsnum :=
  match x, y with
  | NaN, _ | _, NaN => NaN
  | Fin a, Fin b => js_div a b
  | Fin _, _ => Fin 0
  | _, Fin b => if Qpos_b b || Qzero_b b then x else js_neg x
  | _, _ => NaN
  end.

(** [x > 0], [x < 0] and [x >= q]; every comparison with [NaN] is false. *)
Definition js_gt0 (x : jsnum) : bool :=
  match x with
  | Fin q => Qpos_b q
  | PosInf => true
  | _ => false
  end.

Definition js_lt0 (x : jsnum) : bool :=
  match x with
  | Fin q => Qnum q <? 0
  | NegInf => true
  | _ => false
  end.

Definition js_geq (x : jsnum) (q : Q) : bool :=
  match x with
  | Fin a => Qle_bool q a
  | PosInf => true
  | _ => false
  end.

(** [Math.ceil(a / b)] for an integer [a] and a positive integer [b]. *)
Definition ceil_div (a b : Z) : Z := - ((- a) / b).

(** [Math.floor(n * p)] for an array length [n] and [p = num/den] one of
    the literals 0.5, 0.2, 0.9, 0.95.  The nearest double of each literal is
    within a relative 2^-54 of the fraction, so the rounded product has the
    floor of the exact one for every array length. *)
Definition floor_frac (n : nat) (num den : Z) : nat :=
  Z.to_nat (Z.of_nat n * num / den).

(** [Array.prototype.sort(cmp)]: a stable sort; [cmp a b <= 0] keeps [a]
    before [b]. *)
Fixpoint sort_insert {A : Type} (cmp : A -> A -> Z) (x : A) (l : list A) : list A :=
  match l with
  | [] => [x]
  | y :: t => if cmp x y <=? 0 then x :: y :: t else y :: sort_insert cmp x t
  end.

Definition sort {A : Type} (cmp : A -> A -> Z) (l : list A) : list A :=
  fold_right (sort_insert cmp) [] l.

(** Sum of a numeric projection, as [reduce((acc, cur) => acc + f(cur), 0)]. *)
Definition sumZ {A : Type} (f : A -> Z) (l : list A) : Z :=
  fold_left (fun acc cur => acc + f cur) l 0.

End JS.

(* ================================================================== *)
(** ** Dates and the shared data model ([types.ts]) *)

Definition isodate : Type := Z.

(** Day number of the civil date [y]-[m]-[d] (proleptic Gregorian). *)
Definition ymd (y m d : Z) : isodate :=
  let y' := if m <=? 2 then y - 1 else y in
  let era := y' / 400 in
  let yoe := y' - era * 400 in
  let mp := if 2 <? m then m - 3 else m + 9 in
  let doy := (153 * mp + 2) / 5 + d - 1 in
  let doe := yoe * 365 + yoe / 4 - yoe / 100 + doy in
  era * 146097 + doe - 719468.

Definition MS_PER_DAY : Z := 1000 * 60 * 60 * 24.

Definition getTime (d : isodate) : Z := d * MS_PER_DAY.

Definition toISODate (t : Z) : isodate := t / MS_PER_DAY.

Record RawOrderRow : Type := {
  order_id : string;
  purchase_date : isodate;
  return_date : option isodate;
  units_sold : Z;
  units_returned : option Z;
  asin : string;
  fasin : option string
}.

Record AppData : Type := {
  return_order : option (list RawOrderRow);
  t0Date : option isodate;
  comparisonSpan : option Z
}.

(** S: [maxTime] after the [forEach] that starts from 0. *)
Definition latestTime (orders : list RawOrderRow) : Z :=
  fold_left
    (fun maxTime o =>
       let t := getTime (purchase_date o) in
       if maxTime <? t then t else maxTime)
    orders 0.

(* ================================================================== *)
(** ** [utils/maturityAnalyzer.ts] *)

Module Maturity.
Import JS.

Record LagBucket : Type := {
  days : Z;
  count : Z;
  cumulativePct : Q
}.

(** [start]/[end] are [None] for the placeholder ['-']. *)
Record DateRange : Type := {
  range_start : option isodate;
  range_end : option isodate;
  daysSpan : Z
}.

Record MaturityMetrics : Type := {
  volume : Z;
  returns : Z;
  rate : jsnum;
  range : DateRange
}.

Inductive Phase : Type := rampup | mature | finalized.

Inductive Algorithm : Type := linear_blend | gross_up | none.

(** The display strings [label] and [ageRange] are left out. *)
Record ProjectionBucket : Type := {
  id : Phase;
  bucket_volume : Z;
  realizedReturns : Z;
  forecastedReturns : Q;
  totalExpectedReturns : Q;
  contributionRate : jsnum
}.

Record DailyProjectionRow : Type := {
  date : isodate;
  age : Z;
  phase : Phase;
  sales : Z;
  realized : Z;
  currentRate : jsnum;
  lagPct : Q;
  algorithm : Algorithm;
  weight : Z;
  forecastAdd : Q;
  projectedTotal : Q;
  projectedRate : jsnum
}.

Record ProjectionData : Type := {
  projection_projectedRate : option jsnum;
  forecastedVolume : Q;
  buckets : list ProjectionBucket;
  baselineRate : jsnum
}.

Record DailyTrend : Type := {
  trend_date : isodate;
  trend_volume : Z;
  trend_returns : Z;
  trend_rate : jsnum;
  isPost : bool
}.

Inductive Status : Type := insufficient | projecting.

Record Metrics : Type := {
  pre : MaturityMetrics;
  reference : MaturityMetrics;
  postMature : MaturityMetrics;
  postNominal : MaturityMetrics
}.

Record MaturityAnalysisResult : Type := {
  result_fasin : string;
  t0 : isodate;
  s : isodate;
  d_value : Z;
  p20_value : Z;
  p90_value : Z;
  maturityStatus : Status;
  confidenceScore : jsnum;
  isEvaluable : bool;
  earliestEvalDate : isodate;
  p90Date : isodate;
  daysToWait : Z;
  baselineRange : DateRange;
  distribution : list LagBucket;
  metrics : Metrics;
  projection : ProjectionData;
  dailyProjections : list DailyProjectionRow;
  trend : list DailyTrend
}.

(** *** Helpers *)

Definition has_return_date (o : RawOrderRow) : bool :=
  match return_date o with
  | Some _ => true
  | None => false
  end.

Definition getReturnCount (o : RawOrderRow) : Z :=
  match units_returned o with
  | Some u =>
      if 0 <? u then u
      else if has_return_date o then units_sold o else 0
  | None => if has_return_date o then units_sold o else 0
  end.

Definition purchaseTime (o : RawOrderRow) : Z := getTime (purchase_date o).

Definition getRangeInfo (subset : list RawOrderRow) : DateRange :=
  match subset with
  | [] => {| range_start := None; range_end := None; daysSpan := 0 |}
  | o :: rest =>
      let min := fold_left (fun m x => if purchaseTime x <? m then purchaseTime x else m)
                           rest (purchaseTime o) in
      let max := fold_left (fun m x => if m <? purchaseTime x then purchaseTime x else m)
                           rest (purchaseTime o) in
      {| range_start := Some (toISODate min);
         range_end := Some (toISODate max);
         daysSpan := (max - min) / MS_PER_DAY + 1 |}
  end.

Definition calcStats (subset : list RawOrderRow) : MaturityMetrics :=
  let vol := sumZ units_sold subset in
  let ret := sumZ getReturnCount subset in
  {| volume := vol;
     returns := ret;
     rate := if 0 <? vol then js_div (inject_Z ret) (inject_Z vol) else Fin 0;
     range := getRangeInfo subset |}.

(** *** Steps 2-3: baseline window and lag samples *)

Definition in_window (lo hi : Z) (o : RawOrderRow) : bool :=
  (lo <=? purchaseTime o) && (purchaseTime o <? hi).

Definition preSubset (t0Time : Z) (orders : list RawOrderRow) : list RawOrderRow :=
  filter (in_window (t0Time - 60 * MS_PER_DAY) t0Time) orders.

(** What one baseline order pushes onto [lags]. *)
Definition lagPushes (o : RawOrderRow) : list Z :=
  let rCount := getReturnCount o in
  match return_date o with
  | Some rd =>
      if 0 <? rCount then
        let p := getTime (purchase_date o) in
        let r := getTime rd in
        let diffDays := (r - p) / MS_PER_DAY in
        if 0 <=? diffDays then repeat diffDays (Z.to_nat rCount) else []
      else []
  | None => []
  end.

Definition unsortedLags (subset : list RawOrderRow) : list Z :=
  flat_map lagPushes subset.

Definition sortedLags (subset : list RawOrderRow) : list Z :=
  sort (fun a b => a - b) (unsortedLags subset).

(** *** Step 4: markers *)

Record Markers : Type := {
  m_d : Z;
  m_p20 : Z;
  m_p90 : Z
}.

(** The values assigned inside [if (lags.length > 0)], else the defaults. *)
Definition rawMarkers (lags : list Z) : Markers :=
  match lags with
  | [] => {| m_d := 14; m_p20 := 4; m_p90 := 30 |}
  | _ :: _ =>
      let n := List.length lags in
      let d := nth (floor_frac n 1 2) lags 0 in
      let p20 := Z.max 1 (nth (floor_frac n 1 5) lags 0) in
      let p90 := Z.max (d + 5) (nth (floor_frac n 9 10) lags 0) in
      {| m_d := d; m_p20 := p20; m_p90 := p90 |}
  end.

Definition clampMarkers (m : Markers) : Markers :=
  let d := Z.max 5 (Z.min (m_d m) 60) in
  let p20 := Z.min (m_p20 m) (d - 1) in
  let p20 := if p20 <? 1 then 1 else p20 in
  let p90 := Z.max (d + 1) (Z.min (m_p90 m) 90) in
  {| m_d := d; m_p20 := p20; m_p90 := p90 |}.

Definition markers (lags : list Z) : Markers := clampMarkers (rawMarkers lags).

(** *** Step 5: histogram *)

Fixpoint histLoop (lags : list Z) (totalReturns : Z) (steps : nat)
         (i cumulative : Z) : list LagBucket :=
  match steps with
  | O => []
  | S steps' =>
      let bucketSize := 2 in
      let cnt := Z.of_nat (List.length
                   (filter (fun l => (i <=? l) && (l <? i + bucketSize)) lags)) in
      let cumulative := cumulative + cnt in
      {| days := i; count := cnt;
         cumulativePct := inject_Z cumulative / inject_Z totalReturns |}
        :: histLoop lags totalReturns steps' (i + bucketSize) cumulative
  end.

(** Number of passes of [for (i = 0; i <= finalLimit; i += 2)]. *)
Definition histSteps (finalLimit : Z) : nat :=
  if finalLimit <? 0 then O else Z.to_nat (finalLimit / 2 + 1).

Definition buildDistribution (lags : list Z) (p90 : Z) : list LagBucket :=
  match lags with
  | [] => []
  | _ :: _ =>
      let n := List.length lags in
      let p95Index := floor_frac n 19 20 in
      let limitVal := Z.max (nth p95Index lags 0) (p90 + 14) in
      let finalLimit := Z.min limitVal 120 in
      histLoop lags (Z.of_nat n) (histSteps finalLimit) 0 0
  end.

(** *** Step 7: cumulative fraction lookup *)

Definition js_max (a b : Q) : Q := if Qle_bool a b then b else a.

(** [bucket] is found from the end; [indexOf] returns its position, which
    the search carries along. *)
Definition getCumulativePct (distribution : list LagBucket) (day : Z) : Q :=
  match distribution with
  | [] => 1%Q
  | _ :: _ =>
      let indexed := combine (seq 0 (List.length distribution)) distribution in
      match find (fun ib => days (snd ib) <=? day) (rev indexed) with
      | None => 0%Q
      | Some (bucketIdx, bucket) =>
          match nth_error distribution (bucketIdx + 1) with
          | None => cumulativePct bucket
          | Some nextBucket =>
              let range := days nextBucket - days bucket in
              let progress := (inject_Z (day - days bucket) / inject_Z range)%Q in
              let pctRange := (cumulativePct nextBucket - cumulativePct bucket)%Q in
              (cumulativePct bucket + progress * pctRange)%Q
          end
      end
  end.

(** *** Dynamic target dates (50% volume threshold) *)

Record TargetScan : Type := {
  accumulatedVol : Z;
  foundTarget : bool;
  p50VolDateTimestamp : Z;
  p100DateTimestamp : Z
}.

Definition targetStep (totalProjectionVol : Z) (st : TargetScan) (order : RawOrderRow)
  : TargetScan :=
  let acc := accumulatedVol st + units_sold order in
  let t := purchaseTime order in
  (* accumulatedVol >= totalProjectionVol * 0.5 *)
  let hit := negb (foundTarget st) && (totalProjectionVol <=? 2 * acc) in
  {| accumulatedVol := acc;
     foundTarget := if hit then true else foundTarget st;
     p50VolDateTimestamp := if hit then t else p50VolDateTimestamp st;
     p100DateTimestamp := t |}.

Definition targetScan (t0Time : Z) (projectionSubset : list RawOrderRow) : TargetScan :=
  let totalProjectionVol := sumZ units_sold projectionSubset in
  let init := {| accumulatedVol := 0; foundTarget := false;
                 p50VolDateTimestamp := t0Time; p100DateTimestamp := t0Time |} in
  if 0 <? totalProjectionVol then
    let sortedSubset :=
      sort (fun a b => purchaseTime a - purchaseTime b) projectionSubset in
    fold_left (targetStep totalProjectionVol) sortedSubset init
  else init.

(** *** Daily cohort map: a [Map] iterated in insertion order *)

Record DayStats : Type := {
  vol : Z;
  ret : Z;
  pTime : Z
}.

Fixpoint dailyMapAdd (d : isodate) (o : RawOrderRow) (m : list (isodate * DayStats))
  : list (isodate * DayStats) :=
  match m with
  | [] => [(d, {| vol := 0 + units_sold o; ret := 0 + getReturnCount o;
                  pTime := purchaseTime o |})]
  | (k, e) :: rest =>
      if k =? d then
        (k, {| vol := vol e + units_sold o; ret := ret e + getReturnCount o;
               pTime := pTime e |}) :: rest
      else (k, e) :: dailyMapAdd d o rest
  end.

Definition buildDailyMap (subset : list RawOrderRow) : list (isodate * DayStats) :=
  fold_left (fun m o => dailyMapAdd (purchase_date o) o m) subset [].

(** *** Per-day projection: the body of [dailyMap.forEach] *)

Definition grossUp (realized : Z) (cumPct : Q) : Q :=
  if negb (Qle_bool cumPct (1 # 100)) then
    let proj := (inject_Z realized / cumPct)%Q in
    js_max 0 (proj - inject_Z realized)
  else 0%Q.

Definition projectDay (sTime d_value p90_value : Z) (distribution : list LagBucket)
           (entry : isodate * DayStats) : DailyProjectionRow :=
  let stats := snd entry in
  let ageDays := (sTime - pTime stats) / MS_PER_DAY in
  let cumPct := getCumulativePct distribution ageDays in
  let realized := ret stats in
  let sales := vol stats in
  let '(phase, algorithm, weight, forecastAdd, projectedTotal) :=
    if p90_value <? ageDays then
      let forecastAdd := grossUp realized cumPct in
      (finalized, gross_up, 1, forecastAdd, (inject_Z realized + forecastAdd)%Q)
    else if d_value <=? ageDays then
      let forecastAdd := grossUp realized cumPct in
      (mature, gross_up, 1, forecastAdd, (inject_Z realized + forecastAdd)%Q)
    else
      (rampup, none, 0, 0%Q, inject_Z realized) in
  {| date := fst entry;
     age := ageDays;
     phase := phase;
     sales := sales;
     realized := realized;
     currentRate :=
       if 0 <? sales then js_div (inject_Z realized) (inject_Z sales) else Fin 0;
     lagPct := cumPct;
     algorithm := algorithm;
     weight := weight;
     forecastAdd := forecastAdd;
     projectedTotal := projectedTotal;
     projectedRate :=
       if 0 <? sales then js_div projectedTotal (inject_Z sales) else Fin 0 |}.

(** *** Phase buckets *)

Record ProjBuckets : Type := {
  b_finalized : ProjectionBucket;
  b_mature : ProjectionBucket;
  b_rampup : ProjectionBucket
}.

Definition emptyBucket (p : Phase) : ProjectionBucket :=
  {| id := p; bucket_volume := 0; realizedReturns := 0; forecastedReturns := 0;
     totalExpectedReturns := 0; contributionRate := Fin 0 |}.

Definition initBuckets : ProjBuckets :=
  {| b_finalized := emptyBucket finalized;
     b_mature := emptyBucket mature;
     b_rampup := emptyBucket rampup |}.

Definition bucketAdd (b : ProjectionBucket) (row : DailyProjectionRow) : ProjectionBucket :=
  {| id := id b;
     bucket_volume := bucket_volume b + sales row;
     realizedReturns := realizedReturns b + realized row;
     forecastedReturns := (forecastedReturns b + forecastAdd row)%Q;
     totalExpectedReturns := totalExpectedReturns b;
     contributionRate := contributionRate b |}.

Definition accumulate (bs : ProjBuckets) (row : DailyProjectionRow) : ProjBuckets :=
  match phase row with
  | finalized =>
      {| b_finalized := bucketAdd (b_finalized bs) row;
         b_mature := b_mature bs; b_rampup := b_rampup bs |}
  | mature =>
      {| b_finalized := b_finalized bs;
         b_mature := bucketAdd (b_mature bs) row; b_rampup := b_rampup bs |}
  | rampup =>
      {| b_finalized := b_finalized bs;
         b_mature := b_mature bs; b_rampup := bucketAdd (b_rampup bs) row |}
  end.

(** Rows in [forEach] order, and the buckets after the last day. *)
Definition projectAll (sTime d_value p90_value : Z) (distribution : list LagBucket)
           (dailyMap : list (isodate * DayStats))
  : list DailyProjectionRow * ProjBuckets :=
  fold_left
    (fun acc entry =>
       let row := projectDay sTime d_value p90_value distribution entry in
       (fst acc ++ [row], accumulate (snd acc) row))
    dailyMap ([], initBuckets).

(** [totalExpectedReturns] and [contributionRate] of the table. *)
Definition finishBucket (grandTotalVolume : Z) (b : ProjectionBucket) : ProjectionBucket :=
  let total := (inject_Z (realizedReturns b) + forecastedReturns b)%Q in
  {| id := id b;
     bucket_volume := bucket_volume b;
     realizedReturns := realizedReturns b;
     forecastedReturns := forecastedReturns b;
     totalExpectedReturns := total;
     contributionRate :=
       if 0 <? grandTotalVolume then js_div total (inject_Z grandTotalVolume)
       else Fin 0 |}.

(** *** Step 8: daily trend *)

Definition trendLookup (trendMap : list (isodate * DayStats)) (d : isodate) : Z * Z :=
  match find (fun kv => fst kv =? d) trendMap with
  | Some (_, e) => (vol e, ret e)
  | None => (0, 0)
  end.

Fixpoint trendLoop (trendMap : list (isodate * DayStats)) (trendStart sTime t0Time : Z)
         (steps : nat) (i : Z) : list DailyTrend :=
  match steps with
  | O => []
  | S steps' =>
      let t := trendStart + i * MS_PER_DAY in
      let dateStr := toISODate t in
      if sTime <? t then []
      else
        let stats := trendLookup trendMap dateStr in
        {| trend_date := dateStr;
           trend_volume := fst stats;
           trend_returns := snd stats;
           trend_rate :=
             if 0 <? fst stats then js_div (inject_Z (snd stats)) (inject_Z (fst stats))
             else Fin 0;
           isPost := t0Time <=? t |}
          :: trendLoop trendMap trendStart sTime t0Time steps' (i + 1)
  end.

(** *** The analysis *)

Definition nonEmpty (x : string) : bool :=
  match x with
  | EmptyString => false
  | String _ _ => true
  end.

Definition identity (firstOrder : RawOrderRow) : string :=
  match fasin firstOrder with
  | Some f => if nonEmpty f then f
              else if nonEmpty (asin firstOrder) then asin firstOrder
                   else "Unknown ASIN"%string
  | None => if nonEmpty (asin firstOrder) then asin firstOrder
            else "Unknown ASIN"%string
  end.

Definition spanDays (data : AppData) : Z :=
  match comparisonSpan data with
  | Some n => if n =? 0 then 30 else n
  | None => 30
  end.

Definition analyze (orders : list RawOrderRow) (firstOrder : RawOrderRow)
           (t0Str : isodate) (comparisonSpanDays : Z) : MaturityAnalysisResult :=
  let t0Time := getTime t0Str in
  let maxTime := latestTime orders in
  let sStr := toISODate maxTime in
  let sTime := maxTime in
  let pre_subset := preSubset t0Time orders in
  let lags := sortedLags pre_subset in
  let mk := markers lags in
  let d_value := m_d mk in
  let p20_value := m_p20 mk in
  let p90_value := m_p90 mk in
  let distribution := buildDistribution lags p90_value in
  let refStart := t0Time - comparisonSpanDays * MS_PER_DAY in
  let refSubset := filter (in_window refStart t0Time) orders in
  let postEnd := t0Time + comparisonSpanDays * MS_PER_DAY in
  let projectionSubset := filter (in_window t0Time postEnd) orders in
  let postNominalSubset := projectionSubset in
  let scan := targetScan t0Time projectionSubset in
  let earliestEvalTime := p50VolDateTimestamp scan + d_value * MS_PER_DAY in
  let p90Time := p100DateTimestamp scan + p90_value * MS_PER_DAY in
  let daysToWait := ceil_div (earliestEvalTime - sTime) MS_PER_DAY in
  let projected :=
    projectAll sTime d_value p90_value distribution (buildDailyMap projectionSubset) in
  let dailyProjections := sort (fun a b => age b - age a) (fst projected) in
  let projBuckets := snd projected in
  let grandTotalVolume :=
    0 + bucket_volume (b_finalized projBuckets) + bucket_volume (b_mature projBuckets)
      + bucket_volume (b_rampup projBuckets) in
  let reliableVolume :=
    0 + bucket_volume (b_finalized projBuckets) + bucket_volume (b_mature projBuckets) in
  let reliableRealized :=
    0 + realizedReturns (b_finalized projBuckets) + realizedReturns (b_mature projBuckets) in
  let reliableForecasted :=
    (0 + forecastedReturns (b_finalized projBuckets)
       + forecastedReturns (b_mature projBuckets))%Q in
  let projectedTotalReturns := (inject_Z reliableRealized + reliableForecasted)%Q in
  let projectedRate :=
    if 0 <? reliableVolume
    then Some (js_div projectedTotalReturns (inject_Z reliableVolume))
    else None in
  let confidenceScore :=
    if 0 <? grandTotalVolume
    then js_div (inject_Z reliableVolume) (inject_Z grandTotalVolume)
    else Fin 0 in
  let maturityStatus :=
    if js_geq confidenceScore (1 # 2) then projecting else insufficient in
  let isEvaluable := js_geq confidenceScore (1 # 2) in
  let trendStart := refStart in
  let trendEnd := Z.min postEnd (sTime + MS_PER_DAY) in
  let daysInTrend := Z.max 0 (ceil_div (trendEnd - trendStart) MS_PER_DAY) in
  let trendMap := buildDailyMap (refSubset ++ postNominalSubset) in
  {| result_fasin := identity firstOrder;
     t0 := t0Str;
     s := sStr;
     d_value := d_value;
     p20_value := p20_value;
     p90_value := p90_value;
     maturityStatus := maturityStatus;
     confidenceScore := confidenceScore;
     isEvaluable := isEvaluable;
     earliestEvalDate := toISODate earliestEvalTime;
     p90Date := toISODate p90Time;
     daysToWait := daysToWait;
     baselineRange := getRangeInfo pre_subset;
     distribution := distribution;
     metrics :=
       {| pre := calcStats pre_subset;
          reference := calcStats refSubset;
          postMature := calcStats projectionSubset;
          postNominal := calcStats postNominalSubset |};
     projection :=
       {| projection_projectedRate := projectedRate;
          forecastedVolume := reliableForecasted;
          buckets := map (finishBucket grandTotalVolume)
                         [b_finalized projBuckets; b_mature projBuckets;
                          b_rampup projBuckets];
          baselineRate := rate (calcStats pre_subset) |};
     dailyProjections := dailyProjections;
     trend := trendLoop trendMap trendStart sTime t0Time (Z.to_nat daysInTrend) 0 |}.

Definition analyzeMaturity (data : AppData) : option MaturityAnalysisResult :=
  match return_order data, t0Date data with
  | Some (firstOrder :: rest), Some t0Str =>
      Some (analyze (firstOrder :: rest) firstOrder t0Str (spanDays data))
  | _, _ => None
  end.

End Maturity.

(* ================================================================== *)
(** ** [utils/contrastAnalyzer.ts] *)

Module Contrast.
Import JS.

Record ContrastMetrics : Type := {
  sales : Z;
  returns : Z;
  rate : jsnum
}.

(** [sales]/[returns] of a row are [day_sales]/[day_returns]. *)
Record DailyContrastRow : Type := {
  date : isodate;
  matchedDate : isodate;
  ageLimit : Z;
  day_sales : Z;
  day_returns : Z;
  refSales : Z;
  refReturns : Z
}.

Record VelocityPoint : Type := {
  day : Z;
  beforeRate : jsnum;
  afterRate : jsnum
}.

Record ContrastResult : Type := {
  hasData : bool;
  t0 : isodate;
  s : isodate;
  runDays : Z;
  before : ContrastMetrics;
  after : ContrastMetrics;
  deltaRate : jsnum;
  isImproved : bool;
  velocityChart : list VelocityPoint;
  dailyBreakdown : list DailyContrastRow
}.

(** *** Helpers *)

Definition getReturnCount (o : RawOrderRow) : Z :=
  if (match units_returned o with Some u => 0 <? u | None => false end)
  then (match units_returned o with Some u => u | None => 0 end)
  else match return_date o with
       | Some _ => units_sold o
       | None => 0
       end.

Definition getLag (o : RawOrderRow) : option Z :=
  match return_date o with
  | None => None
  | Some rd =>
      let p := getTime (purchase_date o) in
      let r := getTime rd in
      Some ((r - p) / MS_PER_DAY)
  end.

(** [v[lag] += rCount] on an index inside the array. *)
Fixpoint bumpAt (lag : nat) (rCount : Z) (v : list Z) : list Z :=
  match v, lag with
  | [], _ => []
  | x :: t, O => (x + rCount) :: t
  | x :: t, S k => x :: bumpAt k rCount t
  end.

Record DayAcc : Type := {
  daySales : Z;
  dayReturns : Z;
  velocity : list Z
}.

(** Body of [afterOrders.forEach]. *)
Definition afterStep (daysCount : Z) (acc : DayAcc) (o : RawOrderRow) : DayAcc :=
  let dayASales := daySales acc + units_sold o in
  let rCount := getReturnCount o in
  if 0 <? rCount then
    let lag := getLag o in
    {| daySales := dayASales;
       dayReturns := dayReturns acc + rCount;
       velocity :=
         match lag with
         | Some l =>
             if (0 <=? l) && (l <? daysCount)
             then bumpAt (Z.to_nat l) rCount (velocity acc)
             else velocity acc
         | None => velocity acc
         end |}
  else
    {| daySales := dayASales; dayReturns := dayReturns acc; velocity := velocity acc |}.

(** Body of [beforeOrders.forEach]: the censoring test is [lag <= ageLimitDays]. *)
Definition beforeStep (daysCount ageLimitDays : Z) (acc : DayAcc) (o : RawOrderRow)
  : DayAcc :=
  let dayBSales := daySales acc + units_sold o in
  let rCount := getReturnCount o in
  if 0 <? rCount then
    match getLag o with
    | Some lag =>
        if lag <=? ageLimitDays then
          {| daySales := dayBSales;
             dayReturns := dayReturns acc + rCount;
             velocity :=
               if (0 <=? lag) && (lag <? daysCount)
               then bumpAt (Z.to_nat lag) rCount (velocity acc)
               else velocity acc |}
        else
          {| daySales := dayBSales; dayReturns := dayReturns acc;
             velocity := velocity acc |}
    | None =>
        {| daySales := dayBSales; dayReturns := dayReturns acc;
           velocity := velocity acc |}
    end
  else
    {| daySales := dayBSales; dayReturns := dayReturns acc; velocity := velocity acc |}.

Definition ordersOn (d : isodate) (orders : list RawOrderRow) : list RawOrderRow :=
  filter (fun o => purchase_date o =? d) orders.

Record LoopState : Type := {
  afterTotalSales : Z;
  afterTotalReturns : Z;
  beforeTotalSales : Z;
  beforeTotalReturns : Z;
  dailyRows : list DailyContrastRow;
  afterVelocity : list Z;
  beforeVelocity : list Z
}.

(** One pass of the fairness loop, for day index [i]. *)
Definition dayStep (orders : list RawOrderRow) (maxTime afterStart beforeStart daysCount : Z)
           (st : LoopState) (i : Z) : LoopState :=
  let currentAfterTime := afterStart + i * MS_PER_DAY in
  let currentAfterDateStr := toISODate currentAfterTime in
  let ageLimitMs := maxTime - currentAfterTime in
  let ageLimitDays := ageLimitMs / MS_PER_DAY in
  let afterOrders := ordersOn currentAfterDateStr orders in
  let a := fold_left (afterStep daysCount) afterOrders
             {| daySales := 0; dayReturns := 0; velocity := afterVelocity st |} in
  let currentBeforeTime := beforeStart + i * MS_PER_DAY in
  let currentBeforeDateStr := toISODate currentBeforeTime in
  let beforeOrders := ordersOn currentBeforeDateStr orders in
  let b := fold_left (beforeStep daysCount ageLimitDays) beforeOrders
             {| daySales := 0; dayReturns := 0; velocity := beforeVelocity st |} in
  {| afterTotalSales := afterTotalSales st + daySales a;
     afterTotalReturns := afterTotalReturns st + dayReturns a;
     beforeTotalSales := beforeTotalSales st + daySales b;
     beforeTotalReturns := beforeTotalReturns st + dayReturns b;
     dailyRows :=
       dailyRows st ++
         [{| date := currentAfterDateStr;
             matchedDate := currentBeforeDateStr;
             ageLimit := ageLimitDays;
             day_sales := daySales a;
             day_returns := dayReturns a;
             refSales := daySales b;
             refReturns := dayReturns b |}];
     afterVelocity := velocity a;
     beforeVelocity := velocity b |}.

(** Day indices [0 .. daysCount-1]. *)
Definition dayIndices (daysCount : Z) : list Z :=
  map Z.of_nat (seq 0 (Z.to_nat daysCount)).

Definition fairnessLoop (orders : list RawOrderRow)
           (maxTime afterStart beforeStart daysCount : Z) : LoopState :=
  fold_left (dayStep orders maxTime afterStart beforeStart daysCount)
    (dayIndices daysCount)
    {| afterTotalSales := 0; afterTotalReturns := 0;
       beforeTotalSales := 0; beforeTotalReturns := 0;
       dailyRows := [];
       afterVelocity := repeat 0 (Z.to_nat daysCount);
       beforeVelocity := repeat 0 (Z.to_nat daysCount) |}.

(** Velocity chart: running sums [cumA], [cumB] over the day offsets. *)
Fixpoint velocityLoop (afterTotalSales beforeTotalSales : Z)
         (afterVelocity beforeVelocity : list Z) (ds : list Z) (cumA cumB : Z)
  : list VelocityPoint :=
  match ds with
  | [] => []
  | d :: ds' =>
      let cumA := cumA + nth (Z.to_nat d) afterVelocity 0 in
      let cumB := cumB + nth (Z.to_nat d) beforeVelocity 0 in
      {| day := d;
         afterRate :=
           if 0 <? afterTotalSales
           then js_div (inject_Z cumA) (inject_Z afterTotalSales) else Fin 0;
         beforeRate :=
           if 0 <? beforeTotalSales
           then js_div (inject_Z cumB) (inject_Z beforeTotalSales) else Fin 0 |}
        :: velocityLoop afterTotalSales beforeTotalSales afterVelocity beforeVelocity
             ds' cumA cumB
  end.

(** The analysis once the guards have passed ([maxTime > t0Time]). *)
Definition contrast (orders : list RawOrderRow) (t0Str : isodate) : ContrastResult :=
  let t0Time := getTime t0Str in
  let maxTime := latestTime orders in
  let sStr := toISODate maxTime in
  let afterStart := t0Time + MS_PER_DAY in
  let runDurationMs := maxTime - afterStart in
  let runDaysIndex := runDurationMs / MS_PER_DAY in
  let daysCount := runDaysIndex + 1 in
  let beforeStart := t0Time - daysCount * MS_PER_DAY in
  let st := fairnessLoop orders maxTime afterStart beforeStart daysCount in
  let beforeRate :=
    if 0 <? beforeTotalSales st
    then js_div (inject_Z (beforeTotalReturns st)) (inject_Z (beforeTotalSales st))
    else Fin 0 in
  let afterRate :=
    if 0 <? afterTotalSales st
    then js_div (inject_Z (afterTotalReturns st)) (inject_Z (afterTotalSales st))
    else Fin 0 in
  let deltaRate :=
    if js_gt0 beforeRate then js_quot (js_sub afterRate beforeRate) beforeRate
    else if js_gt0 afterRate then Fin 1
    else Fin 0 in
  {| hasData := true;
     t0 := t0Str;
     s := sStr;
     runDays := daysCount;
     before := {| sales := beforeTotalSales st;
                  returns := beforeTotalReturns st;
                  rate := beforeRate |};
     after := {| sales := afterTotalSales st;
                 returns := afterTotalReturns st;
                 rate := afterRate |};
     deltaRate := deltaRate;
     isImproved := js_lt0 deltaRate;
     velocityChart :=
       velocityLoop (afterTotalSales st) (beforeTotalSales st)
         (afterVelocity st) (beforeVelocity st) (dayIndices daysCount) 0 0;
     dailyBreakdown :=
       sort (fun a b => getTime (date b) - getTime (date a)) (dailyRows st) |}.

Definition analyzeContrast (data : AppData) : option ContrastResult :=
  match return_order data, t0Date data with
  | Some (o :: rest), Some t0Str =>
      let t0Time := getTime t0Str in
      let maxTime := latestTime (o :: rest) in
      if maxTime <=? t0Time then None
      else Some (contrast (o :: rest) t0Str)
  | _, _ => None
  end.

End Contrast.

(* ================================================================== *)
(** ** Specification-side definitions

    These follow the wording of the specification; the theorems below compare
    them with the embedding of the source. *)

Module Spec.
Import JS.

(** Effective return count of the data model. *)
Definition effectiveReturnCount (o : RawOrderRow) : Z :=
  match units_returned o, return_date o with
  | Some u, Some _ => if 0 <? u then u else units_sold o
  | Some u, None => if 0 <? u then u else 0
  | None, Some _ => units_sold o
  | None, None => 0
  end.

(** Lag samples contributed by one order, for cutoff day [T0]. *)
Definition lagContribution (T0 : isodate) (o : RawOrderRow) : list Z :=
  if (T0 - 60 <=? purchase_date o) && (purchase_date o <? T0) then
    match return_date o with
    | Some rd =>
        let c := effectiveReturnCount o in
        let lag := rd - purchase_date o in
        if (0 <? c) && (0 <=? lag) then repeat lag (Z.to_nat c) else []
    | None => []
    end
  else [].

Definition lagSamples (T0 : isodate) (orders : list RawOrderRow) : list Z :=
  flat_map (lagContribution T0) orders.

Definition clamp (lo hi x : Z) : Z := Z.max lo (Z.min x hi).

Definition sampleAt (smp : list Z) (num den : Z) : Z :=
  nth (floor_frac (List.length smp) num den) smp 0.

(** Steps 4-6 of the lag distribution builder, as worded. *)
Definition P50 (smp : list Z) : Z := clamp 5 60 (sampleAt smp 1 2).

Definition P20 (smp : list Z) : Z :=
  Z.max 1 (Z.min (Z.max 1 (sampleAt smp 1 5)) (P50 smp - 1)).

Definition P90 (smp : list Z) : Z :=
  clamp (P50 smp + 1) 90 (Z.max (P50 smp + 5) (sampleAt smp 9 10)).

(** Step 6 with the median taken before it is clamped. *)
Definition P90_raw_median (smp : list Z) : Z :=
  clamp (P50 smp + 1) 90 (Z.max (sampleAt smp 1 2 + 5) (sampleAt smp 9 10)).

(** A guarded ratio: [num/den] for a positive denominator, 0 for a zero
    one, and in no case [NaN]. *)
Definition guardedRatio (r : jsnum) (num den : Q) : Prop :=
  ((0 < den)%Q -> r = Fin (num / den)) /\
  ((den == 0)%Q -> r = Fin 0) /\
  r <> NaN.

(** Sum of a rational projection. *)
Definition sumQ {A : Type} (f : A -> Q) (l : list A) : Q :=
  fold_right (fun x acc => (f x + acc)%Q) 0%Q l.

(** Baseline lag samples of an input, sorted. *)
Definition baselineLags (data : AppData) : list Z :=
  match return_order data, t0Date data with
  | Some orders, Some t0Str =>
      Maturity.sortedLags (Maturity.preSubset (getTime t0Str) orders)
  | _, _ => []
  end.

(** The before-side test of the contrast loop: an order with a positive
    return count whose own lag is known and at most [L]. *)
Definition countedBefore (L : Z) (o : RawOrderRow) : bool :=
  (0 <? Contrast.getReturnCount o) &&
  match Contrast.getLag o with
  | Some lag => lag <=? L
  | None => false
  end.

(** Mature and finalized cohort days are the reliable ones. *)
Definition reliable (row : Maturity.DailyProjectionRow) : bool :=
  match Maturity.phase row with
  | Maturity.rampup => false
  | Maturity.mature | Maturity.finalized => true
  end.

(** What the phase buckets hold after a prefix of the cohort days. *)
Definition rollupInv (acc : list Maturity.DailyProjectionRow * Maturity.ProjBuckets)
  : Prop :=
  let rows := fst acc in
  let fin := Maturity.b_finalized (snd acc) in
  let mat := Maturity.b_mature (snd acc) in
  let ramp := Maturity.b_rampup (snd acc) in
  Maturity.bucket_volume fin + Maturity.bucket_volume mat
    = sumZ Maturity.sales (filter reliable rows)
  /\ Maturity.bucket_volume fin + Maturity.bucket_volume mat
     + Maturity.bucket_volume ramp = sumZ Maturity.sales rows
  /\ Maturity.realizedReturns fin + Maturity.realizedReturns mat
     = sumZ Maturity.realized (filter reliable rows)
  /\ (Maturity.forecastedReturns fin + Maturity.forecastedReturns mat
      == sumQ Maturity.forecastAdd (filter reliable rows))%Q.

(** The audit row of day index [i], written with sums over the orders of
    the two matched days. *)
Definition contrastRow (orders : list RawOrderRow)
           (maxTime afterStart beforeStart : Z) (i : Z) : Contrast.DailyContrastRow :=
  let afterDay := toISODate (afterStart + i * MS_PER_DAY) in
  let beforeDay := toISODate (beforeStart + i * MS_PER_DAY) in
  let L := (maxTime - (afterStart + i * MS_PER_DAY)) / MS_PER_DAY in
  {| Contrast.date := afterDay;
     Contrast.matchedDate := beforeDay;
     Contrast.ageLimit := L;
     Contrast.day_sales := sumZ units_sold (Contrast.ordersOn afterDay orders);
     Contrast.day_returns :=
       sumZ Contrast.getReturnCount
         (filter (fun o => 0 <? Contrast.getReturnCount o)
                 (Contrast.ordersOn afterDay orders));
     Contrast.refSales := sumZ units_sold (Contrast.ordersOn beforeDay orders);
     Contrast.refReturns :=
       sumZ Contrast.getReturnCount
         (filter (countedBefore L) (Contrast.ordersOn beforeDay orders)) |}.

End Spec.

(* ================================================================== *)
(** ** Sample inputs *)

Module Samples.

Definition order (p : isodate) (r : option isodate) (sold : Z) (returned : option Z)
  : RawOrderRow :=
  {| order_id := "order"; purchase_date := p; return_date := r;
     units_sold := sold; units_returned := returned;
     asin := "B0SAMPLE"; fasin := None |}.

(** Scenario 3: three units sold, none recorded as returned, a return date. *)
Definition scenario3 : RawOrderRow :=
  order (ymd 2024 1 1) (Some (ymd 2024 2 5)) 3 (Some 0).

(** Scenario 4: the latest purchase falls on the cutoff day. *)
Definition scenario4Orders : list RawOrderRow :=
  [ order (ymd 2024 2 20) (Some (ymd 2024 2 25)) 4 (Some 1);
    order (ymd 2024 3 1) None 5 None ].

Definition scenario4 : AppData :=
  {| return_order := Some scenario4Orders;
     t0Date := Some (ymd 2024 3 1);
     comparisonSpan := None |}.

(** A contrast input with two days on each side of the cutoff. *)
Definition contrastOrders : list RawOrderRow :=
  [ order (ymd 2024 2 28) (Some (ymd 2024 3 20)) 5 (Some 2);
    order (ymd 2024 2 28) (Some (ymd 2024 2 29)) 4 None;
    order (ymd 2024 2 29) (Some (ymd 2024 3 1)) 3 (Some 1);
    order (ymd 2024 3 2) (Some (ymd 2024 3 3)) 6 (Some 1);
    order (ymd 2024 3 3) None 7 None ].

Definition contrastData : AppData :=
  {| return_order := Some contrastOrders;
     t0Date := Some (ymd 2024 3 1);
     comparisonSpan := None |}.

(** A maturity input: baseline lags 5 (x4), 8 (x2), 20 (x1); cohort days of
    age 32, 14 and 0 at the latest purchase date 2024-04-03. *)
Definition maturityOrders : list RawOrderRow :=
  [ order (ymd 2024 2 10) (Some (ymd 2024 2 15)) 20 (Some 4);
    order (ymd 2024 2 12) (Some (ymd 2024 2 20)) 2 None;
    order (ymd 2024 2 14) (Some (ymd 2024 3 5)) 9 (Some 1);
    order (ymd 2024 3 2) (Some (ymd 2024 3 9)) 100 (Some 10);
    order (ymd 2024 3 20) (Some (ymd 2024 3 22)) 6 (Some 1);
    order (ymd 2024 4 3) None 7 None ].

Definition maturityData : AppData :=
  {| return_order := Some maturityOrders;
     t0Date := Some (ymd 2024 3 1);
     comparisonSpan := Some 45 |}.

(** The cohort day 2024-03-20 of [maturityData]: age 14, mature. *)
Definition matureDay : Maturity.DailyProjectionRow :=
  Eval vm_compute in
    Maturity.projectDay (latestTime maturityOrders) 5 20
      (Maturity.buildDistribution [5; 5; 5; 5; 8; 8; 20] 20)
      (ymd 2024 3 20,
       {| Maturity.vol := 6; Maturity.ret := 1;
          Maturity.pTime := getTime (ymd 2024 3 20) |}).

(** The same cohorts with no return in the baseline window. *)
Definition noBaselineOrders : list RawOrderRow :=
  [ order (ymd 2024 2 20) None 10 None;
    order (ymd 2024 3 2) (Some (ymd 2024 3 9)) 100 (Some 10);
    order (ymd 2024 4 3) None 7 None ].

Definition noBaselineData : AppData :=
  {| return_order := Some noBaselineOrders;
     t0Date := Some (ymd 2024 3 1);
     comparisonSpan := Some 45 |}.

End Samples.

(* ================================================================== *)
(** ** Further specification-side definitions *)

Module Props.
Import JS.

(** Orders purchased on a day of [lo, hi). *)
Definition inDays (lo hi : isodate) (o : RawOrderRow) : bool :=
  (lo <=? purchase_date o) && (purchase_date o <? hi).

(** Orders purchased on day [d]. *)
Definition onDay (d : isodate) (o : RawOrderRow) : bool := purchase_date o =? d.

(** Number of samples in [lo, hi). *)
Definition countIn (lo hi : Z) (smp : list Z) : Z :=
  Z.of_nat (List.length (filter (fun x => (lo <=? x) && (x <? hi)) smp)).

(** Order on finite rates; a non-finite value is related to nothing. *)
Definition rateLe (x y : jsnum) : Prop :=
  match x, y with
  | Fin a, Fin b => (a <= b)%Q
  | _, _ => False
  end.

(** The order has a return date strictly before day [T0]. *)
Definition returnedBefore (T0 : isodate) (o : RawOrderRow) : bool :=
  match return_date o with
  | Some rd => rd <? T0
  | None => false
  end.

End Props.


(** *** Phase buckets of the projection table *)

Module Phases.
Import JS.

(** The cohort day belongs to phase [p]. *)
Definition inPhase (p : Maturity.Phase) (row : Maturity.DailyProjectionRow) : bool :=
  match p, Maturity.phase row with
  | Maturity.rampup, Maturity.rampup
  | Maturity.mature, Maturity.mature
  | Maturity.finalized, Maturity.finalized => true
  | _, _ => false
  end.

(** [projBuckets[p]]. *)
Definition bucketOf (p : Maturity.Phase) (bs : Maturity.ProjBuckets)
  : Maturity.ProjectionBucket :=
  match p with
  | Maturity.finalized => Maturity.b_finalized bs
  | Maturity.mature => Maturity.b_mature bs
  | Maturity.rampup => Maturity.b_rampup bs
  end.

(** What bucket [p] holds after a prefix of the cohort days. *)
Definition bucketInv (p : Maturity.Phase)
           (acc : list Maturity.DailyProjectionRow * Maturity.ProjBuckets) : Prop :=
  let b := bucketOf p (snd acc) in
  let rows := filter (inPhase p) (fst acc) in
  Maturity.id b = p
  /\ Maturity.bucket_volume b = sumZ Maturity.sales rows
  /\ Maturity.realizedReturns b = sumZ Maturity.realized rows
  /\ (Maturity.forecastedReturns b == Spec.sumQ Maturity.forecastAdd rows)%Q.

End Phases.

(** *** Return lags of the velocity chart *)

Module Lags.
Import JS.

(** The order was returned exactly [j] days after its purchase. *)
Definition lagIs (j : Z) (o : RawOrderRow) : bool :=
  match Contrast.getLag o with
  | Some l => l =? j
  | None => false
  end.

(** The order was returned between 0 and [k] days after its purchase. *)
Definition lagUpTo (k : Z) (o : RawOrderRow) : bool :=
  match Contrast.getLag o with
  | Some l => (0 <=? l) && (l <=? k)
  | None => false
  end.

(** Returns of the after window that the chart shows by day [k]. *)
Definition afterCum (orders : list RawOrderRow) (T0 k : Z) : Z :=
  sumZ Contrast.getReturnCount
       (filter (fun o => ((0 <? Contrast.getReturnCount o) && (T0 <? purchase_date o))
                         && lagUpTo k o) orders).

(** Returns of the before window [T0 - n, T0) that the chart shows by day
    [k]: those dated before [T0]. *)
Definition beforeCum (orders : list RawOrderRow) (T0 n k : Z) : Z :=
  sumZ Contrast.getReturnCount
       (filter (fun o => (((0 <? Contrast.getReturnCount o)
                           && Props.returnedBefore T0 o)
                          && Props.inDays (T0 - n) T0 o)
                         && lagUpTo k o) orders).

End Lags.

(* ================================================================== *)
(** ** [components/views/MaturityView.tsx]: the rate cards *)

Module View.
Import JS.

(** Card A: the actual rate against the reference rate. *)
Definition relativeDelta (result : Maturity.MaturityAnalysisResult) : jsnum :=
  let actualRate := Maturity.rate (Maturity.postNominal (Maturity.metrics result)) in
  let refRate := Maturity.rate (Maturity.reference (Maturity.metrics result)) in
  if js_gt0 refRate then js_quot (js_sub actualRate refRate) refRate
  else if js_gt0 actualRate then Fin 1
  else Fin 0.

Definition isActualImprovement (result : Maturity.MaturityAnalysisResult) : bool :=
  js_lt0 (relativeDelta result).

(** Card B: the projected rate against the actual rate; [None] is [null]. *)
Definition projectionDelta (result : Maturity.MaturityAnalysisResult) : option jsnum :=
  let actualRate := Maturity.rate (Maturity.postNominal (Maturity.metrics result)) in
  match Maturity.projection_projectedRate (Maturity.projection result) with
  | Some projectedRate => Some (js_sub projectedRate actualRate)
  | None => None
  end.

End View.

(* ================================================================== *)
(** ** Basic facts: time arithmetic, sorting, sums *)

Section TimeFacts.

Example ymd_epoch : ymd 1970 1 1 = 0.
Proof. reflexivity. Qed.

Example ymd_leap_year : ymd 2024 3 1 - ymd 2024 2 28 = 2.
Proof. reflexivity. Qed.

Example ymd_scenario3 : ymd 2024 2 5 - ymd 2024 1 1 = 35.
Proof. reflexivity. Qed.

Example ymd_baseline_start : ymd 2024 3 1 - 60 = ymd 2024 1 1.
Proof. reflexivity. Qed.

Lemma MS_PER_DAY_pos : 0 < MS_PER_DAY.
Proof. reflexivity. Qed.

Lemma toISODate_getTime (d : isodate) : toISODate (getTime d) = d.
Proof. unfold toISODate, getTime. apply Z.div_mul. discriminate. Qed.

Lemma getTime_diff_days (a b : isodate) :
  (getTime a - getTime b) / MS_PER_DAY = a - b.
Proof.
  unfold getTime. rewrite <- Z.mul_sub_distr_r. apply Z.div_mul. discriminate.
Qed.

Lemma getTime_le (a b : isodate) : getTime a <= getTime b <-> a <= b.
Proof. unfold getTime. pose proof MS_PER_DAY_pos. nia. Qed.

Lemma getTime_lt (a b : isodate) : getTime a < getTime b <-> a < b.
Proof. unfold getTime. pose proof MS_PER_DAY_pos. nia. Qed.

Lemma getTime_shift (a k : Z) : getTime a + k * MS_PER_DAY = getTime (a + k).
Proof. unfold getTime. ring. Qed.

Lemma latest_fold_day (orders : list RawOrderRow) (acc : Z) :
  (exists d, 0 <= d /\ acc = getTime d) ->
  exists d, 0 <= d /\
    fold_left (fun maxTime o =>
                 let t := getTime (purchase_date o) in
                 if maxTime <? t then t else maxTime) orders acc = getTime d.
Proof.
  revert acc.
  induction orders as [|o os IH]; intros acc H; simpl; [exact H|].
  apply IH. destruct H as (d & Hd & ->).
  destruct (getTime d <? getTime (purchase_date o)) eqn:E.
  - exists (purchase_date o). split; [|reflexivity].
    apply Z.ltb_lt in E. apply (proj1 (getTime_lt _ _)) in E. lia.
  - exists d. split; [assumption | reflexivity].
Qed.

(** S is the time stamp of a day, never before the epoch. *)
Lemma latestTime_day (orders : list RawOrderRow) :
  exists d, 0 <= d /\ latestTime orders = getTime d.
Proof.
  unfold latestTime. apply latest_fold_day.
  exists 0. split; [lia | reflexivity].
Qed.

End TimeFacts.

Section SortAndSum.
Import JS.

Context {A : Type}.

Lemma sort_insert_perm (cmp : A -> A -> Z) (x : A) (l : list A) :
  Permutation (sort_insert cmp x l) (x :: l).
Proof.
  induction l as [|y t IH]; simpl; [reflexivity|].
  destruct (cmp x y <=? 0); [reflexivity|].
  rewrite IH. apply perm_swap.
Qed.

Lemma sort_perm (cmp : A -> A -> Z) (l : list A) : Permutation (sort cmp l) l.
Proof.
  induction l as [|x t IH]; simpl; [reflexivity|].
  unfold sort in *. simpl. rewrite sort_insert_perm. now constructor.
Qed.

Lemma sort_In (cmp : A -> A -> Z) (l : list A) (x : A) : In x (sort cmp l) <-> In x l.
Proof.
  split; apply Permutation_in; [|symmetry]; apply sort_perm.
Qed.

Lemma sumZ_from (f : A -> Z) (l : list A) (acc : Z) :
  fold_left (fun a cur => a + f cur) l acc = acc + sumZ f l.
Proof.
  unfold sumZ. revert acc.
  induction l as [|x t IH]; intros acc; simpl; [lia|].
  rewrite (IH (acc + f x)), (IH (f x)). lia.
Qed.

Lemma sumZ_cons (f : A -> Z) (x : A) (l : list A) : sumZ f (x :: l) = f x + sumZ f l.
Proof. unfold sumZ at 1. simpl. rewrite sumZ_from. lia. Qed.

Lemma sumZ_app (f : A -> Z) (l1 l2 : list A) :
  sumZ f (l1 ++ l2) = sumZ f l1 + sumZ f l2.
Proof.
  induction l1 as [|x t IH]; simpl; [reflexivity|].
  rewrite !sumZ_cons, IH. lia.
Qed.

Lemma sumZ_perm (f : A -> Z) (l1 l2 : list A) :
  Permutation l1 l2 -> sumZ f l1 = sumZ f l2.
Proof.
  induction 1; rewrite ?sumZ_cons; lia.
Qed.

End SortAndSum.

Section NumericSort.
Import JS.

Lemma sort_insert_sorted (x : Z) (l : list Z) :
  Sorted Z.le l -> Sorted Z.le (sort_insert (fun a b => a - b) x l).
Proof.
  induction l as [|y t IH]; intros S; simpl.
  - repeat constructor.
  - destruct (Z.leb_spec (x - y) 0) as [L|L].
    + constructor; [exact S|]. constructor. lia.
    + inversion S as [|? ? St Hd]; subst.
      constructor; [now apply IH|].
      destruct t as [|z t']; simpl.
      * constructor. lia.
      * destruct (x - z <=? 0); constructor; [lia|].
        inversion Hd; subst. assumption.
Qed.

(** [sort((a, b) => a - b)] leaves the array in ascending order. *)
Lemma sort_ascending (l : list Z) : Sorted Z.le (sort (fun a b => a - b) l).
Proof.
  induction l as [|x t IH]; [constructor|].
  unfold sort in *. simpl. now apply sort_insert_sorted.
Qed.

End NumericSort.

(* ================================================================== *)
(** ** Lag distribution builder: samples and markers *)

Section LagSamples.
Import JS.

Lemma getReturnCount_effective (o : RawOrderRow) :
  Maturity.getReturnCount o = Spec.effectiveReturnCount o.
Proof.
  unfold Maturity.getReturnCount, Spec.effectiveReturnCount, Maturity.has_return_date.
  destruct (units_returned o) as [u|], (return_date o) as [rd|]; reflexivity.
Qed.

Lemma in_window_baseline (T0 : isodate) (o : RawOrderRow) :
  Maturity.in_window (getTime T0 - 60 * MS_PER_DAY) (getTime T0) o
  = (T0 - 60 <=? purchase_date o) && (purchase_date o <? T0).
Proof.
  unfold Maturity.in_window, Maturity.purchaseTime, getTime.
  change MS_PER_DAY with 86400000.
  f_equal.
  - destruct (Z.leb_spec (T0 - 60) (purchase_date o));
      [apply Z.leb_le | apply Z.leb_gt]; lia.
  - destruct (Z.ltb_spec (purchase_date o) T0);
      [apply Z.ltb_lt | apply Z.ltb_ge]; lia.
Qed.

Lemma lagPushes_contribution (T0 : isodate) (o : RawOrderRow) :
  (if Maturity.in_window (getTime T0 - 60 * MS_PER_DAY) (getTime T0) o
   then Maturity.lagPushes o else [])
  = Spec.lagContribution T0 o.
Proof.
  rewrite in_window_baseline. unfold Spec.lagContribution, Maturity.lagPushes.
  destruct ((T0 - 60 <=? purchase_date o) && (purchase_date o <? T0)); [|reflexivity].
  rewrite getReturnCount_effective.
  destruct (return_date o) as [rd|]; [|reflexivity].
  rewrite getTime_diff_days.
  destruct (0 <? Spec.effectiveReturnCount o); reflexivity.
Qed.

Lemma unsortedLags_samples (T0 : isodate) (orders : list RawOrderRow) :
  Maturity.unsortedLags (Maturity.preSubset (getTime T0) orders)
  = Spec.lagSamples T0 orders.
Proof.
  unfold Maturity.unsortedLags, Maturity.preSubset, Spec.lagSamples.
  induction orders as [|o os IH]; simpl; [reflexivity|].
  rewrite <- lagPushes_contribution, <- IH.
  destruct (Maturity.in_window _ _ o); reflexivity.
Qed.

Lemma lagContribution_nonneg (T0 : isodate) (o : RawOrderRow) :
  Forall (fun v => 0 <= v) (Spec.lagContribution T0 o).
Proof.
  unfold Spec.lagContribution.
  destruct (_ && _); [|constructor].
  destruct (return_date o) as [rd|]; [|constructor].
  destruct (0 <? _); simpl; [|constructor].
  destruct (Z.leb_spec 0 (rd - purchase_date o)); [|constructor].
  apply Forall_forall. intros v Hv. apply repeat_spec in Hv. lia.
Qed.

(** C7. The lag samples are, as a multiset, exactly the samples the
    specification lists: one copy of the whole-day lag per effectively
    returned unit, for every order purchased in [T0-60d, T0) that has a
    return date, a positive effective return count and a non-negative lag;
    nothing else contributes, no sample is negative, and the array is in
    ascending order.  The order of
    scenario 3 contributes lag 35 three times. *)
Theorem lag_samples_multiset (T0 : isodate) (orders : list RawOrderRow) :
  Permutation (Maturity.sortedLags (Maturity.preSubset (getTime T0) orders))
              (Spec.lagSamples T0 orders)
  /\ Sorted Z.le (Maturity.sortedLags (Maturity.preSubset (getTime T0) orders))
  /\ Forall (fun v => 0 <= v)
            (Maturity.sortedLags (Maturity.preSubset (getTime T0) orders))
  /\ Spec.effectiveReturnCount Samples.scenario3 = 3
  /\ Maturity.sortedLags
       (Maturity.preSubset (getTime (ymd 2024 3 1)) [Samples.scenario3])
     = [35; 35; 35].
Proof.
  assert (P : Permutation
                (Maturity.sortedLags (Maturity.preSubset (getTime T0) orders))
                (Spec.lagSamples T0 orders)).
  { unfold Maturity.sortedLags. rewrite sort_perm.
    now rewrite unsortedLags_samples. }
  split; [exact P|]. split; [apply sort_ascending|]. split; [|split; reflexivity].
  apply Forall_forall. intros v Hv.
  apply (Permutation_in _ P) in Hv.
  unfold Spec.lagSamples in Hv. apply in_flat_map in Hv.
  destruct Hv as (o & _ & Hv).
  pose proof (lagContribution_nonneg T0 o) as F.
  rewrite Forall_forall in F. now apply F.
Qed.

End LagSamples.

Section MarkerFacts.
Import JS.

Lemma markers_nonempty (x : Z) (t : list Z) :
  let smp := x :: t in
  Maturity.markers smp =
  {| Maturity.m_d := Spec.P50 smp;
     Maturity.m_p20 := Spec.P20 smp;
     Maturity.m_p90 := Spec.P90_raw_median smp |}.
Proof.
  intros smp.
  unfold Maturity.markers, Maturity.clampMarkers, Maturity.rawMarkers, smp.
  cbv beta iota zeta.
  unfold Maturity.m_d, Maturity.m_p20, Maturity.m_p90.
  unfold Spec.P20, Spec.P90_raw_median, Spec.P50, Spec.clamp, Spec.sampleAt.
  f_equal.
  match goal with |- (if ?c <? 1 then _ else _) = _ => destruct (Z.ltb_spec c 1) end; lia.
Qed.

Lemma markers_bounds (lags : list Z) :
  let m := Maturity.markers lags in
  Maturity.m_p20 m <= Maturity.m_d m <= Maturity.m_p90 m
  /\ 5 <= Maturity.m_d m <= 60
  /\ Maturity.m_d m + 1 <= Maturity.m_p90 m <= 90
  /\ 1 <= Maturity.m_p20 m.
Proof.
  unfold Maturity.markers, Maturity.clampMarkers. cbv zeta.
  unfold Maturity.m_d at 1 3 4 5 6 7 8, Maturity.m_p20 at 1 3, Maturity.m_p90 at 1 3 4.
  destruct (Maturity.rawMarkers lags) as [d p20 p90].
  unfold Maturity.m_d, Maturity.m_p20, Maturity.m_p90.
  destruct (Z.ltb_spec (Z.min p20 (Z.max 5 (Z.min d 60) - 1)) 1); lia.
Qed.

(** C2, as worded, fails on the one-sample array [[2]]: the source takes
    [max(d_value + 5, ...)] before [d_value] is clamped, giving P90 = 7,
    where the worded formula with the clamped P50 = 5 gives 10. *)
Lemma markers_clamped_median_counterexample :
  ~ (Maturity.m_d (Maturity.markers [2]) = Spec.P50 [2]
     /\ Maturity.m_p20 (Maturity.markers [2]) = Spec.P20 [2]
     /\ Maturity.m_p90 (Maturity.markers [2]) = Spec.P90 [2]).
Proof. intros (_ & _ & H). discriminate H. Qed.

(** C2 (amended). For every non-empty sample array the markers are
    P50 = s[floor(n/2)] clamped to [5,60], P20 = max(1, s[floor(n/5)])
    capped below P50 with floor 1, and P90 = max(m + 5, s[floor(9n/10)])
    clamped to [P50+1, 90], where m = s[floor(n/2)] is the median before
    clamping.  The sample of scenario 1 gives P50 = 5, P20 = 2, P90 = 20. *)
Theorem markers_formulas (smp : list Z) (Hne : smp <> []) :
  Maturity.m_d (Maturity.markers smp) = Spec.P50 smp
  /\ Maturity.m_p20 (Maturity.markers smp) = Spec.P20 smp
  /\ Maturity.m_p90 (Maturity.markers smp) = Spec.P90_raw_median smp
  /\ Maturity.markers [2; 2; 5; 5; 5; 8; 10; 12; 20]
     = {| Maturity.m_d := 5; Maturity.m_p20 := 2; Maturity.m_p90 := 20 |}.
Proof.
  destruct smp as [|x t]; [congruence|].
  rewrite markers_nonempty. repeat split.
Qed.

Lemma markers_formulas_witness :
  [2; 2; 5] <> []
  /\ Maturity.m_d (Maturity.markers [2; 2; 5]) = Spec.P50 [2; 2; 5]
  /\ Maturity.m_p20 (Maturity.markers [2; 2; 5]) = Spec.P20 [2; 2; 5]
  /\ Maturity.m_p90 (Maturity.markers [2; 2; 5]) = Spec.P90_raw_median [2; 2; 5]
  /\ Maturity.markers [2; 2; 5; 5; 5; 8; 10; 12; 20]
     = {| Maturity.m_d := 5; Maturity.m_p20 := 2; Maturity.m_p90 := 20 |}.
Proof.
  split; [discriminate|].
  apply (markers_formulas [2; 2; 5]). discriminate.
Defined.

End MarkerFacts.

(* ================================================================== *)
(** ** Cohort projector *)

Section Projector.
Import JS.

Lemma analyzeMaturity_Some (data : AppData) (res : Maturity.MaturityAnalysisResult) :
  Maturity.analyzeMaturity data = Some res ->
  exists o rest t0Str,
    return_order data = Some (o :: rest)
    /\ t0Date data = Some t0Str
    /\ res = Maturity.analyze (o :: rest) o t0Str (Maturity.spanDays data).
Proof.
  unfold Maturity.analyzeMaturity.
  destruct (return_order data) as [[|o rest]|]; try discriminate.
  destruct (t0Date data) as [t0Str|]; try discriminate.
  intros H. injection H as <-. now exists o, rest, t0Str.
Qed.

Lemma projectAll_from (sTime d p90 : Z) (dist : list Maturity.LagBucket)
      (dailyMap : list (isodate * Maturity.DayStats))
      (acc : list Maturity.DailyProjectionRow * Maturity.ProjBuckets) :
  fst (fold_left
         (fun acc entry =>
            let row := Maturity.projectDay sTime d p90 dist entry in
            (fst acc ++ [row], Maturity.accumulate (snd acc) row))
         dailyMap acc)
  = fst acc ++ map (Maturity.projectDay sTime d p90 dist) dailyMap.
Proof.
  revert acc. induction dailyMap as [|e es IH]; intros acc; simpl.
  - now rewrite app_nil_r.
  - rewrite IH. simpl. now rewrite <- app_assoc.
Qed.

Lemma projectAll_rows (sTime d p90 : Z) (dist : list Maturity.LagBucket)
      (dailyMap : list (isodate * Maturity.DayStats)) :
  fst (Maturity.projectAll sTime d p90 dist dailyMap)
  = map (Maturity.projectDay sTime d p90 dist) dailyMap.
Proof. unfold Maturity.projectAll. now rewrite projectAll_from. Qed.

(** Every row of the result is the projection of one cohort day. *)
Lemma dailyProjections_row (orders : list RawOrderRow) (o : RawOrderRow)
      (t0Str : isodate) (span : Z) (row : Maturity.DailyProjectionRow) :
  let res := Maturity.analyze orders o t0Str span in
  In row (Maturity.dailyProjections res) ->
  exists entry,
    In entry (Maturity.buildDailyMap
                (filter (Maturity.in_window (getTime t0Str)
                           (getTime t0Str + span * MS_PER_DAY)) orders))
    /\ row = Maturity.projectDay (latestTime orders) (Maturity.d_value res)
               (Maturity.p90_value res) (Maturity.distribution res) entry.
Proof.
  intros res H. unfold res, Maturity.analyze in H. cbn [Maturity.dailyProjections] in H.
  apply sort_In in H. rewrite projectAll_rows in H.
  apply in_map_iff in H. destruct H as (entry & <- & Hin).
  now exists entry.
Qed.

Lemma dailyMapAdd_entries (P : isodate -> Maturity.DayStats -> Prop)
      (o : RawOrderRow) (m : list (isodate * Maturity.DayStats)) :
  (forall k e, In (k, e) m -> P k e) ->
  (forall e, Maturity.pTime e = getTime (purchase_date o) -> P (purchase_date o) e) ->
  (forall k e e', Maturity.pTime e' = Maturity.pTime e -> P k e -> P k e') ->
  forall k e, In (k, e) (Maturity.dailyMapAdd (purchase_date o) o m) -> P k e.
Proof.
  intros Hm Hnew Hupd. induction m as [|[k0 e0] rest IH]; intros k e H; simpl in H.
  - destruct H as [H|[]]. injection H as <- <-. now apply Hnew.
  - destruct (k0 =? purchase_date o).
    + destruct H as [H|H].
      * injection H as <- <-. apply (Hupd k0 e0); [reflexivity|].
        apply Hm. now left.
      * apply Hm. now right.
    + destruct H as [H|H].
      * injection H as <- <-. apply Hm. now left.
      * apply IH; [|exact H]. intros k' e' Hin. apply Hm. now right.
Qed.

(** Every cohort day is the purchase day of an order of the subset, and its
    [pTime] is the time stamp of that day. *)
Lemma buildDailyMap_entries (subset : list RawOrderRow) (k : isodate)
      (e : Maturity.DayStats) :
  In (k, e) (Maturity.buildDailyMap subset) ->
  Maturity.pTime e = getTime k /\ exists o, In o subset /\ purchase_date o = k.
Proof.
  unfold Maturity.buildDailyMap.
  set (P := fun (k : isodate) (e : Maturity.DayStats) =>
              Maturity.pTime e = getTime k
              /\ exists o, In o subset /\ purchase_date o = k).
  assert (G : forall l m,
             (forall o, In o l -> In o subset) ->
             (forall k e, In (k, e) m -> P k e) ->
             forall k e,
               In (k, e) (fold_left (fun m o => Maturity.dailyMapAdd (purchase_date o) o m)
                                    l m) -> P k e).
  { induction l as [|o os IH]; intros m Hl Hm k' e' H; simpl in H.
    - now apply Hm.
    - apply (IH (Maturity.dailyMapAdd (purchase_date o) o m)); [| |exact H].
      + intros o' Ho'. apply Hl. now right.
      + apply dailyMapAdd_entries; [exact Hm | |].
        * intros e0 He0. split; [exact He0|]. exists o. split; [|reflexivity].
          apply Hl. now left.
        * intros k0 e0 e1 E (Q1 & Q2). split; [congruence | exact Q2]. }
  intros H. apply (G subset [] (fun o Ho => Ho)); [|exact H].
  intros k' e' [].
Qed.

Lemma js_max_Qmax (a b : Q) : (Maturity.js_max a b == Qmax a b)%Q.
Proof.
  unfold Maturity.js_max. destruct (Qle_bool a b) eqn:E.
  - apply Qle_bool_iff in E. symmetry. now apply Q.max_r.
  - symmetry. apply Q.max_l. apply Qlt_le_weak, Qnot_le_lt.
    intros H. apply Qle_bool_iff in H. congruence.
Qed.

Lemma grossUp_nonneg (realized : Z) (cumPct : Q) :
  (0 <= Maturity.grossUp realized cumPct)%Q.
Proof.
  unfold Maturity.grossUp. destruct (negb _); [|apply Qle_refl].
  rewrite js_max_Qmax. apply Q.le_max_l.
Qed.

Lemma grossUp_above (realized : Z) (cumPct : Q) :
  (1 # 100 < cumPct)%Q ->
  (Maturity.grossUp realized cumPct
   == Qmax 0 (inject_Z realized / cumPct - inject_Z realized))%Q.
Proof.
  intros H. unfold Maturity.grossUp.
  destruct (Qle_bool cumPct (1 # 100)) eqn:E; simpl.
  - apply Qle_bool_iff in E. exfalso. revert H. now apply Qle_not_lt.
  - apply js_max_Qmax.
Qed.

Lemma grossUp_below (realized : Z) (cumPct : Q) :
  ~ (1 # 100 < cumPct)%Q -> Maturity.grossUp realized cumPct = 0%Q.
Proof.
  intros H. unfold Maturity.grossUp.
  destruct (Qle_bool cumPct (1 # 100)) eqn:E; simpl; [reflexivity|].
  exfalso. apply H. apply Qnot_le_lt. intros L.
  apply Qle_bool_iff in L. congruence.
Qed.

Lemma analyze_markers (orders : list RawOrderRow) (o : RawOrderRow)
      (t0Str : isodate) (span : Z) :
  let res := Maturity.analyze orders o t0Str span in
  Maturity.p20_value res <= Maturity.d_value res <= Maturity.p90_value res
  /\ 5 <= Maturity.d_value res <= 60
  /\ Maturity.d_value res + 1 <= Maturity.p90_value res <= 90
  /\ 1 <= Maturity.p20_value res.
Proof.
  unfold Maturity.analyze.
  cbn [Maturity.p20_value Maturity.d_value Maturity.p90_value].
  apply markers_bounds.
Qed.

(** C8. The markers of every analysis satisfy P20 <= P50 <= P90,
    P50 in [5,60], P90 in [P50+1,90] and P20 >= 1; in particular they do
    for every non-empty baseline sample. *)
Theorem markers_ordered (data : AppData) (res : Maturity.MaturityAnalysisResult)
        (H : Maturity.analyzeMaturity data = Some res) :
  Maturity.p20_value res <= Maturity.d_value res <= Maturity.p90_value res
  /\ 5 <= Maturity.d_value res <= 60
  /\ Maturity.d_value res + 1 <= Maturity.p90_value res <= 90
  /\ 1 <= Maturity.p20_value res.
Proof.
  apply analyzeMaturity_Some in H. destruct H as (o & rest & t0Str & _ & _ & ->).
  apply analyze_markers.
Qed.

Lemma markers_ordered_witness :
  Spec.baselineLags Samples.maturityData = [5; 5; 5; 5; 8; 8; 20]
  /\ exists res,
       Maturity.analyzeMaturity Samples.maturityData = Some res
       /\ Maturity.p20_value res <= Maturity.d_value res <= Maturity.p90_value res
       /\ 5 <= Maturity.d_value res <= 60
       /\ Maturity.d_value res + 1 <= Maturity.p90_value res <= 90
       /\ 1 <= Maturity.p20_value res.
Proof.
  split; [reflexivity|].
  eexists. split; [reflexivity|].
  apply (markers_ordered Samples.maturityData). reflexivity.
Defined.

End Projector.

(* ================================================================== *)
(** ** Cohort days: phases and gross-up *)

Section CohortRows.
Import JS.

Lemma projectDay_cases (sTime d p90 : Z) (dist : list Maturity.LagBucket)
      (entry : isodate * Maturity.DayStats) (Hd : d + 1 <= p90) :
  let row := Maturity.projectDay sTime d p90 dist entry in
  (Maturity.date row = fst entry
   /\ Maturity.age row = (sTime - Maturity.pTime (snd entry)) / MS_PER_DAY
   /\ Maturity.lagPct row = Maturity.getCumulativePct dist (Maturity.age row))
  /\ (Maturity.phase row = Maturity.rampup <-> Maturity.age row < d)
  /\ (Maturity.phase row = Maturity.mature <-> d <= Maturity.age row <= p90)
  /\ (Maturity.phase row = Maturity.finalized <-> p90 < Maturity.age row)
  /\ (Maturity.phase row <> Maturity.rampup ->
      Maturity.forecastAdd row
        = Maturity.grossUp (Maturity.realized row) (Maturity.lagPct row)
      /\ Maturity.projectedTotal row
         = (inject_Z (Maturity.realized row) + Maturity.forecastAdd row)%Q)
  /\ (Maturity.phase row = Maturity.rampup ->
      Maturity.forecastAdd row = 0%Q
      /\ Maturity.projectedTotal row = inject_Z (Maturity.realized row)).
Proof.
  intros row. subst row. unfold Maturity.projectDay.
  set (ageDays := (sTime - Maturity.pTime (snd entry)) / MS_PER_DAY).
  remember (Maturity.getCumulativePct dist ageDays) as cum eqn:Ec.
  destruct (Z.ltb_spec p90 ageDays) as [L1|L1];
    [|destruct (Z.leb_spec d ageDays) as [L2|L2]];
    cbn [Maturity.lagPct Maturity.age Maturity.phase Maturity.forecastAdd
         Maturity.projectedTotal Maturity.realized Maturity.date];
    (split; [split; [reflexivity | split; [reflexivity | exact Ec]]|]);
    repeat split; intros; try congruence; try lia.
Qed.

(** C3. For every cohort day of a result: its date lies in the forecast
    window [T0, T0+span) and its age is S - date in whole days; the phase is
    ramp-up, mature or finalized according to age < P50, P50 <= age <= P90 or
    age > P90; a
    mature or finalized day has forecast_add = max(0, realized/fraction -
    realized) when its cumulative fraction exceeds 0.01 and 0 otherwise, and
    projected_total = realized + forecast_add >= realized; a ramp-up day has
    forecast_add = 0 and projected_total = realized. *)
Theorem cohort_day_projection (data : AppData) (res : Maturity.MaturityAnalysisResult)
        (row : Maturity.DailyProjectionRow)
        (H : Maturity.analyzeMaturity data = Some res)
        (Hrow : In row (Maturity.dailyProjections res)) :
  Maturity.t0 res <= Maturity.date row < Maturity.t0 res + Maturity.spanDays data
  /\ Maturity.age row = Maturity.s res - Maturity.date row
  /\ Maturity.lagPct row
     = Maturity.getCumulativePct (Maturity.distribution res) (Maturity.age row)
  /\ (Maturity.phase row = Maturity.rampup
      <-> Maturity.age row < Maturity.d_value res)
  /\ (Maturity.phase row = Maturity.mature
      <-> Maturity.d_value res <= Maturity.age row <= Maturity.p90_value res)
  /\ (Maturity.phase row = Maturity.finalized
      <-> Maturity.p90_value res < Maturity.age row)
  /\ (Maturity.phase row <> Maturity.rampup ->
      ((1 # 100 < Maturity.lagPct row)%Q ->
       (Maturity.forecastAdd row
        == Qmax 0 (inject_Z (Maturity.realized row) / Maturity.lagPct row
                   - inject_Z (Maturity.realized row)))%Q)
      /\ (~ (1 # 100 < Maturity.lagPct row)%Q -> Maturity.forecastAdd row = 0%Q)
      /\ Maturity.projectedTotal row
         = (inject_Z (Maturity.realized row) + Maturity.forecastAdd row)%Q
      /\ (inject_Z (Maturity.realized row) <= Maturity.projectedTotal row)%Q)
  /\ (Maturity.phase row = Maturity.rampup ->
      Maturity.forecastAdd row = 0%Q
      /\ Maturity.projectedTotal row = inject_Z (Maturity.realized row)).
Proof.
  apply analyzeMaturity_Some in H. destruct H as (o & rest & t0Str & _ & _ & ->).
  pose proof (analyze_markers (o :: rest) o t0Str (Maturity.spanDays data))
    as (_ & _ & (Hd & _) & _).
  apply dailyProjections_row in Hrow. destruct Hrow as (entry & Hentry & ->).
  match goal with
  | |- context [Maturity.projectDay ?a ?b ?c ?e entry] =>
      pose proof (projectDay_cases a b c e entry Hd) as P
  end.
  cbv zeta in P. destruct P as ((P0 & Pa & P1) & P2 & P3 & P4 & P5 & P6).
  destruct entry as [k e]. apply buildDailyMap_entries in Hentry.
  destruct Hentry as (Ek & o' & Ho' & Eo'). apply filter_In in Ho'.
  destruct Ho' as (_ & Hw). unfold Maturity.in_window, Maturity.purchaseTime in Hw.
  rewrite Eo' in Hw. apply andb_prop in Hw. destruct Hw as (W1 & W2).
  apply Z.leb_le, (proj1 (getTime_le _ _)) in W1.
  rewrite getTime_shift in W2. apply Z.ltb_lt, (proj1 (getTime_lt _ _)) in W2.
  cbn [fst snd] in P0, Pa. rewrite Ek in Pa.
  destruct (latestTime_day (o :: rest)) as (sd & _ & Es).
  split; [rewrite P0; unfold Maturity.analyze; cbn [Maturity.t0]; lia|].
  split; [rewrite Pa, P0; unfold Maturity.analyze; cbn [Maturity.s];
          rewrite Es, getTime_diff_days, toISODate_getTime; reflexivity|].
  split; [exact P1|]. split; [exact P2|]. split; [exact P3|]. split; [exact P4|].
  split; [|exact P6].
  intros Hp. destruct (P5 Hp) as (F & T).
  split; [|split; [|split]].
  - intros Hc. rewrite F. now apply grossUp_above.
  - intros Hc. rewrite F. now apply grossUp_below.
  - exact T.
  - rewrite T, F.
    rewrite <- (Qplus_0_r (inject_Z _)) at 1.
    apply Qplus_le_r, grossUp_nonneg.
Qed.

Lemma cohort_day_projection_witness :
  exists res,
    Maturity.analyzeMaturity Samples.maturityData = Some res
    /\ In Samples.matureDay (Maturity.dailyProjections res)
    /\ Maturity.phase Samples.matureDay = Maturity.mature
    /\ (Maturity.forecastAdd Samples.matureDay == 1 # 6)%Q
    /\ Maturity.phase Samples.matureDay <> Maturity.rampup
    /\ (inject_Z (Maturity.realized Samples.matureDay)
        <= Maturity.projectedTotal Samples.matureDay)%Q.
Proof.
  eexists. split; [reflexivity|].
  assert (Hin : In Samples.matureDay
                   (Maturity.dailyProjections
                      (Maturity.analyze Samples.maturityOrders
                         (Samples.order (ymd 2024 2 10) (Some (ymd 2024 2 15)) 20 (Some 4))
                         (ymd 2024 3 1) 45)))
    by (vm_compute; right; left; reflexivity).
  split; [exact Hin|]. split; [reflexivity|]. split; [reflexivity|].
  split; [discriminate|].
  pose proof (cohort_day_projection Samples.maturityData _ Samples.matureDay
                eq_refl Hin) as (_ & _ & _ & _ & _ & _ & P & _).
  apply P. discriminate.
Defined.

Lemma grossUp_full (realized : Z) : (Maturity.grossUp realized 1 == 0)%Q.
Proof.
  unfold Maturity.grossUp. simpl. unfold Maturity.js_max.
  destruct (Qle_bool 0 _); [field | reflexivity].
Qed.

(** C6. When the baseline window yields no lag sample, the markers are the
    defaults P20 = 4, P50 = 14, P90 = 30, the histogram is empty, every
    cumulative-fraction lookup is 1, and no cohort day is grossed up:
    forecast_add is 0 and projected_total is the realized count. *)
Theorem degenerate_distribution (data : AppData) (res : Maturity.MaturityAnalysisResult)
        (H : Maturity.analyzeMaturity data = Some res)
        (Hz : Spec.baselineLags data = []) :
  Maturity.p20_value res = 4
  /\ Maturity.d_value res = 14
  /\ Maturity.p90_value res = 30
  /\ Maturity.distribution res = []
  /\ (forall ageDays, Maturity.getCumulativePct (Maturity.distribution res) ageDays = 1%Q)
  /\ (forall row, In row (Maturity.dailyProjections res) ->
        Maturity.lagPct row = 1%Q
        /\ (Maturity.forecastAdd row == 0)%Q
        /\ (Maturity.projectedTotal row == inject_Z (Maturity.realized row))%Q).
Proof.
  apply analyzeMaturity_Some in H. destruct H as (o & rest & t0Str & Ho & Ht & ->).
  pose proof (analyze_markers (o :: rest) o t0Str (Maturity.spanDays data))
    as (_ & _ & (Hd & _) & _).
  unfold Spec.baselineLags in Hz. rewrite Ho, Ht in Hz.
  assert (Hdist : Maturity.distribution
                    (Maturity.analyze (o :: rest) o t0Str (Maturity.spanDays data)) = []).
  { unfold Maturity.analyze. cbn [Maturity.distribution]. now rewrite Hz. }
  assert (Hm : Maturity.p20_value
                 (Maturity.analyze (o :: rest) o t0Str (Maturity.spanDays data)) = 4
               /\ Maturity.d_value
                    (Maturity.analyze (o :: rest) o t0Str (Maturity.spanDays data)) = 14
               /\ Maturity.p90_value
                    (Maturity.analyze (o :: rest) o t0Str (Maturity.spanDays data)) = 30).
  { unfold Maturity.analyze.
    cbn [Maturity.p20_value Maturity.d_value Maturity.p90_value].
    rewrite Hz. now repeat split. }
  destruct Hm as (H20 & H50 & H90).
  repeat (split; [assumption|]).
  split; [intros ageDays; now rewrite Hdist|].
  intros row Hrow.
  apply dailyProjections_row in Hrow. destruct Hrow as (entry & Hentry & ->).
  rewrite Hdist.
  match goal with
  | |- context [Maturity.projectDay ?a ?b ?c ?e entry] =>
      pose proof (projectDay_cases a b c e entry Hd) as P
  end.
  cbv zeta in P.
  set (row := Maturity.projectDay _ _ _ _ entry) in *.
  destruct P as ((_ & _ & P1) & _ & _ & _ & P5 & P6).
  simpl Maturity.getCumulativePct in P1.
  split; [exact P1|].
  destruct (Maturity.phase row) eqn:Ep.
  - destruct (P6 eq_refl) as (-> & ->). split; reflexivity.
  - destruct P5 as (F & T); [discriminate|].
    rewrite T, F, P1. rewrite grossUp_full. split; [reflexivity | ring].
  - destruct P5 as (F & T); [discriminate|].
    rewrite T, F, P1. rewrite grossUp_full. split; [reflexivity | ring].
Qed.

Lemma degenerate_distribution_witness :
  Spec.baselineLags Samples.noBaselineData = []
  /\ exists res,
       Maturity.analyzeMaturity Samples.noBaselineData = Some res
       /\ List.length (Maturity.dailyProjections res) = 2%nat
       /\ Maturity.p20_value res = 4
       /\ Maturity.d_value res = 14
       /\ Maturity.p90_value res = 30
       /\ Maturity.distribution res = [].
Proof.
  split; [reflexivity|].
  eexists. split; [reflexivity|]. split; [reflexivity|].
  pose proof (degenerate_distribution Samples.noBaselineData _ eq_refl eq_refl)
    as (A & B & C & D & _).
  repeat split; assumption.
Defined.

End CohortRows.

(* ================================================================== *)
(** ** Projection roll-up *)

Section RollUp.
Import JS.

Lemma sumQ_app {A : Type} (f : A -> Q) (l1 l2 : list A) :
  (Spec.sumQ f (l1 ++ l2) == Spec.sumQ f l1 + Spec.sumQ f l2)%Q.
Proof.
  induction l1 as [|x t IH]; simpl.
  - now rewrite Qplus_0_l.
  - rewrite IH. apply Qplus_assoc.
Qed.

Lemma sumQ_perm {A : Type} (f : A -> Q) (l1 l2 : list A) :
  Permutation l1 l2 -> (Spec.sumQ f l1 == Spec.sumQ f l2)%Q.
Proof.
  induction 1; simpl.
  - reflexivity.
  - now rewrite IHPermutation.
  - ring.
  - now rewrite IHPermutation1.
Qed.

Lemma filter_perm {A : Type} (p : A -> bool) (l1 l2 : list A) :
  Permutation l1 l2 -> Permutation (filter p l1) (filter p l2).
Proof.
  induction 1; simpl.
  - constructor.
  - destruct (p x); [now constructor | assumption].
  - destruct (p x), (p y); try reflexivity. apply perm_swap.
  - now transitivity (filter p l').
Qed.

Lemma js_div_pos (a : Q) (v : Z) :
  0 < v -> js_div a (inject_Z v) = Fin (a / inject_Z v).
Proof.
  intros Hv. unfold js_div, Qzero_b. simpl Qnum.
  destruct (Z.eqb_spec v 0); [lia | reflexivity].
Qed.

Lemma rollup_step (acc : list Maturity.DailyProjectionRow * Maturity.ProjBuckets)
      (row : Maturity.DailyProjectionRow) :
  Spec.rollupInv acc ->
  Spec.rollupInv (fst acc ++ [row], Maturity.accumulate (snd acc) row).
Proof.
  destruct acc as [rows bs]. unfold Spec.rollupInv. cbn [fst snd].
  intros (V & T & R & F).
  rewrite filter_app, !sumZ_app, sumQ_app.
  unfold Maturity.accumulate, Spec.reliable at 2 4 6. cbn [filter].
  destruct (Maturity.phase row);
    cbn [Maturity.b_finalized Maturity.b_mature Maturity.b_rampup
         Maturity.bucketAdd Maturity.bucket_volume Maturity.realizedReturns
         Maturity.forecastedReturns];
    rewrite ?sumZ_cons; unfold sumZ at 2 4 6; cbn [fold_left Spec.sumQ fold_right];
    (repeat split; [lia | lia | lia |]);
    rewrite <- F; ring.
Qed.

Lemma projectAll_rollup (sTime d p90 : Z) (dist : list Maturity.LagBucket)
      (dailyMap : list (isodate * Maturity.DayStats)) :
  Spec.rollupInv (Maturity.projectAll sTime d p90 dist dailyMap).
Proof.
  unfold Maturity.projectAll.
  assert (I0 : Spec.rollupInv ([], Maturity.initBuckets)).
  { unfold Spec.rollupInv. cbn. repeat split; reflexivity. }
  revert I0. generalize ([] : list Maturity.DailyProjectionRow, Maturity.initBuckets).
  induction dailyMap as [|e es IH]; intros acc I; simpl; [exact I|].
  apply IH. now apply rollup_step.
Qed.

(** C5. With reliable volume the sales of the mature and finalized cohort
    days only: projectedRate is (reliable realized + reliable forecast) /
    reliable volume when that volume is positive and null (not 0) when it is
    0; confidenceScore is reliable volume / total volume, and 0 when the
    total is 0; maturityStatus is projecting exactly when confidenceScore is
    at least 0.5 and insufficient otherwise. *)
Theorem projection_rollup (data : AppData) (res : Maturity.MaturityAnalysisResult)
        (H : Maturity.analyzeMaturity data = Some res) :
  let rows := Maturity.dailyProjections res in
  let reliableVolume := sumZ Maturity.sales (filter Spec.reliable rows) in
  let totalVolume := sumZ Maturity.sales rows in
  let reliableReturns :=
    (inject_Z (sumZ Maturity.realized (filter Spec.reliable rows))
     + Spec.sumQ Maturity.forecastAdd (filter Spec.reliable rows))%Q in
  (reliableVolume = 0 ->
   Maturity.projection_projectedRate (Maturity.projection res) = None)
  /\ (0 < reliableVolume ->
      exists q, Maturity.projection_projectedRate (Maturity.projection res)
                = Some (Fin q)
                /\ (q == reliableReturns / inject_Z reliableVolume)%Q)
  /\ (totalVolume = 0 -> Maturity.confidenceScore res = Fin 0)
  /\ (0 < totalVolume ->
      exists q, Maturity.confidenceScore res = Fin q
                /\ (q == inject_Z reliableVolume / inject_Z totalVolume)%Q)
  /\ (Maturity.maturityStatus res = Maturity.projecting
      <-> exists q, Maturity.confidenceScore res = Fin q /\ (1 # 2 <= q)%Q)
  /\ (Maturity.maturityStatus res = Maturity.insufficient
      <-> ~ exists q, Maturity.confidenceScore res = Fin q /\ (1 # 2 <= q)%Q).
Proof.
  apply analyzeMaturity_Some in H. destruct H as (o & rest & t0Str & _ & _ & ->).
  unfold Maturity.analyze.
  cbn [Maturity.dailyProjections Maturity.projection Maturity.projection_projectedRate
       Maturity.confidenceScore Maturity.maturityStatus].
  set (pa := Maturity.projectAll _ _ _ _ _).
  pose proof (projectAll_rollup (latestTime (o :: rest))
                (Maturity.m_d (Maturity.markers
                   (Maturity.sortedLags
                      (Maturity.preSubset (getTime t0Str) (o :: rest)))))
                (Maturity.m_p90 (Maturity.markers
                   (Maturity.sortedLags
                      (Maturity.preSubset (getTime t0Str) (o :: rest)))))
                (Maturity.buildDistribution
                   (Maturity.sortedLags
                      (Maturity.preSubset (getTime t0Str) (o :: rest)))
                   (Maturity.m_p90 (Maturity.markers
                      (Maturity.sortedLags
                         (Maturity.preSubset (getTime t0Str) (o :: rest))))))
                (Maturity.buildDailyMap
                   (filter (Maturity.in_window (getTime t0Str)
                              (getTime t0Str + Maturity.spanDays data * MS_PER_DAY))
                           (o :: rest)))) as I.
  fold pa in I. unfold Spec.rollupInv in I. cbv zeta in I.
  destruct I as (V & T & R & F).
  set (cmp := fun a b : Maturity.DailyProjectionRow => Maturity.age b - Maturity.age a).
  pose proof (sort_perm cmp (fst pa)) as P.
  rewrite <- (sumZ_perm Maturity.sales _ _ P) in T.
  rewrite <- (sumZ_perm Maturity.sales _ _ (filter_perm Spec.reliable _ _ P)) in V.
  rewrite <- (sumZ_perm Maturity.realized _ _ (filter_perm Spec.reliable _ _ P)) in R.
  rewrite <- (sumQ_perm Maturity.forecastAdd _ _ (filter_perm Spec.reliable _ _ P)) in F.
  set (rows := sort cmp (fst pa)) in *.
  set (reliableVolume := sumZ Maturity.sales (filter Spec.reliable rows)) in *.
  set (totalVolume := sumZ Maturity.sales rows) in *.
  rewrite !Z.add_0_l, T, V, R.
  assert (Hconf :
            forall c,
              c = (if 0 <? totalVolume
                   then js_div (inject_Z reliableVolume) (inject_Z totalVolume)
                   else Fin 0) ->
              (js_geq c (1 # 2) = true
               <-> exists q, c = Fin q /\ (1 # 2 <= q)%Q)).
  { intros c ->. destruct (Z.ltb_spec 0 totalVolume) as [L|L].
    - rewrite js_div_pos by exact L. cbn [js_geq]. rewrite Qle_bool_iff.
      split; [intros G; eexists; split; [reflexivity | exact G]
             | intros (q & E & G); now injection E as <-].
    - cbn [js_geq]. rewrite Qle_bool_iff.
      split; [intros G; eexists; split; [reflexivity | exact G]
             | intros (q & E & G); now injection E as <-]. }
  split; [|split; [|split; [|split; [|split]]]].
  - intros ->. reflexivity.
  - intros L. apply Z.ltb_lt in L. rewrite L. apply Z.ltb_lt in L.
    rewrite js_div_pos by exact L. eexists. split; [reflexivity|].
    rewrite Qplus_0_l, F. reflexivity.
  - intros ->. reflexivity.
  - intros L. apply Z.ltb_lt in L. rewrite L. apply Z.ltb_lt in L.
    rewrite js_div_pos by exact L. eexists. split; reflexivity.
  - rewrite <- (Hconf _ eq_refl).
    destruct (js_geq _ _); split; congruence.
  - rewrite <- (Hconf _ eq_refl).
    destruct (js_geq _ _); split; congruence.
Qed.

Lemma projection_rollup_witness :
  exists res,
    Maturity.analyzeMaturity Samples.maturityData = Some res
    /\ sumZ Maturity.sales (filter Spec.reliable (Maturity.dailyProjections res)) = 106
    /\ sumZ Maturity.sales (Maturity.dailyProjections res) = 113
    /\ Maturity.maturityStatus res = Maturity.projecting
    /\ exists q, Maturity.confidenceScore res = Fin q /\ (1 # 2 <= q)%Q.
Proof.
  eexists. split; [reflexivity|]. split; [reflexivity|]. split; [reflexivity|].
  split; [reflexivity|].
  pose proof (projection_rollup Samples.maturityData _ eq_refl)
    as (_ & _ & _ & _ & P & _).
  apply P. reflexivity.
Defined.

End RollUp.

(* ================================================================== *)
(** ** Fairness contrast engine *)

Section ContrastLoop.
Import JS.

Lemma analyzeContrast_Some (data : AppData) (res : Contrast.ContrastResult) :
  Contrast.analyzeContrast data = Some res ->
  exists o rest t0Str,
    return_order data = Some (o :: rest)
    /\ t0Date data = Some t0Str
    /\ getTime t0Str < latestTime (o :: rest)
    /\ res = Contrast.contrast (o :: rest) t0Str.
Proof.
  unfold Contrast.analyzeContrast.
  destruct (return_order data) as [[|o rest]|]; try discriminate.
  destruct (t0Date data) as [t0Str|]; try discriminate.
  cbv zeta. destruct (Z.leb_spec (latestTime (o :: rest)) (getTime t0Str)) as [L|L];
    [discriminate|].
  intros H. injection H as <-. now exists o, rest, t0Str.
Qed.

Lemma afterStep_fold (daysCount : Z) (l : list RawOrderRow) (acc : Contrast.DayAcc) :
  let a := fold_left (Contrast.afterStep daysCount) l acc in
  Contrast.daySales a = Contrast.daySales acc + sumZ units_sold l
  /\ Contrast.dayReturns a
     = Contrast.dayReturns acc
       + sumZ Contrast.getReturnCount
           (filter (fun o => 0 <? Contrast.getReturnCount o) l).
Proof.
  revert acc. induction l as [|o os IH]; intros acc; cbn [fold_left filter].
  - unfold sumZ. simpl. lia.
  - destruct (IH (Contrast.afterStep daysCount acc o)) as (S1 & R1).
    cbv zeta. rewrite S1, R1. unfold Contrast.afterStep.
    destruct (0 <? Contrast.getReturnCount o);
      cbn [Contrast.daySales Contrast.dayReturns]; rewrite ?sumZ_cons; lia.
Qed.

Lemma beforeStep_fold (daysCount L : Z) (l : list RawOrderRow) (acc : Contrast.DayAcc) :
  let b := fold_left (Contrast.beforeStep daysCount L) l acc in
  Contrast.daySales b = Contrast.daySales acc + sumZ units_sold l
  /\ Contrast.dayReturns b
     = Contrast.dayReturns acc
       + sumZ Contrast.getReturnCount (filter (Spec.countedBefore L) l).
Proof.
  revert acc. induction l as [|o os IH]; intros acc; cbn [fold_left filter].
  - unfold sumZ. simpl. lia.
  - destruct (IH (Contrast.beforeStep daysCount L acc o)) as (S1 & R1).
    cbv zeta. rewrite S1, R1. unfold Contrast.beforeStep, Spec.countedBefore.
    destruct (0 <? Contrast.getReturnCount o); cbn [andb].
    + destruct (Contrast.getLag o) as [lag|]; [destruct (lag <=? L)|];
        cbn [Contrast.daySales Contrast.dayReturns]; rewrite ?sumZ_cons; lia.
    + cbn [Contrast.daySales Contrast.dayReturns]. rewrite ?sumZ_cons. lia.
Qed.

Variables (orders : list RawOrderRow) (maxTime afterStart beforeStart daysCount : Z).

Local Abbreviation row := (Spec.contrastRow orders maxTime afterStart beforeStart).
Local Abbreviation step := (Contrast.dayStep orders maxTime afterStart beforeStart daysCount).

Lemma dayStep_row (st : Contrast.LoopState) (i : Z) :
  Contrast.dailyRows (step st i) = Contrast.dailyRows st ++ [row i]
  /\ Contrast.afterTotalSales (step st i)
     = Contrast.afterTotalSales st + Contrast.day_sales (row i)
  /\ Contrast.afterTotalReturns (step st i)
     = Contrast.afterTotalReturns st + Contrast.day_returns (row i)
  /\ Contrast.beforeTotalSales (step st i)
     = Contrast.beforeTotalSales st + Contrast.refSales (row i)
  /\ Contrast.beforeTotalReturns (step st i)
     = Contrast.beforeTotalReturns st + Contrast.refReturns (row i).
Proof.
  unfold Contrast.dayStep, Spec.contrastRow. cbv zeta.
  cbn [Contrast.dailyRows Contrast.afterTotalSales Contrast.afterTotalReturns
       Contrast.beforeTotalSales Contrast.beforeTotalReturns
       Contrast.day_sales Contrast.day_returns Contrast.refSales Contrast.refReturns].
  match goal with
  | |- context [fold_left (Contrast.afterStep ?dc) ?l ?acc] =>
      destruct (afterStep_fold dc l acc) as (A1 & A2)
  end.
  match goal with
  | |- context [fold_left (Contrast.beforeStep ?dc ?L) ?l ?acc] =>
      destruct (beforeStep_fold dc L l acc) as (B1 & B2)
  end.
  cbn [Contrast.daySales Contrast.dayReturns] in A1, A2, B1, B2.
  rewrite Z.add_0_l in A1, A2, B1, B2.
  rewrite A1, A2, B1, B2. repeat split.
Qed.

Lemma loop_rows (idx : list Z) (st0 : Contrast.LoopState) :
  let st := fold_left step idx st0 in
  Contrast.dailyRows st = Contrast.dailyRows st0 ++ map row idx
  /\ Contrast.afterTotalSales st
     = Contrast.afterTotalSales st0 + sumZ Contrast.day_sales (map row idx)
  /\ Contrast.afterTotalReturns st
     = Contrast.afterTotalReturns st0 + sumZ Contrast.day_returns (map row idx)
  /\ Contrast.beforeTotalSales st
     = Contrast.beforeTotalSales st0 + sumZ Contrast.refSales (map row idx)
  /\ Contrast.beforeTotalReturns st
     = Contrast.beforeTotalReturns st0 + sumZ Contrast.refReturns (map row idx).
Proof.
  revert st0. induction idx as [|i idx IH]; intros st0; cbn [fold_left map].
  - rewrite app_nil_r. unfold sumZ. simpl. repeat split; lia.
  - destruct (IH (step st0 i)) as (R & A & B & C & D).
    destruct (dayStep_row st0 i) as (R0 & A0 & B0 & C0 & D0).
    cbv zeta. rewrite R, A, B, C, D, R0, A0, B0, C0, D0, !sumZ_cons.
    rewrite <- app_assoc. repeat split; lia.
Qed.

Lemma fairnessLoop_rows :
  let st := Contrast.fairnessLoop orders maxTime afterStart beforeStart daysCount in
  let rows := map row (Contrast.dayIndices daysCount) in
  Contrast.dailyRows st = rows
  /\ Contrast.afterTotalSales st = sumZ Contrast.day_sales rows
  /\ Contrast.afterTotalReturns st = sumZ Contrast.day_returns rows
  /\ Contrast.beforeTotalSales st = sumZ Contrast.refSales rows
  /\ Contrast.beforeTotalReturns st = sumZ Contrast.refReturns rows.
Proof.
  unfold Contrast.fairnessLoop.
  match goal with
  | |- context [fold_left _ ?l ?st0] => destruct (loop_rows l st0) as (R & A & B & C & D)
  end.
  cbv zeta. rewrite R, A, B, C, D. cbn. repeat split.
Qed.

End ContrastLoop.

Section ContrastResults.
Import JS.

Lemma runDays_days (orders : list RawOrderRow) (t0Str : isodate) :
  getTime t0Str < latestTime orders ->
  exists sd,
    latestTime orders = getTime sd
    /\ t0Str < sd
    /\ (latestTime orders - (getTime t0Str + MS_PER_DAY)) / MS_PER_DAY + 1 = sd - t0Str.
Proof.
  intros L. destruct (latestTime_day orders) as (sd & _ & E).
  exists sd. rewrite E in *. apply (proj1 (getTime_lt _ _)) in L.
  split; [reflexivity|]. split; [exact L|].
  replace (getTime sd - (getTime t0Str + MS_PER_DAY)) with (getTime sd - getTime (t0Str + 1))
    by (unfold getTime; ring).
  rewrite getTime_diff_days. lia.
Qed.

(** The rows of a result, before sorting: one per day index. *)
Lemma contrast_rows (orders : list RawOrderRow) (t0Str : isodate) :
  let res := Contrast.contrast orders t0Str in
  let maxTime := latestTime orders in
  let afterStart := getTime t0Str + MS_PER_DAY in
  let beforeStart := getTime t0Str - Contrast.runDays res * MS_PER_DAY in
  let rows := map (Spec.contrastRow orders maxTime afterStart beforeStart)
                  (Contrast.dayIndices (Contrast.runDays res)) in
  Permutation (Contrast.dailyBreakdown res) rows
  /\ Contrast.sales (Contrast.after res) = sumZ Contrast.day_sales rows
  /\ Contrast.returns (Contrast.after res) = sumZ Contrast.day_returns rows
  /\ Contrast.sales (Contrast.before res) = sumZ Contrast.refSales rows
  /\ Contrast.returns (Contrast.before res) = sumZ Contrast.refReturns rows.
Proof.
  unfold Contrast.contrast.
  cbn [Contrast.runDays Contrast.dailyBreakdown Contrast.after Contrast.before
       Contrast.sales Contrast.returns].
  cbv zeta.
  match goal with
  | |- context [Contrast.fairnessLoop ?o ?m ?a ?b ?d] =>
      destruct (fairnessLoop_rows o m a b d) as (R & A & B & C & D)
  end.
  cbv zeta in R, A, B, C, D. rewrite A, B, C, D, R.
  split; [apply sort_perm|]. repeat split.
Qed.

(** C10. A returned result has exactly runDays audit rows, and its summary
    totals are the sums over those rows: after.sales and after.returns of the
    rows' sales and returns, before.sales and before.returns of their refSales
    and refReturns. *)
Theorem breakdown_reconstructs_totals (data : AppData) (res : Contrast.ContrastResult)
        (H : Contrast.analyzeContrast data = Some res) :
  Z.of_nat (List.length (Contrast.dailyBreakdown res)) = Contrast.runDays res
  /\ Contrast.sales (Contrast.after res)
     = sumZ Contrast.day_sales (Contrast.dailyBreakdown res)
  /\ Contrast.returns (Contrast.after res)
     = sumZ Contrast.day_returns (Contrast.dailyBreakdown res)
  /\ Contrast.sales (Contrast.before res)
     = sumZ Contrast.refSales (Contrast.dailyBreakdown res)
  /\ Contrast.returns (Contrast.before res)
     = sumZ Contrast.refReturns (Contrast.dailyBreakdown res).
Proof.
  apply analyzeContrast_Some in H. destruct H as (o & rest & t0Str & _ & _ & L & ->).
  destruct (contrast_rows (o :: rest) t0Str) as (P & A & B & C & D).
  rewrite (sumZ_perm Contrast.day_sales _ _ P), (sumZ_perm Contrast.day_returns _ _ P),
    (sumZ_perm Contrast.refSales _ _ P), (sumZ_perm Contrast.refReturns _ _ P).
  rewrite (Permutation_length P).
  split; [|now repeat split].
  rewrite length_map. unfold Contrast.dayIndices. rewrite length_map, length_seq.
  destruct (runDays_days (o :: rest) t0Str L) as (sd & _ & Hlt & E).
  unfold Contrast.contrast. cbn [Contrast.runDays]. rewrite E. lia.
Qed.

Lemma breakdown_reconstructs_totals_witness :
  exists res,
    Contrast.analyzeContrast Samples.contrastData = Some res
    /\ Contrast.runDays res = 2
    /\ Z.of_nat (List.length (Contrast.dailyBreakdown res)) = Contrast.runDays res
    /\ Contrast.sales (Contrast.after res)
       = sumZ Contrast.day_sales (Contrast.dailyBreakdown res)
    /\ Contrast.returns (Contrast.after res)
       = sumZ Contrast.day_returns (Contrast.dailyBreakdown res)
    /\ Contrast.sales (Contrast.before res)
       = sumZ Contrast.refSales (Contrast.dailyBreakdown res)
    /\ Contrast.returns (Contrast.before res)
       = sumZ Contrast.refReturns (Contrast.dailyBreakdown res).
Proof.
  eexists. split; [reflexivity|]. split; [reflexivity|].
  apply (breakdown_reconstructs_totals Samples.contrastData). reflexivity.
Defined.

End ContrastResults.

Section Censoring.
Import JS.

Lemma dayIndices_range (daysCount i : Z) :
  In i (Contrast.dayIndices daysCount) -> 0 <= i < daysCount.
Proof.
  unfold Contrast.dayIndices. intros H. apply in_map_iff in H.
  destruct H as (k & <- & Hk). apply in_seq in Hk. lia.
Qed.

Lemma countedBefore_late (L lag : Z) (o : RawOrderRow) :
  Contrast.getLag o = Some lag -> L < lag -> Spec.countedBefore L o = false.
Proof.
  intros E Hlt. unfold Spec.countedBefore. rewrite E.
  destruct (Z.leb_spec lag L); [lia|]. apply andb_false_r.
Qed.

(** C4. Every audit row belongs to a day index i of the loop; its ageLimit
    is L = floor((S - after-day_i)/1day), and its refReturns is the sum of
    the return counts of exactly those orders of the mirrored before-day that
    have a return count and an own lag <= L.  An order whose lag exceeds L is
    not among them, so it adds nothing to refReturns, nor to before.returns,
    which is the sum of the rows' refReturns. *)
Theorem before_bucket_censored (data : AppData) (orders : list RawOrderRow)
        (res : Contrast.ContrastResult) (row : Contrast.DailyContrastRow)
        (Ho : return_order data = Some orders)
        (H : Contrast.analyzeContrast data = Some res)
        (Hrow : In row (Contrast.dailyBreakdown res)) :
  (exists i,
      0 <= i < Contrast.runDays res
      /\ Contrast.date row = Contrast.t0 res + 1 + i
      /\ Contrast.matchedDate row = Contrast.t0 res - Contrast.runDays res + i)
  /\ Contrast.ageLimit row
     = (latestTime orders - getTime (Contrast.date row)) / MS_PER_DAY
  /\ Contrast.refReturns row
     = sumZ Contrast.getReturnCount
         (filter (Spec.countedBefore (Contrast.ageLimit row))
                 (Contrast.ordersOn (Contrast.matchedDate row) orders))
  /\ (forall o lag,
         Contrast.getLag o = Some lag ->
         Contrast.ageLimit row < lag ->
         ~ In o (filter (Spec.countedBefore (Contrast.ageLimit row))
                        (Contrast.ordersOn (Contrast.matchedDate row) orders)))
  /\ Contrast.returns (Contrast.before res)
     = sumZ Contrast.refReturns (Contrast.dailyBreakdown res).
Proof.
  apply analyzeContrast_Some in H. destruct H as (o & rest & t0Str & Ho' & _ & L & ->).
  rewrite Ho in Ho'. injection Ho' as ->.
  destruct (contrast_rows (o :: rest) t0Str) as (P & _ & _ & _ & HB).
  rewrite <- (sumZ_perm Contrast.refReturns _ _ P) in HB.
  apply (Permutation_in _ P) in Hrow. apply in_map_iff in Hrow.
  destruct Hrow as (i & <- & Hi). apply dayIndices_range in Hi.
  set (dc := Contrast.runDays (Contrast.contrast (o :: rest) t0Str)) in *.
  assert (Ea : getTime t0Str + MS_PER_DAY + i * MS_PER_DAY = getTime (t0Str + 1 + i))
    by (unfold getTime; ring).
  assert (Eb : getTime t0Str - dc * MS_PER_DAY + i * MS_PER_DAY = getTime (t0Str - dc + i))
    by (unfold getTime; ring).
  unfold Spec.contrastRow.
  cbn [Contrast.date Contrast.matchedDate Contrast.ageLimit Contrast.refReturns].
  rewrite Ea, Eb, !toISODate_getTime.
  split; [exists i; repeat split; try lia; reflexivity|].
  split; [reflexivity|]. split; [reflexivity|]. split; [|exact HB].
  intros o' lag E Hlt Hin. apply filter_In in Hin. destruct Hin as (_ & Hc).
  rewrite (countedBefore_late _ lag o' E Hlt) in Hc. discriminate.
Qed.

Lemma before_bucket_censored_witness :
  exists res row,
    Contrast.analyzeContrast Samples.contrastData = Some res
    /\ In row (Contrast.dailyBreakdown res)
    /\ Contrast.matchedDate row = ymd 2024 2 28
    /\ Contrast.ageLimit row = 1
    /\ Contrast.refSales row = 9
    /\ Contrast.refReturns row = 4
    /\ Contrast.refReturns row
       = sumZ Contrast.getReturnCount
           (filter (Spec.countedBefore (Contrast.ageLimit row))
                   (Contrast.ordersOn (Contrast.matchedDate row) Samples.contrastOrders)).
Proof.
  eexists. eexists. split; [reflexivity|].
  assert (Hin : In {| Contrast.date := ymd 2024 3 2;
                      Contrast.matchedDate := ymd 2024 2 28;
                      Contrast.ageLimit := 1;
                      Contrast.day_sales := 6;
                      Contrast.day_returns := 1;
                      Contrast.refSales := 9;
                      Contrast.refReturns := 4 |}
                   (Contrast.dailyBreakdown
                      (Contrast.contrast Samples.contrastOrders (ymd 2024 3 1))))
    by (vm_compute; right; left; reflexivity).
  split; [exact Hin|]. repeat (split; [reflexivity|]).
  pose proof (before_bucket_censored Samples.contrastData Samples.contrastOrders _ _
                eq_refl eq_refl Hin) as (_ & _ & P & _).
  exact P.
Defined.

End Censoring.

Section NoAfterWindow.
Import JS.

(** C1, as worded, fails on scenario 4 (cutoff 2024-03-01, S = 2024-03-01):
    the guard [if (maxTime <= t0Time) return null] yields the absent result,
    so there is no result whose hasData is false. *)
Lemma no_data_result_counterexample :
  toISODate (latestTime Samples.scenario4Orders) = ymd 2024 3 1
  /\ t0Date Samples.scenario4 = Some (ymd 2024 3 1)
  /\ ~ (exists res,
           Contrast.analyzeContrast Samples.scenario4 = Some res
           /\ Contrast.hasData res = false).
Proof.
  split; [reflexivity|]. split; [reflexivity|].
  intros (res & E & _). vm_compute in E. discriminate E.
Qed.

(** C1 (amended). For a non-empty order list and a cutoff T0 with S on or
    before T0, analyzeContrast returns null, the absent result: no exception
    and no result object; a result it does return always has
    hasData = true. *)
Theorem contrast_without_after_window (data : AppData) (orders : list RawOrderRow)
        (t0Str : isodate)
        (Ho : return_order data = Some orders) (Hne : orders <> [])
        (Ht : t0Date data = Some t0Str)
        (HS : latestTime orders <= getTime t0Str) :
  Contrast.analyzeContrast data = None
  /\ forall data' res,
       Contrast.analyzeContrast data' = Some res -> Contrast.hasData res = true.
Proof.
  split.
  - unfold Contrast.analyzeContrast. rewrite Ho, Ht.
    destruct orders as [|o rest]; [congruence|]. cbv zeta.
    destruct (Z.leb_spec (latestTime (o :: rest)) (getTime t0Str)); [reflexivity | lia].
  - intros data' res H. apply analyzeContrast_Some in H.
    destruct H as (o & rest & t0' & _ & _ & _ & ->). reflexivity.
Qed.

Lemma contrast_without_after_window_witness :
  Samples.scenario4Orders <> []
  /\ latestTime Samples.scenario4Orders <= getTime (ymd 2024 3 1)
  /\ Contrast.analyzeContrast Samples.scenario4 = None.
Proof.
  assert (Hne : Samples.scenario4Orders <> []) by discriminate.
  assert (HS : latestTime Samples.scenario4Orders <= getTime (ymd 2024 3 1))
    by (vm_compute; discriminate).
  split; [exact Hne|]. split; [exact HS|].
  exact (proj1 (contrast_without_after_window Samples.scenario4 Samples.scenario4Orders
                  (ymd 2024 3 1) eq_refl Hne eq_refl HS)).
Defined.

End NoAfterWindow.

(* ================================================================== *)
(** ** Zero-denominator guards *)

Section Rates.
Import JS.

Lemma guarded_intro (num : Q) (v : Z) :
  Spec.guardedRatio (if 0 <? v then js_div num (inject_Z v) else Fin 0) num (inject_Z v).
Proof.
  unfold Spec.guardedRatio. destruct (Z.ltb_spec 0 v) as [L|L].
  - rewrite js_div_pos by exact L. split; [reflexivity|]. split; [|discriminate].
    unfold Qeq. simpl. lia.
  - split; [|split; [reflexivity | discriminate]].
    unfold Qlt. simpl. lia.
Qed.

Lemma trendLoop_guarded (trendMap : list (isodate * Maturity.DayStats))
      (trendStart sTime t0Time : Z) (steps : nat) (i : Z) (t : Maturity.DailyTrend) :
  In t (Maturity.trendLoop trendMap trendStart sTime t0Time steps i) ->
  Spec.guardedRatio (Maturity.trend_rate t)
    (inject_Z (Maturity.trend_returns t)) (inject_Z (Maturity.trend_volume t)).
Proof.
  revert i. induction steps as [|k IH]; intros i H; simpl in H; [contradiction|].
  destruct (sTime <? trendStart + i * MS_PER_DAY); [contradiction|].
  destruct H as [<-|H]; [|exact (IH _ H)].
  cbn [Maturity.trend_rate Maturity.trend_returns Maturity.trend_volume].
  apply guarded_intro.
Qed.

Lemma calcStats_guarded (subset : list RawOrderRow) :
  let m := Maturity.calcStats subset in
  Spec.guardedRatio (Maturity.rate m)
    (inject_Z (Maturity.returns m)) (inject_Z (Maturity.volume m)).
Proof.
  unfold Maturity.calcStats. cbv zeta.
  cbn [Maturity.rate Maturity.returns Maturity.volume]. apply guarded_intro.
Qed.

Lemma projectDay_guarded (sTime d p90 : Z) (dist : list Maturity.LagBucket)
      (entry : isodate * Maturity.DayStats) :
  let row := Maturity.projectDay sTime d p90 dist entry in
  Spec.guardedRatio (Maturity.currentRate row)
    (inject_Z (Maturity.realized row)) (inject_Z (Maturity.sales row))
  /\ Spec.guardedRatio (Maturity.projectedRate row)
       (Maturity.projectedTotal row) (inject_Z (Maturity.sales row)).
Proof.
  unfold Maturity.projectDay. cbv zeta.
  destruct (p90 <? _); [|destruct (d <=? _)];
    cbn [Maturity.currentRate Maturity.projectedRate Maturity.realized Maturity.sales
         Maturity.projectedTotal];
    split; apply guarded_intro.
Qed.

End Rates.

(* ================================================================== *)
(** ** Further facts: sums, days, sorting *)

Section MoreSums.
Import JS.

Context {A : Type}.

Lemma sumZ_nil (f : A -> Z) : sumZ f [] = 0.
Proof. reflexivity. Qed.

Lemma sumZ_add (f g : A -> Z) (l : list A) :
  sumZ (fun x => f x + g x) l = sumZ f l + sumZ g l.
Proof.
  induction l as [|x t IH]; [reflexivity|]. rewrite !sumZ_cons, IH. lia.
Qed.

Lemma sumZ_ext_in (f g : A -> Z) (l : list A) :
  (forall x, In x l -> f x = g x) -> sumZ f l = sumZ g l.
Proof.
  induction l as [|x t IH]; intros H; [reflexivity|].
  rewrite !sumZ_cons. rewrite IH by (intros; apply H; now right).
  rewrite (H x) by now left. reflexivity.
Qed.

Lemma sumZ_nonneg (f : A -> Z) (l : list A) :
  (forall x, In x l -> 0 <= f x) -> 0 <= sumZ f l.
Proof.
  induction l as [|x t IH]; intros H; [rewrite sumZ_nil; lia|].
  rewrite sumZ_cons.
  assert (0 <= f x) by (apply H; now left).
  assert (0 <= sumZ f t) by (apply IH; intros; apply H; now right).
  lia.
Qed.

Lemma sumZ_filter_and_le (f : A -> Z) (p q : A -> bool) (l : list A) :
  (forall x, In x l -> p x = true -> 0 <= f x) ->
  0 <= sumZ f (filter (fun x => p x && q x) l) <= sumZ f (filter p l).
Proof.
  induction l as [|x t IH]; intros H; simpl; [rewrite sumZ_nil; lia|].
  assert (IH' : 0 <= sumZ f (filter (fun x => p x && q x) t) <= sumZ f (filter p t))
    by (apply IH; intros; apply H; [now right | assumption]).
  destruct (p x) eqn:Ep; simpl; [|exact IH'].
  assert (0 <= f x) by (apply H; [now left | exact Ep]).
  destruct (q x); rewrite ?sumZ_cons; lia.
Qed.

Lemma sumZ_map {B : Type} (g : A -> B) (f : B -> Z) (l : list A) :
  sumZ f (map g l) = sumZ (fun x => f (g x)) l.
Proof.
  induction l as [|x t IH]; [reflexivity|]. simpl. now rewrite !sumZ_cons, IH.
Qed.

Lemma sort_insert_last (cmp : A -> A -> Z) (x : A) (l : list A) :
  Forall (fun y => 0 < cmp x y) l -> sort_insert cmp x l = l ++ [x].
Proof.
  induction 1 as [|y t Hy Ht IH]; simpl; [reflexivity|].
  destruct (Z.leb_spec (cmp x y) 0); [lia|]. now rewrite IH.
Qed.

(** Sorting by descending key reverses a list whose keys strictly ascend. *)
Lemma sort_descending_rev (key : A -> Z) (l : list A) :
  StronglySorted (fun a b => key a < key b) l ->
  sort (fun a b => key b - key a) l = rev l.
Proof.
  induction 1 as [|x t St IH Hx]; [reflexivity|].
  unfold sort in *. simpl. rewrite IH. apply sort_insert_last.
  apply Forall_rev. revert Hx. apply Forall_impl. intros y Hy. lia.
Qed.

Lemma sort_insert_sorted_key (key : A -> Z) (x : A) (l : list A) :
  Sorted (fun a b => key a <= key b) l ->
  Sorted (fun a b => key a <= key b) (sort_insert (fun a b => key a - key b) x l).
Proof.
  induction l as [|y t IH]; intros S; simpl.
  - repeat constructor.
  - destruct (Z.leb_spec (key x - key y) 0) as [L|L].
    + constructor; [exact S|]. constructor. lia.
    + inversion S as [|? ? St Hd]; subst.
      constructor; [now apply IH|].
      destruct t as [|z t']; simpl.
      * constructor. lia.
      * destruct (key x - key z <=? 0); constructor; [lia|].
        inversion Hd; subst. assumption.
Qed.

(** Sorting by ascending key yields a list in ascending key order. *)
Lemma sort_ascending_key (key : A -> Z) (l : list A) :
  Sorted (fun a b => key a <= key b) (sort (fun a b => key a - key b) l).
Proof.
  induction l as [|x t IH]; [constructor|].
  unfold sort in *. simpl. now apply sort_insert_sorted_key.
Qed.

End MoreSums.

Section Days.
Import JS.

Lemma sumZ_indicator_days (a d v : Z) (n : nat) :
  sumZ (fun i => if d =? a + i then v else 0) (map Z.of_nat (seq 0 n))
  = if (a <=? d) && (d <? a + Z.of_nat n) then v else 0.
Proof.
  induction n as [|n IH].
  - simpl. rewrite sumZ_nil.
    destruct (Z.leb_spec a d), (Z.ltb_spec d (a + 0)); simpl; try reflexivity; lia.
  - rewrite seq_S, map_app, sumZ_app, IH. simpl map. rewrite sumZ_cons, sumZ_nil.
    destruct (Z.leb_spec a d), (Z.ltb_spec d (a + Z.of_nat n)),
      (Z.ltb_spec d (a + Z.of_nat (S n))), (Z.eqb_spec d (a + Z.of_nat n));
      simpl; lia.
Qed.

(** Summing day by day over [n] consecutive days is summing over the orders
    purchased in that range of days. *)
Lemma sumZ_by_day (f : RawOrderRow -> Z) (p : RawOrderRow -> bool)
      (l : list RawOrderRow) (a : isodate) (n : nat) :
  sumZ (fun i => sumZ f (filter p (Contrast.ordersOn (a + i) l)))
       (map Z.of_nat (seq 0 n))
  = sumZ f (filter (fun o => p o && Props.inDays a (a + Z.of_nat n) o) l).
Proof.
  induction l as [|o os IH].
  - simpl. induction (map Z.of_nat (seq 0 n)) as [|i t IHt]; [reflexivity|].
    rewrite sumZ_cons, IHt. reflexivity.
  - rewrite (sumZ_ext_in _
               (fun i => (if purchase_date o =? a + i
                          then (if p o then f o else 0) else 0)
                         + sumZ f (filter p (Contrast.ordersOn (a + i) os)))).
    + rewrite sumZ_add, IH, sumZ_indicator_days. simpl filter.
      unfold Props.inDays at 2.
      destruct (p o); simpl.
      * destruct ((a <=? purchase_date o) && (purchase_date o <? a + Z.of_nat n));
          rewrite ?sumZ_cons; lia.
      * destruct ((a <=? purchase_date o) && (purchase_date o <? a + Z.of_nat n)); lia.
    + intros i _. unfold Contrast.ordersOn. simpl filter.
      destruct (purchase_date o =? a + i); [|lia].
      simpl filter. destruct (p o); rewrite ?sumZ_cons; lia.
Qed.

Lemma latest_fold_ge (orders : list RawOrderRow) (acc : Z) :
  acc <= fold_left (fun maxTime o =>
                      let t := getTime (purchase_date o) in
                      if maxTime <? t then t else maxTime) orders acc
  /\ forall o, In o orders ->
       getTime (purchase_date o)
       <= fold_left (fun maxTime o =>
                       let t := getTime (purchase_date o) in
                       if maxTime <? t then t else maxTime) orders acc.
Proof.
  revert acc. induction orders as [|x xs IH]; intros acc; simpl.
  - split; [lia | intros o []].
  - destruct (Z.ltb_spec acc (getTime (purchase_date x))) as [L|L].
    + destruct (IH (getTime (purchase_date x))) as (G1 & G2). cbv zeta in G1, G2.
      split; [lia|]. intros o [<-|Ho]; [exact G1 | now apply G2].
    + destruct (IH acc) as (G1 & G2). cbv zeta in G1, G2.
      split; [lia|]. intros o [<-|Ho]; [lia | now apply G2].
Qed.

(** No order is purchased after S. *)
Lemma latestTime_ge (orders : list RawOrderRow) (o : RawOrderRow) :
  In o orders -> purchase_date o <= toISODate (latestTime orders).
Proof.
  intros Ho. destruct (latestTime_day orders) as (sd & _ & E).
  rewrite E, toISODate_getTime. apply (proj1 (getTime_le _ _)).
  rewrite <- E. unfold latestTime. now apply latest_fold_ge.
Qed.

End Days.

(* ================================================================== *)
(** ** Contrast engine: windows, order of the audit rows, totals *)

Section ContrastWindows.
Import JS.

Lemma indices_ascending (a n : nat) :
  StronglySorted Z.lt (map Z.of_nat (seq a n)).
Proof.
  revert a. induction n as [|n IH]; intros a; simpl; constructor; [apply IH|].
  apply Forall_forall. intros x Hx. apply in_map_iff in Hx.
  destruct Hx as (k & <- & Hk). apply in_seq in Hk. lia.
Qed.

Lemma StronglySorted_map {A B : Type} (R : A -> A -> Prop) (R' : B -> B -> Prop)
      (g : A -> B) (l : list A) :
  (forall a b, R a b -> R' (g a) (g b)) ->
  StronglySorted R l -> StronglySorted R' (map g l).
Proof.
  intros HR. induction 1 as [|x t St IH Hx]; simpl; constructor; [exact IH|].
  apply Forall_forall. intros y Hy. apply in_map_iff in Hy.
  destruct Hy as (z & <- & Hz). apply HR. rewrite Forall_forall in Hx. now apply Hx.
Qed.

Lemma contrastRow_date (orders : list RawOrderRow) (maxTime : Z) (t0Str dc i : Z) :
  let row := Spec.contrastRow orders maxTime (getTime t0Str + MS_PER_DAY)
               (getTime t0Str - dc * MS_PER_DAY) i in
  Contrast.date row = t0Str + 1 + i
  /\ Contrast.matchedDate row = t0Str - dc + i.
Proof.
  unfold Spec.contrastRow. cbn [Contrast.date Contrast.matchedDate].
  replace (getTime t0Str + MS_PER_DAY + i * MS_PER_DAY) with (getTime (t0Str + 1 + i))
    by (unfold getTime; ring).
  replace (getTime t0Str - dc * MS_PER_DAY + i * MS_PER_DAY) with (getTime (t0Str - dc + i))
    by (unfold getTime; ring).
  now rewrite !toISODate_getTime.
Qed.

(** The audit rows come out latest day first. *)
Lemma contrast_breakdown_rev (orders : list RawOrderRow) (t0Str : isodate) :
  let res := Contrast.contrast orders t0Str in
  Contrast.dailyBreakdown res
  = rev (map (Spec.contrastRow orders (latestTime orders)
                (getTime t0Str + MS_PER_DAY)
                (getTime t0Str - Contrast.runDays res * MS_PER_DAY))
             (Contrast.dayIndices (Contrast.runDays res))).
Proof.
  unfold Contrast.contrast. cbn [Contrast.runDays Contrast.dailyBreakdown]. cbv zeta.
  match goal with
  | |- context [Contrast.fairnessLoop ?o ?m ?a ?b ?d] =>
      destruct (fairnessLoop_rows o m a b d) as (R & _)
  end.
  cbv zeta in R. rewrite R.
  apply (sort_descending_rev (fun r => getTime (Contrast.date r))).
  unfold Contrast.dayIndices.
  apply (StronglySorted_map Z.lt); [|apply indices_ascending].
  intros a b Hab.
  match goal with
  | |- context [Spec.contrastRow ?o ?m _ (_ - ?dc * _) a] =>
      destruct (contrastRow_date o m t0Str dc a) as (Ea & _);
      destruct (contrastRow_date o m t0Str dc b) as (Eb & _)
  end.
  cbv zeta in Ea, Eb. rewrite Ea, Eb. apply getTime_lt. lia.
Qed.

(** X1. The comparison window has runDays = S - T0 >= 1 days, and the audit
    rows are listed latest day first without gaps: row j is the after-day
    S - j, mirrored on the before-day runDays + 1 days earlier, with age
    limit j. *)
Theorem breakdown_days_descending (data : AppData) (res : Contrast.ContrastResult)
        (H : Contrast.analyzeContrast data = Some res) :
  Contrast.runDays res = Contrast.s res - Contrast.t0 res
  /\ 1 <= Contrast.runDays res
  /\ forall j row,
       nth_error (Contrast.dailyBreakdown res) j = Some row ->
       Contrast.date row = Contrast.s res - Z.of_nat j
       /\ Contrast.matchedDate row = Contrast.date row - Contrast.runDays res - 1
       /\ Contrast.ageLimit row = Z.of_nat j.
Proof.
  apply analyzeContrast_Some in H. destruct H as (o & rest & t0Str & _ & _ & L & ->).
  destruct (runDays_days (o :: rest) t0Str L) as (sd & Es & Hlt & Edc).
  assert (Er : Contrast.runDays (Contrast.contrast (o :: rest) t0Str) = sd - t0Str)
    by exact Edc.
  assert (Esd : Contrast.s (Contrast.contrast (o :: rest) t0Str) = sd)
    by (unfold Contrast.contrast; cbn [Contrast.s]; now rewrite Es, toISODate_getTime).
  assert (Et : Contrast.t0 (Contrast.contrast (o :: rest) t0Str) = t0Str) by reflexivity.
  rewrite Er, Esd, Et.
  split; [reflexivity|]. split; [lia|].
  intros j row Hj. rewrite contrast_breakdown_rev, Er in Hj.
  rewrite nth_error_rev, length_map in Hj. unfold Contrast.dayIndices in Hj.
  rewrite length_map, length_seq in Hj.
  destruct (Nat.ltb_spec j (Z.to_nat (sd - t0Str))) as [Lj|Lj]; [|discriminate].
  rewrite nth_error_map, nth_error_map, nth_error_seq in Hj.
  destruct (Nat.ltb_spec (Z.to_nat (sd - t0Str) - S j) (Z.to_nat (sd - t0Str)));
    [|lia].
  cbn [option_map] in Hj. injection Hj as <-.
  match goal with
  | |- context [Spec.contrastRow ?o ?m _ (_ - ?dc * _) ?i] =>
      destruct (contrastRow_date o m t0Str dc i) as (Ea & Eb)
  end.
  cbv zeta in Ea, Eb. rewrite Ea, Eb.
  unfold Spec.contrastRow at 1. cbn [Contrast.ageLimit].
  rewrite Es.
  replace (getTime t0Str + MS_PER_DAY
           + Z.of_nat (Z.to_nat (sd - t0Str) - S j) * MS_PER_DAY)
    with (getTime (t0Str + 1 + Z.of_nat (Z.to_nat (sd - t0Str) - S j)))
    by (unfold getTime; ring).
  rewrite getTime_diff_days. lia.
Qed.

Lemma breakdown_days_descending_witness :
  exists res,
    Contrast.analyzeContrast Samples.contrastData = Some res
    /\ Contrast.runDays res = 2
    /\ map Contrast.date (Contrast.dailyBreakdown res) = [ymd 2024 3 3; ymd 2024 3 2]
    /\ Contrast.runDays res = Contrast.s res - Contrast.t0 res.
Proof.
  eexists. split; [reflexivity|]. split; [reflexivity|]. split; [reflexivity|].
  exact (proj1 (breakdown_days_descending Samples.contrastData _ eq_refl)).
Defined.

End ContrastWindows.

Section ContrastTotals.
Import JS.

Lemma filter_all {A : Type} (l : list A) : filter (fun _ => true) l = l.
Proof. induction l as [|x t IH]; simpl; [reflexivity | now rewrite IH]. Qed.

Lemma sumZ_le {A : Type} (f g : A -> Z) (l : list A) :
  (forall x, In x l -> f x <= g x) -> sumZ f l <= sumZ g l.
Proof.
  induction l as [|x t IH]; intros H; [rewrite !sumZ_nil; lia|].
  rewrite !sumZ_cons.
  assert (f x <= g x) by (apply H; now left).
  assert (sumZ f t <= sumZ g t) by (apply IH; intros; apply H; now right).
  lia.
Qed.

Lemma countedBefore_le (L : Z) (l : list RawOrderRow) :
  0 <= sumZ Contrast.getReturnCount (filter (Spec.countedBefore L) l)
    <= sumZ Contrast.getReturnCount
         (filter (fun o => 0 <? Contrast.getReturnCount o) l).
Proof.
  apply (sumZ_filter_and_le Contrast.getReturnCount
           (fun o => 0 <? Contrast.getReturnCount o)
           (fun o => match Contrast.getLag o with
                     | Some lag => lag <=? L
                     | None => false
                     end)).
  intros o _ Hp. apply Z.ltb_lt in Hp. lia.
Qed.

(** The four totals of a result as sums over the day indices. *)
Lemma contrast_day_sums (orders : list RawOrderRow) (t0Str : isodate) :
  let res := Contrast.contrast orders t0Str in
  let dc := Contrast.runDays res in
  let idx := Contrast.dayIndices dc in
  Contrast.sales (Contrast.after res)
  = sumZ (fun i => sumZ units_sold
                     (filter (fun _ => true)
                             (Contrast.ordersOn (t0Str + 1 + i) orders))) idx
  /\ Contrast.returns (Contrast.after res)
     = sumZ (fun i => sumZ Contrast.getReturnCount
                        (filter (fun o => 0 <? Contrast.getReturnCount o)
                                (Contrast.ordersOn (t0Str + 1 + i) orders))) idx
  /\ Contrast.sales (Contrast.before res)
     = sumZ (fun i => sumZ units_sold
                        (filter (fun _ => true)
                                (Contrast.ordersOn (t0Str - dc + i) orders))) idx
  /\ 0 <= Contrast.returns (Contrast.before res)
       <= sumZ (fun i => sumZ Contrast.getReturnCount
                           (filter (fun o => 0 <? Contrast.getReturnCount o)
                                   (Contrast.ordersOn (t0Str - dc + i) orders))) idx.
Proof.
  intros res dc idx.
  destruct (contrast_rows orders t0Str) as (_ & A & B & C & D).
  fold res in A, B, C, D. fold dc in A, B, C, D. fold idx in A, B, C, D.
  rewrite sumZ_map in A, B, C, D.
  assert (E : forall i,
             Contrast.date (Spec.contrastRow orders (latestTime orders)
                              (getTime t0Str + MS_PER_DAY)
                              (getTime t0Str - dc * MS_PER_DAY) i) = t0Str + 1 + i
             /\ Contrast.matchedDate
                  (Spec.contrastRow orders (latestTime orders)
                     (getTime t0Str + MS_PER_DAY)
                     (getTime t0Str - dc * MS_PER_DAY) i) = t0Str - dc + i)
    by (intros i; apply contrastRow_date).
  split; [|split; [|split]].
  - rewrite A. apply sumZ_ext_in. intros i _. rewrite filter_all.
    rewrite <- (proj1 (E i)). reflexivity.
  - rewrite B. apply sumZ_ext_in. intros i _.
    rewrite <- (proj1 (E i)). reflexivity.
  - rewrite C. apply sumZ_ext_in. intros i _. rewrite filter_all.
    rewrite <- (proj2 (E i)). reflexivity.
  - rewrite D. split.
    + apply sumZ_nonneg. intros i _.
      unfold Spec.contrastRow. cbn [Contrast.refReturns].
      apply countedBefore_le.
    + apply sumZ_le. intros i _. rewrite <- (proj2 (E i)).
      unfold Spec.contrastRow. cbn [Contrast.refReturns Contrast.matchedDate].
      apply countedBefore_le.
Qed.

(** X2. The totals of a result are totals over purchase windows: after.sales
    is the units sold of all orders purchased after T0, after.returns their
    positive return counts, and before.sales the units sold of the orders
    purchased in the mirrored window [T0 - runDays, T0). *)
Theorem contrast_totals_by_window (data : AppData) (orders : list RawOrderRow)
        (res : Contrast.ContrastResult)
        (Ho : return_order data = Some orders)
        (H : Contrast.analyzeContrast data = Some res) :
  Contrast.sales (Contrast.after res)
  = sumZ units_sold (filter (fun o => Contrast.t0 res <? purchase_date o) orders)
  /\ Contrast.returns (Contrast.after res)
     = sumZ Contrast.getReturnCount
         (filter (fun o => (0 <? Contrast.getReturnCount o)
                           && (Contrast.t0 res <? purchase_date o)) orders)
  /\ Contrast.sales (Contrast.before res)
     = sumZ units_sold
         (filter (Props.inDays (Contrast.t0 res - Contrast.runDays res)
                               (Contrast.t0 res)) orders).
Proof.
  apply analyzeContrast_Some in H. destruct H as (o & rest & t0Str & Ho' & _ & L & ->).
  rewrite Ho in Ho'. injection Ho' as ->.
  destruct (runDays_days (o :: rest) t0Str L) as (sd & Es & Hlt & Edc).
  destruct (contrast_day_sums (o :: rest) t0Str) as (A & B & C & _).
  assert (Er : Contrast.runDays (Contrast.contrast (o :: rest) t0Str) = sd - t0Str)
    by exact Edc.
  assert (Et : Contrast.t0 (Contrast.contrast (o :: rest) t0Str) = t0Str) by reflexivity.
  rewrite Er in *. rewrite Et. unfold Contrast.dayIndices in A, B, C.
  rewrite sumZ_by_day in A, B, C.
  assert (Hin : forall x, In x (o :: rest) ->
                  Props.inDays (t0Str + 1) (t0Str + 1 + Z.of_nat (Z.to_nat (sd - t0Str))) x
                  = (t0Str <? purchase_date x)).
  { intros x Hx. apply latestTime_ge in Hx. rewrite Es, toISODate_getTime in Hx.
    unfold Props.inDays.
    destruct (Z.leb_spec (t0Str + 1) (purchase_date x)),
      (Z.ltb_spec (purchase_date x) (t0Str + 1 + Z.of_nat (Z.to_nat (sd - t0Str)))),
      (Z.ltb_spec t0Str (purchase_date x)); simpl; try reflexivity; lia. }
  split; [|split].
  - rewrite A. f_equal. apply filter_ext_in. intros x Hx. now rewrite (Hin x Hx).
  - rewrite B. f_equal. apply filter_ext_in. intros x Hx. now rewrite (Hin x Hx).
  - rewrite C. f_equal. apply filter_ext_in. intros x Hx. simpl.
    unfold Props.inDays. do 2 f_equal. lia.
Qed.

Lemma contrast_totals_by_window_witness :
  exists res,
    Contrast.analyzeContrast Samples.contrastData = Some res
    /\ Contrast.sales (Contrast.after res) = 13
    /\ Contrast.sales (Contrast.before res) = 12
    /\ Contrast.sales (Contrast.after res)
       = sumZ units_sold
           (filter (fun o => Contrast.t0 res <? purchase_date o) Samples.contrastOrders).
Proof.
  eexists. split; [reflexivity|]. split; [reflexivity|]. split; [reflexivity|].
  exact (proj1 (contrast_totals_by_window Samples.contrastData Samples.contrastOrders _
                  eq_refl eq_refl)).
Defined.

(** X3. Censoring only removes returns: before.returns is non-negative and
    at most the uncensored positive return counts of the orders purchased in
    [T0 - runDays, T0); the same holds row by row for refReturns against the
    matched day. *)
Theorem censoring_only_lowers (data : AppData) (orders : list RawOrderRow)
        (res : Contrast.ContrastResult)
        (Ho : return_order data = Some orders)
        (H : Contrast.analyzeContrast data = Some res) :
  0 <= Contrast.returns (Contrast.before res)
    <= sumZ Contrast.getReturnCount
         (filter (fun o => (0 <? Contrast.getReturnCount o)
                           && Props.inDays (Contrast.t0 res - Contrast.runDays res)
                                           (Contrast.t0 res) o) orders)
  /\ forall row,
       In row (Contrast.dailyBreakdown res) ->
       0 <= Contrast.refReturns row
         <= sumZ Contrast.getReturnCount
              (filter (fun o => 0 <? Contrast.getReturnCount o)
                      (Contrast.ordersOn (Contrast.matchedDate row) orders)).
Proof.
  apply analyzeContrast_Some in H. destruct H as (o & rest & t0Str & Ho' & _ & L & ->).
  rewrite Ho in Ho'. injection Ho' as ->.
  destruct (runDays_days (o :: rest) t0Str L) as (sd & Es & Hlt & Edc).
  destruct (contrast_day_sums (o :: rest) t0Str) as (_ & _ & _ & D).
  assert (Er : Contrast.runDays (Contrast.contrast (o :: rest) t0Str) = sd - t0Str)
    by exact Edc.
  assert (Et : Contrast.t0 (Contrast.contrast (o :: rest) t0Str) = t0Str) by reflexivity.
  split.
  - rewrite Er in *. rewrite Et. unfold Contrast.dayIndices in D.
    rewrite sumZ_by_day in D.
    replace (t0Str - (sd - t0Str) + Z.of_nat (Z.to_nat (sd - t0Str))) with t0Str in D
      by lia.
    exact D.
  - intros row Hrow.
    destruct (contrast_rows (o :: rest) t0Str) as (P & _).
    apply (Permutation_in _ P) in Hrow. apply in_map_iff in Hrow.
    destruct Hrow as (i & <- & _).
    unfold Spec.contrastRow. cbn [Contrast.refReturns Contrast.matchedDate].
    apply countedBefore_le.
Qed.

Lemma censoring_only_lowers_witness :
  exists res,
    Contrast.analyzeContrast Samples.contrastData = Some res
    /\ Contrast.returns (Contrast.before res) = 4
    /\ sumZ Contrast.getReturnCount
         (filter (fun o => (0 <? Contrast.getReturnCount o)
                           && Props.inDays (Contrast.t0 res - Contrast.runDays res)
                                           (Contrast.t0 res) o)
                 Samples.contrastOrders) = 7
    /\ 0 <= Contrast.returns (Contrast.before res)
         <= sumZ Contrast.getReturnCount
              (filter (fun o => (0 <? Contrast.getReturnCount o)
                                && Props.inDays (Contrast.t0 res - Contrast.runDays res)
                                                (Contrast.t0 res) o)
                      Samples.contrastOrders).
Proof.
  eexists. split; [reflexivity|]. split; [reflexivity|]. split; [reflexivity|].
  exact (proj1 (censoring_only_lowers Samples.contrastData Samples.contrastOrders _
                  eq_refl eq_refl)).
Defined.

End ContrastTotals.

(* ================================================================== *)
(** ** Contrast engine: the relative delta *)

Section Delta.
Import JS.

Lemma Qpos_b_iff (q : Q) : Qpos_b q = true <-> (0 < q)%Q.
Proof.
  unfold Qpos_b, Qlt. simpl. rewrite Z.ltb_lt. lia.
Qed.

Lemma Qzero_b_iff (q : Q) : Qzero_b q = true <-> (q == 0)%Q.
Proof.
  unfold Qzero_b, Qeq. simpl. rewrite Z.eqb_eq. lia.
Qed.

Lemma Qneg_b_iff (q : Q) : (Qnum q <? 0) = true <-> (q < 0)%Q.
Proof.
  unfold Qlt. simpl. rewrite Z.ltb_lt. lia.
Qed.

(** A guarded rate of a non-negative count is a non-negative rational. *)
Lemma guarded_rate_nonneg (r v : Z) :
  0 <= r ->
  exists q,
    (if 0 <? v then js_div (inject_Z r) (inject_Z v) else Fin 0) = Fin q
    /\ (0 <= q)%Q
    /\ (0 < v -> (q == inject_Z r / inject_Z v)%Q)
    /\ (v <= 0 -> q = 0%Q).
Proof.
  intros Hr. destruct (Z.ltb_spec 0 v) as [L|L].
  - rewrite js_div_pos by exact L. eexists. split; [reflexivity|].
    split; [|split; [reflexivity | lia]].
    apply Qle_shift_div_l.
    + rewrite (Zlt_Qlt 0 v) in L. exact L.
    + rewrite Qmult_0_l. rewrite (Zle_Qle 0 r) in Hr. exact Hr.
  - exists 0%Q. split; [reflexivity|]. split; [apply Qle_refl|].
    split; [lia | reflexivity].
Qed.

(** The three branches of the relative delta, on finite non-negative rates. *)
Lemma delta_branches (a b : Q) :
  (0 <= a)%Q -> (0 <= b)%Q ->
  exists d,
    (if js_gt0 (Fin b) then js_quot (js_sub (Fin a) (Fin b)) (Fin b)
     else if js_gt0 (Fin a) then Fin 1 else Fin 0) = Fin d
    /\ (js_lt0 (Fin d) = true <-> (a < b)%Q)
    /\ ((a == b)%Q -> (d == 0)%Q)
    /\ ((0 < b)%Q -> (d == (a - b) / b)%Q)
    /\ ((b == 0)%Q -> (0 < a)%Q -> (d == 1)%Q)
    /\ ((b == 0)%Q -> (a == 0)%Q -> (d == 0)%Q).
Proof.
  intros Ha Hb. cbn [js_gt0 js_sub js_quot js_lt0].
  destruct (Qpos_b b) eqn:Eb.
  - apply Qpos_b_iff in Eb.
    assert (Ez : Qzero_b b = false).
    { destruct (Qzero_b b) eqn:E; [|reflexivity].
      apply Qzero_b_iff in E. rewrite E in Eb. inversion Eb. }
    unfold js_div. rewrite Ez. eexists. split; [reflexivity|].
    rewrite Qneg_b_iff.
    split; [|split; [|split; [|split]]].
    + split; intros Hd.
      * destruct (Qlt_le_dec a b) as [Lab|Lab]; [exact Lab|].
        exfalso. apply (Qlt_not_le _ _ Hd).
        apply Qle_shift_div_l; [exact Eb | lra].
      * apply Qlt_shift_div_r; [exact Eb | lra].
    + intros E. rewrite E. field. intros E0. rewrite E0 in Eb. inversion Eb.
    + intros _. reflexivity.
    + intros E. rewrite E in Eb. inversion Eb.
    + intros E. rewrite E in Eb. inversion Eb.
  - assert (Eb0 : (b == 0)%Q).
    { apply Qle_antisym; [|exact Hb]. apply Qnot_lt_le. intros L.
      apply Qpos_b_iff in L. congruence. }
    destruct (Qpos_b a) eqn:Ea.
    + apply Qpos_b_iff in Ea. exists 1%Q. split; [reflexivity|].
      split; [|split; [|split; [|split]]].
      * split; [discriminate | intros L; exfalso; lra].
      * intros E. exfalso. lra.
      * intros L. exfalso. lra.
      * reflexivity.
      * intros _ E. exfalso. lra.
    + assert (Ea0 : (a == 0)%Q).
      { apply Qle_antisym; [|exact Ha]. apply Qnot_lt_le. intros L.
        apply Qpos_b_iff in L. congruence. }
      exists 0%Q. split; [reflexivity|].
      split; [|split; [|split; [|split]]].
      * split; [discriminate | intros L; exfalso; lra].
      * reflexivity.
      * intros L. exfalso. lra.
      * intros _ L. exfalso. lra.
      * reflexivity.
Qed.

Lemma contrast_returns_nonneg (orders : list RawOrderRow) (t0Str : isodate) :
  let res := Contrast.contrast orders t0Str in
  0 <= Contrast.returns (Contrast.after res)
  /\ 0 <= Contrast.returns (Contrast.before res).
Proof.
  destruct (contrast_day_sums orders t0Str) as (_ & B & _ & D).
  cbv zeta. split; [|lia]. rewrite B.
  apply sumZ_nonneg. intros i _. apply sumZ_nonneg. intros o Ho.
  apply filter_In in Ho. destruct Ho as (_ & Hp). apply Z.ltb_lt in Hp. lia.
Qed.

(** X4. In every result both rates are finite and non-negative and so is
    the relative delta: it is (after - before)/before when the before rate is
    positive, 1 when the before rate is 0 and the after rate is positive, and
    0 when both are 0.  isImproved holds exactly when the after rate is below
    the before rate, and equal rates give delta 0. *)
Theorem delta_and_improvement (data : AppData) (res : Contrast.ContrastResult)
        (H : Contrast.analyzeContrast data = Some res) :
  exists a b d : Q,
    Contrast.rate (Contrast.after res) = Fin a
    /\ Contrast.rate (Contrast.before res) = Fin b
    /\ Contrast.deltaRate res = Fin d
    /\ (0 <= a)%Q /\ (0 <= b)%Q
    /\ (Contrast.isImproved res = true <-> (a < b)%Q)
    /\ ((a == b)%Q -> (d == 0)%Q)
    /\ ((0 < b)%Q -> (d == (a - b) / b)%Q)
    /\ ((b == 0)%Q -> (0 < a)%Q -> (d == 1)%Q)
    /\ ((b == 0)%Q -> (a == 0)%Q -> (d == 0)%Q).
Proof.
  apply analyzeContrast_Some in H. destruct H as (o & rest & t0Str & _ & _ & _ & ->).
  destruct (contrast_returns_nonneg (o :: rest) t0Str) as (Ra & Rb).
  revert Ra Rb. unfold Contrast.contrast. cbv zeta.
  cbn [Contrast.after Contrast.before Contrast.rate Contrast.returns Contrast.deltaRate
       Contrast.isImproved].
  set (st := Contrast.fairnessLoop _ _ _ _ _). intros Ra Rb.
  destruct (guarded_rate_nonneg (Contrast.afterTotalReturns st)
              (Contrast.afterTotalSales st) Ra) as (a & Ea & Ha & _).
  destruct (guarded_rate_nonneg (Contrast.beforeTotalReturns st)
              (Contrast.beforeTotalSales st) Rb) as (b & Eb & Hb & _).
  rewrite Ea, Eb.
  destruct (delta_branches a b Ha Hb) as (d & Ed & P1 & P2 & P3 & P4 & P5).
  exists a, b, d. rewrite Ed. repeat (split; [first [reflexivity | assumption]|]).
  assumption.
Qed.

Lemma delta_and_improvement_witness :
  exists res,
    Contrast.analyzeContrast Samples.contrastData = Some res
    /\ Contrast.rate (Contrast.after res) = Fin (1 # 13)
    /\ Contrast.rate (Contrast.before res) = Fin (4 # 12)
    /\ Contrast.isImproved res = true
    /\ exists a b d : Q,
         Contrast.rate (Contrast.after res) = Fin a
         /\ Contrast.rate (Contrast.before res) = Fin b
         /\ Contrast.deltaRate res = Fin d
         /\ (Contrast.isImproved res = true <-> (a < b)%Q).
Proof.
  eexists. split; [reflexivity|]. split; [reflexivity|]. split; [reflexivity|].
  split; [reflexivity|].
  destruct (delta_and_improvement Samples.contrastData _ eq_refl)
    as (a & b & d & Ea & Eb & Ed & _ & _ & Hi & _).
  exists a, b, d. split; [exact Ea | split; [exact Eb | split; [exact Ed | exact Hi]]].
Defined.

End Delta.

Section ReturnedBeforeCutoff.
Import JS.

(** On the mirrored day of index [i], the censoring test [lag <= ageLimit]
    is the test that the return is dated before T0. *)
Lemma countedBefore_mirror (t0Str sd i : Z) (o : RawOrderRow) :
  purchase_date o = t0Str - (sd - t0Str) + i ->
  Spec.countedBefore
    ((getTime sd - (getTime t0Str + MS_PER_DAY + i * MS_PER_DAY)) / MS_PER_DAY) o
  = (0 <? Contrast.getReturnCount o) && Props.returnedBefore t0Str o.
Proof.
  intros Hp. unfold Spec.countedBefore, Contrast.getLag, Props.returnedBefore.
  f_equal. destruct (return_date o) as [rd|]; [|reflexivity].
  replace (getTime t0Str + MS_PER_DAY + i * MS_PER_DAY) with (getTime (t0Str + 1 + i))
    by (unfold getTime; ring).
  rewrite !getTime_diff_days, Hp.
  destruct (Z.leb_spec (rd - (t0Str - (sd - t0Str) + i)) (sd - (t0Str + 1 + i))),
    (Z.ltb_spec rd t0Str); try reflexivity; lia.
Qed.

(** X5. The censored before side counts exactly the returns dated before
    the cutoff: each row's refReturns is the sum of the positive return counts
    of the matched day's orders whose return date is before T0, and
    before.returns is that sum over the orders purchased in
    [T0 - runDays, T0). *)
Theorem before_counts_returns_before_cutoff (data : AppData) (orders : list RawOrderRow)
        (res : Contrast.ContrastResult)
        (Ho : return_order data = Some orders)
        (H : Contrast.analyzeContrast data = Some res) :
  Contrast.returns (Contrast.before res)
  = sumZ Contrast.getReturnCount
      (filter (fun o => ((0 <? Contrast.getReturnCount o)
                         && Props.returnedBefore (Contrast.t0 res) o)
                        && Props.inDays (Contrast.t0 res - Contrast.runDays res)
                                        (Contrast.t0 res) o) orders)
  /\ forall row,
       In row (Contrast.dailyBreakdown res) ->
       Contrast.refReturns row
       = sumZ Contrast.getReturnCount
           (filter (fun o => (0 <? Contrast.getReturnCount o)
                             && Props.returnedBefore (Contrast.t0 res) o)
                   (Contrast.ordersOn (Contrast.matchedDate row) orders)).
Proof.
  apply analyzeContrast_Some in H. destruct H as (o & rest & t0Str & Ho' & _ & L & ->).
  rewrite Ho in Ho'. injection Ho' as ->.
  destruct (runDays_days (o :: rest) t0Str L) as (sd & Es & Hlt & Edc).
  assert (Er : Contrast.runDays (Contrast.contrast (o :: rest) t0Str) = sd - t0Str)
    by exact Edc.
  assert (Et : Contrast.t0 (Contrast.contrast (o :: rest) t0Str) = t0Str) by reflexivity.
  destruct (contrast_rows (o :: rest) t0Str) as (P & _ & _ & _ & D).
  rewrite Er in *. rewrite Et.
  assert (Row : forall i,
             Contrast.refReturns
               (Spec.contrastRow (o :: rest) (latestTime (o :: rest))
                  (getTime t0Str + MS_PER_DAY)
                  (getTime t0Str - (sd - t0Str) * MS_PER_DAY) i)
             = sumZ Contrast.getReturnCount
                 (filter (fun x => (0 <? Contrast.getReturnCount x)
                                   && Props.returnedBefore t0Str x)
                         (Contrast.ordersOn (t0Str - (sd - t0Str) + i) (o :: rest)))).
  { intros i. unfold Spec.contrastRow. cbn [Contrast.refReturns].
    replace (getTime t0Str - (sd - t0Str) * MS_PER_DAY + i * MS_PER_DAY)
      with (getTime (t0Str - (sd - t0Str) + i)) by (unfold getTime; ring).
    rewrite toISODate_getTime, Es. f_equal. apply filter_ext_in.
    intros x Hx. unfold Contrast.ordersOn in Hx. apply filter_In in Hx.
    destruct Hx as (_ & Hx). apply Z.eqb_eq in Hx.
    now apply countedBefore_mirror. }
  split.
  - rewrite D, sumZ_map.
    rewrite (sumZ_ext_in _ _ _ (fun i _ => Row i)).
    unfold Contrast.dayIndices. rewrite sumZ_by_day.
    f_equal. apply filter_ext_in. intros x _. unfold Props.inDays.
    do 3 f_equal. lia.
  - intros row Hrow. apply (Permutation_in _ P) in Hrow. apply in_map_iff in Hrow.
    destruct Hrow as (i & <- & _). rewrite Row.
    destruct (contrastRow_date (o :: rest) (latestTime (o :: rest)) t0Str
                (sd - t0Str) i) as (_ & Em).
    cbv zeta in Em. now rewrite Em.
Qed.

Lemma before_counts_returns_before_cutoff_witness :
  exists res,
    Contrast.analyzeContrast Samples.contrastData = Some res
    /\ Contrast.returns (Contrast.before res) = 4
    /\ Contrast.returns (Contrast.before res)
       = sumZ Contrast.getReturnCount
           (filter (fun o => ((0 <? Contrast.getReturnCount o)
                              && Props.returnedBefore (Contrast.t0 res) o)
                             && Props.inDays (Contrast.t0 res - Contrast.runDays res)
                                             (Contrast.t0 res) o)
                   Samples.contrastOrders).
Proof.
  eexists. split; [reflexivity|]. split; [reflexivity|].
  exact (proj1 (before_counts_returns_before_cutoff Samples.contrastData
                  Samples.contrastOrders _ eq_refl eq_refl)).
Defined.

End ReturnedBeforeCutoff.

(* ================================================================== *)
(** ** Lag histogram *)

Section Histogram.
Import JS.

Lemma countIn_split (lo mid hi : Z) (smp : list Z) :
  lo <= mid <= hi ->
  Props.countIn lo mid smp + Props.countIn mid hi smp = Props.countIn lo hi smp.
Proof.
  intros Hm. unfold Props.countIn. induction smp as [|x t IH]; [reflexivity|].
  simpl filter.
  destruct (Z.leb_spec lo x), (Z.ltb_spec x mid), (Z.leb_spec mid x), (Z.ltb_spec x hi);
    cbn [andb List.length]; lia.
Qed.

Lemma countIn_bounds (lo hi : Z) (smp : list Z) :
  0 <= Props.countIn lo hi smp <= Z.of_nat (List.length smp).
Proof.
  unfold Props.countIn. split; [lia|].
  apply inj_le. induction smp as [|x t IH]; simpl; [lia|].
  destruct (_ && _); simpl; lia.
Qed.

Lemma countIn_all (hi : Z) (smp : list Z) :
  (forall v, In v smp -> 0 <= v < hi) ->
  Props.countIn 0 hi smp = Z.of_nat (List.length smp).
Proof.
  intros H. unfold Props.countIn. f_equal. f_equal.
  induction smp as [|x t IH]; [reflexivity|]. simpl.
  assert (Hx : 0 <= x < hi) by (apply H; now left).
  destruct (Z.leb_spec 0 x), (Z.ltb_spec x hi); simpl; try lia.
  f_equal. apply IH. intros v Hv. apply H. now right.
Qed.

Lemma histLoop_length (lags : list Z) (total : Z) (steps : nat) (i c : Z) :
  List.length (Maturity.histLoop lags total steps i c) = steps.
Proof.
  revert i c. induction steps as [|n IH]; intros i c; simpl; [reflexivity|].
  now rewrite IH.
Qed.

(** Bucket [k] of the loop started at day [i] with running count [c]. *)
Lemma histLoop_nth (lags : list Z) (total : Z) (steps : nat) (i c : Z)
      (k : nat) (b : Maturity.LagBucket) :
  nth_error (Maturity.histLoop lags total steps i c) k = Some b ->
  Maturity.days b = i + 2 * Z.of_nat k
  /\ Maturity.count b
     = Props.countIn (i + 2 * Z.of_nat k) (i + 2 * Z.of_nat k + 2) lags
  /\ Maturity.cumulativePct b
     = (inject_Z (c + Props.countIn i (i + 2 * Z.of_nat k + 2) lags) / inject_Z total)%Q.
Proof.
  revert i c k. induction steps as [|n IH]; intros i c k H.
  - destruct k; discriminate H.
  - cbn [Maturity.histLoop] in H. cbv zeta in H. destruct k as [|k].
    + cbn [nth_error] in H. injection H as <-.
      cbn [Maturity.days Maturity.count Maturity.cumulativePct].
      rewrite Z.mul_0_r, Z.add_0_r. repeat split.
    + cbn [nth_error] in H. apply IH in H. destruct H as (D & C & P).
      rewrite D, C, P.
      replace (i + 2 + 2 * Z.of_nat k) with (i + 2 * Z.of_nat (S k)) by lia.
      repeat split.
      f_equal. f_equal.
      change (Z.of_nat (List.length (filter (fun l => (i <=? l) && (l <? i + 2)) lags)))
        with (Props.countIn i (i + 2) lags).
      rewrite <- Z.add_assoc. f_equal.
      apply countIn_split. lia.
Qed.

(** Number of buckets for the markers of an analysis. *)
Lemma histSteps_bounds (x p90 : Z) :
  6 <= p90 <= 90 ->
  (11 <= Maturity.histSteps (Z.min (Z.max x (p90 + 14)) 120) <= 61)%nat.
Proof.
  intros Hp. unfold Maturity.histSteps.
  destruct (Z.ltb_spec (Z.min (Z.max x (p90 + 14)) 120) 0); [lia|].
  assert (20 <= Z.min (Z.max x (p90 + 14)) 120 <= 120) by lia.
  assert (10 <= Z.min (Z.max x (p90 + 14)) 120 / 2 <= 60).
  { split; [apply Z.div_le_lower_bound | apply Z.div_le_upper_bound]; lia. }
  lia.
Qed.

Lemma analyze_distribution (orders : list RawOrderRow) (o : RawOrderRow)
      (t0Str : isodate) (span : Z) :
  let lags := Maturity.sortedLags (Maturity.preSubset (getTime t0Str) orders) in
  let res := Maturity.analyze orders o t0Str span in
  Maturity.distribution res = Maturity.buildDistribution lags (Maturity.p90_value res)
  /\ 6 <= Maturity.p90_value res <= 90.
Proof.
  cbv zeta. split; [reflexivity|].
  pose proof (analyze_markers orders o t0Str span) as (_ & Hd & Hp & _).
  cbv zeta in Hd, Hp. lia.
Qed.

Lemma baselineLags_nonneg (data : AppData) (v : Z) :
  In v (Spec.baselineLags data) -> 0 <= v.
Proof.
  unfold Spec.baselineLags.
  destruct (return_order data) as [orders|]; [|intros []].
  destruct (t0Date data) as [t0Str|]; [|intros []].
  intros Hv. unfold Maturity.sortedLags in Hv. apply sort_In in Hv.
  rewrite unsortedLags_samples in Hv. unfold Spec.lagSamples in Hv.
  apply in_flat_map in Hv. destruct Hv as (x & _ & Hv).
  pose proof (lagContribution_nonneg t0Str x) as F.
  rewrite Forall_forall in F. now apply F.
Qed.

(** Closed form of bucket [k] of the histogram of an analysis. *)
Lemma distribution_nth (data : AppData) (res : Maturity.MaturityAnalysisResult)
      (k : nat) (b : Maturity.LagBucket) :
  Maturity.analyzeMaturity data = Some res ->
  nth_error (Maturity.distribution res) k = Some b ->
  Spec.baselineLags data <> []
  /\ Maturity.days b = 2 * Z.of_nat k
  /\ Maturity.count b
     = Props.countIn (2 * Z.of_nat k) (2 * Z.of_nat k + 2) (Spec.baselineLags data)
  /\ Maturity.cumulativePct b
     = (inject_Z (Props.countIn 0 (2 * Z.of_nat k + 2) (Spec.baselineLags data))
        / inject_Z (Z.of_nat (List.length (Spec.baselineLags data))))%Q.
Proof.
  intros H. apply analyzeMaturity_Some in H.
  destruct H as (o & rest & t0Str & Ho & Ht & ->).
  unfold Spec.baselineLags. rewrite Ho, Ht.
  destruct (analyze_distribution (o :: rest) o t0Str (Maturity.spanDays data))
    as (Ed & _).
  cbv zeta in Ed. rewrite Ed.
  set (lags := Maturity.sortedLags (Maturity.preSubset (getTime t0Str) (o :: rest))).
  set (p90 := Maturity.p90_value _).
  unfold Maturity.buildDistribution.
  destruct lags as [|x t] eqn:El; [destruct k; discriminate|]. rewrite <- El. cbv zeta.
  intros Hk. apply histLoop_nth in Hk. destruct Hk as (D & C & P).
  rewrite D, C, P. rewrite !Z.add_0_l. split; [rewrite El; discriminate|].
  repeat split.
Qed.

(** X6. For a non-empty baseline sample the histogram has between 11 and 61
    buckets of width 2 starting at day 0: bucket k starts at day 2k, its
    count is the number of samples in [2k, 2k+2), and its cumulative fraction
    is the number of samples below 2k+2 divided by the sample size. *)
Theorem histogram_buckets (data : AppData) (res : Maturity.MaturityAnalysisResult)
        (H : Maturity.analyzeMaturity data = Some res)
        (Hne : Spec.baselineLags data <> []) :
  (11 <= List.length (Maturity.distribution res) <= 61)%nat
  /\ forall k b,
       nth_error (Maturity.distribution res) k = Some b ->
       Maturity.days b = 2 * Z.of_nat k
       /\ Maturity.count b
          = Props.countIn (2 * Z.of_nat k) (2 * Z.of_nat k + 2) (Spec.baselineLags data)
       /\ Maturity.cumulativePct b
          = (inject_Z (Props.countIn 0 (2 * Z.of_nat k + 2) (Spec.baselineLags data))
             / inject_Z (Z.of_nat (List.length (Spec.baselineLags data))))%Q.
Proof.
  apply analyzeMaturity_Some in H. destruct H as (o & rest & t0Str & Ho & Ht & ->).
  unfold Spec.baselineLags in *. rewrite Ho, Ht in *.
  destruct (analyze_distribution (o :: rest) o t0Str (Maturity.spanDays data))
    as (Ed & Hp).
  cbv zeta in Ed, Hp. rewrite Ed.
  set (lags := Maturity.sortedLags (Maturity.preSubset (getTime t0Str) (o :: rest))) in *.
  set (p90 := Maturity.p90_value _) in *.
  unfold Maturity.buildDistribution.
  destruct lags as [|x t] eqn:El; [congruence|]. rewrite <- El. cbv zeta.
  split.
  - rewrite histLoop_length. now apply histSteps_bounds.
  - intros k b Hk. apply histLoop_nth in Hk. destruct Hk as (D & C & P).
    rewrite D, C, P. now rewrite !Z.add_0_l.
Qed.

Lemma histogram_buckets_witness :
  Spec.baselineLags Samples.maturityData <> []
  /\ exists res,
       Maturity.analyzeMaturity Samples.maturityData = Some res
       /\ List.length (Maturity.distribution res) = 18%nat
       /\ (11 <= List.length (Maturity.distribution res) <= 61)%nat.
Proof.
  assert (Hne : Spec.baselineLags Samples.maturityData <> [])
    by (vm_compute; discriminate).
  split; [exact Hne|].
  eexists. split; [reflexivity|]. split; [reflexivity|].
  exact (proj1 (histogram_buckets Samples.maturityData _ eq_refl Hne)).
Defined.

Lemma inject_Z_pos (n : Z) : 0 < n -> (0 < inject_Z n)%Q.
Proof. intros H. unfold Qlt. simpl. lia. Qed.

Lemma inject_Z_nonneg (n : Z) : 0 <= n -> (0 <= inject_Z n)%Q.
Proof. intros H. unfold Qle. simpl. lia. Qed.

Lemma ratio_le (a b n : Z) :
  0 < n -> a <= b -> (inject_Z a / inject_Z n <= inject_Z b / inject_Z n)%Q.
Proof.
  intros Hn Hab. unfold Qdiv. apply Qmult_le_compat_r.
  - rewrite <- Zle_Qle. exact Hab.
  - apply Qinv_le_0_compat. apply inject_Z_nonneg. lia.
Qed.

Lemma ratio_unit (a n : Z) :
  0 < n -> 0 <= a <= n -> (0 <= inject_Z a / inject_Z n <= 1)%Q.
Proof.
  intros Hn Ha. split.
  - apply Qle_shift_div_l; [now apply inject_Z_pos|].
    rewrite Qmult_0_l. apply inject_Z_nonneg. lia.
  - apply Qle_shift_div_r; [now apply inject_Z_pos|].
    rewrite Qmult_1_l. rewrite <- Zle_Qle. lia.
Qed.

Lemma baselineLags_length_pos (data : AppData) :
  Spec.baselineLags data <> [] -> 0 < Z.of_nat (List.length (Spec.baselineLags data)).
Proof.
  destruct (Spec.baselineLags data); [congruence | simpl; lia].
Qed.

Lemma distribution_unit (data : AppData) (res : Maturity.MaturityAnalysisResult)
      (k : nat) (b : Maturity.LagBucket) :
  Maturity.analyzeMaturity data = Some res ->
  nth_error (Maturity.distribution res) k = Some b ->
  (0 <= Maturity.cumulativePct b <= 1)%Q.
Proof.
  intros H Hk. destruct (distribution_nth data res k b H Hk) as (Hne & _ & _ & ->).
  apply ratio_unit; [now apply baselineLags_length_pos | apply countIn_bounds].
Qed.

Lemma distribution_mono (data : AppData) (res : Maturity.MaturityAnalysisResult)
      (j k : nat) (b b' : Maturity.LagBucket) :
  Maturity.analyzeMaturity data = Some res ->
  (j <= k)%nat ->
  nth_error (Maturity.distribution res) j = Some b ->
  nth_error (Maturity.distribution res) k = Some b' ->
  (Maturity.cumulativePct b <= Maturity.cumulativePct b')%Q.
Proof.
  intros H Hjk Hj Hk.
  destruct (distribution_nth data res j b H Hj) as (Hne & _ & _ & ->).
  destruct (distribution_nth data res k b' H Hk) as (_ & _ & _ & ->).
  apply ratio_le; [now apply baselineLags_length_pos|].
  rewrite <- (countIn_split 0 (2 * Z.of_nat j + 2) (2 * Z.of_nat k + 2)) by lia.
  pose proof (countIn_bounds (2 * Z.of_nat j + 2) (2 * Z.of_nat k + 2)
                (Spec.baselineLags data)). lia.
Qed.

(** X7. The cumulative fractions of the histogram lie in [0,1] and never
    decrease from one bucket to a later one; the last bucket's fraction is 1
    whenever every baseline sample falls below the end of the histogram. *)
Theorem histogram_cumulative_curve (data : AppData)
        (res : Maturity.MaturityAnalysisResult)
        (H : Maturity.analyzeMaturity data = Some res) :
  (forall k b,
      nth_error (Maturity.distribution res) k = Some b ->
      (0 <= Maturity.cumulativePct b <= 1)%Q)
  /\ (forall j k b b',
         (j <= k)%nat ->
         nth_error (Maturity.distribution res) j = Some b ->
         nth_error (Maturity.distribution res) k = Some b' ->
         (Maturity.cumulativePct b <= Maturity.cumulativePct b')%Q)
  /\ (forall b,
         nth_error (Maturity.distribution res)
                   (List.length (Maturity.distribution res) - 1) = Some b ->
         (forall v, In v (Spec.baselineLags data) ->
                    v < 2 * Z.of_nat (List.length (Maturity.distribution res))) ->
         (Maturity.cumulativePct b == 1)%Q).
Proof.
  split; [|split].
  - intros k b Hk. exact (distribution_unit data res k b H Hk).
  - intros j k b b' Hjk Hj Hk. exact (distribution_mono data res j k b b' H Hjk Hj Hk).
  - intros b Hb Hall.
    destruct (distribution_nth data res _ b H Hb) as (Hne & _ & _ & ->).
    assert (Hlen : (0 < List.length (Maturity.distribution res))%nat).
    { destruct (Maturity.distribution res); [discriminate Hb | simpl; lia]. }
    rewrite countIn_all.
    + apply Qmult_inv_r. intros E.
      apply baselineLags_length_pos, inject_Z_pos in Hne.
      rewrite E in Hne. inversion Hne.
    + intros v Hv. split; [now apply (baselineLags_nonneg data)|].
      specialize (Hall v Hv). lia.
Qed.

Lemma histogram_cumulative_curve_witness :
  exists res b,
    Maturity.analyzeMaturity Samples.maturityData = Some res
    /\ nth_error (Maturity.distribution res) 17 = Some b
    /\ (Maturity.cumulativePct b == 1)%Q
    /\ (0 <= Maturity.cumulativePct b <= 1)%Q.
Proof.
  eexists. eexists. split; [reflexivity|].
  match goal with
  | |- ?A /\ _ => assert (E : A) by (vm_compute; reflexivity)
  end.
  split; [exact E|]. split; [vm_compute; reflexivity|].
  exact (proj1 (histogram_cumulative_curve Samples.maturityData _ eq_refl) 17%nat _ E).
Defined.

End Histogram.

(* ================================================================== *)
(** ** Cumulative-fraction lookup *)

Section Lookup.
Import JS.

Lemma nth_error_combine_seq {A : Type} (l : list A) (a j : nat) :
  nth_error (combine (seq a (List.length l)) l) j
  = option_map (fun b => ((a + j)%nat, b)) (nth_error l j).
Proof.
  revert a j. induction l as [|x t IH]; intros a j; simpl.
  - destruct j; reflexivity.
  - destruct j as [|j]; simpl.
    + now rewrite Nat.add_0_r.
    + rewrite IH. destruct (nth_error t j); simpl; [|reflexivity].
      do 2 f_equal. lia.
Qed.

Lemma find_all_false {A : Type} (p : A -> bool) (l : list A) :
  (forall x, In x l -> p x = false) -> find p l = None.
Proof.
  induction l as [|x t IH]; intros H; simpl; [reflexivity|].
  rewrite (H x) by now left. apply IH. intros y Hy. apply H. now right.
Qed.

Lemma find_app_skip {A : Type} (p : A -> bool) (l1 l2 : list A) :
  (forall x, In x l1 -> p x = false) -> find p (l1 ++ l2) = find p l2.
Proof.
  induction l1 as [|x t IH]; intros H; simpl; [reflexivity|].
  rewrite (H x) by now left. apply IH. intros y Hy. apply H. now right.
Qed.

(** Searching the reversed list finds the last element that passes. *)
Lemma find_rev_last {A : Type} (p : A -> bool) (l1 l2 : list A) (x : A) :
  p x = true -> (forall y, In y l2 -> p y = false) ->
  find p (rev (l1 ++ x :: l2)) = Some x.
Proof.
  intros Hx H2. rewrite rev_app_distr. simpl rev. rewrite <- app_assoc.
  rewrite find_app_skip; [simpl; now rewrite Hx|].
  intros y Hy. apply H2. now apply in_rev.
Qed.

Variable dist : list Maturity.LagBucket.
Hypothesis Hshape :
  forall k b, nth_error dist k = Some b -> Maturity.days b = 2 * Z.of_nat k.

Lemma indexed_In (j : nat) (b : Maturity.LagBucket) :
  In (j, b) (combine (seq 0 (List.length dist)) dist) -> nth_error dist j = Some b.
Proof.
  intros H. apply In_nth_error in H. destruct H as (i & Hi).
  rewrite nth_error_combine_seq in Hi.
  destruct (nth_error dist i) as [b'|] eqn:E; [|discriminate].
  simpl in Hi. injection Hi as <- <-. exact E.
Qed.

Lemma lookup_body (day : Z) :
  dist <> [] ->
  Maturity.getCumulativePct dist day
  = match find (fun ib => Maturity.days (snd ib) <=? day)
               (rev (combine (seq 0 (List.length dist)) dist)) with
    | None => 0%Q
    | Some (bucketIdx, bucket) =>
        match nth_error dist (bucketIdx + 1) with
        | None => Maturity.cumulativePct bucket
        | Some nextBucket =>
            (Maturity.cumulativePct bucket
             + (inject_Z (day - Maturity.days bucket)
                / inject_Z (Maturity.days nextBucket - Maturity.days bucket))
               * (Maturity.cumulativePct nextBucket - Maturity.cumulativePct bucket))%Q
        end
    end.
Proof.
  intros Hne. unfold Maturity.getCumulativePct.
  destruct dist; [congruence | reflexivity].
Qed.

Lemma lookup_negative (day : Z) :
  dist <> [] -> day < 0 -> Maturity.getCumulativePct dist day = 0%Q.
Proof.
  intros Hne Hd. rewrite lookup_body by exact Hne.
  rewrite find_all_false; [reflexivity|].
  intros [j b] Hin. apply in_rev, indexed_In, Hshape in Hin.
  simpl snd. apply Z.leb_gt. lia.
Qed.

(** The bucket found for a non-negative day. *)
Lemma lookup_found (day : Z) :
  dist <> [] -> 0 <= day ->
  let m := Nat.min (Z.to_nat (day / 2)) (List.length dist - 1) in
  exists b,
    nth_error dist m = Some b
    /\ find (fun ib => Maturity.days (snd ib) <=? day)
            (rev (combine (seq 0 (List.length dist)) dist)) = Some (m, b).
Proof.
  intros Hne Hd m.
  assert (Hlen : (0 < List.length dist)%nat)
    by (destruct dist; [congruence | simpl; lia]).
  assert (Hm : (m < List.length dist)%nat) by (unfold m; lia).
  assert (Hq : 0 <= day / 2) by (apply Z.div_pos; lia).
  destruct (nth_error dist m) as [b|] eqn:Eb;
    [|apply nth_error_None in Eb; lia].
  exists b. split; [reflexivity|].
  assert (Ei : nth_error (combine (seq 0 (List.length dist)) dist) m = Some (m, b))
    by (rewrite nth_error_combine_seq, Eb; reflexivity).
  destruct (nth_error_split _ _ Ei) as (l1 & l2 & El & Hl1).
  rewrite El. apply find_rev_last.
  - simpl snd. rewrite (Hshape m b Eb). apply Z.leb_le.
    assert (Z.of_nat m <= day / 2) by (unfold m; lia).
    assert (2 * (day / 2) <= day) by (apply Z.mul_div_le; lia). lia.
  - intros [j b'] Hin.
    assert (Hj : exists i, nth_error l2 i = Some (j, b')) by now apply In_nth_error.
    destruct Hj as (i & Hi).
    assert (Hn : nth_error (combine (seq 0 (List.length dist)) dist) (S m + i)
                 = Some (j, b')).
    { rewrite El. rewrite nth_error_app2 by lia.
      replace (S m + i - List.length l1)%nat with (S i) by lia. exact Hi. }
    rewrite nth_error_combine_seq in Hn.
    destruct (nth_error dist (S m + i)) as [b''|] eqn:E; [|discriminate].
    simpl in Hn. injection Hn as <- <-.
    simpl snd. rewrite (Hshape _ _ E). apply Z.leb_gt.
    assert (S m + i < List.length dist)%nat by (apply nth_error_Some; congruence).
    assert (Em : m = Z.to_nat (day / 2)) by (unfold m; lia).
    assert (day < 2 * (day / 2) + 2).
    { pose proof (Z.mod_pos_bound day 2 ltac:(lia)).
      pose proof (Z.div_mod day 2 ltac:(lia)). lia. }
    lia.
Qed.

Lemma lookup_last (day : Z) :
  dist <> [] -> 0 <= day ->
  let m := Nat.min (Z.to_nat (day / 2)) (List.length dist - 1) in
  nth_error dist (m + 1) = None ->
  exists b, nth_error dist m = Some b
            /\ Maturity.getCumulativePct dist day = Maturity.cumulativePct b.
Proof.
  intros Hne Hd m Hn. destruct (lookup_found day Hne Hd) as (b & Eb & Ef).
  fold m in Eb, Ef. exists b. split; [exact Eb|].
  rewrite lookup_body, Ef, Hn by exact Hne. reflexivity.
Qed.

Lemma lookup_next (day : Z) (nb : Maturity.LagBucket) :
  dist <> [] -> 0 <= day ->
  let m := Nat.min (Z.to_nat (day / 2)) (List.length dist - 1) in
  nth_error dist (m + 1) = Some nb ->
  exists b,
    nth_error dist m = Some b
    /\ m = Z.to_nat (day / 2)
    /\ ((day = 2 * Z.of_nat m
         /\ (Maturity.getCumulativePct dist day == Maturity.cumulativePct b)%Q)
        \/ (day = 2 * Z.of_nat m + 1
            /\ (Maturity.getCumulativePct dist day
                == Maturity.cumulativePct b
                   + (1 # 2) * (Maturity.cumulativePct nb - Maturity.cumulativePct b))%Q)).
Proof.
  intros Hne Hd m Hn. destruct (lookup_found day Hne Hd) as (b & Eb & Ef).
  fold m in Eb, Ef. exists b. split; [exact Eb|].
  assert (Hlt : (m + 1 < List.length dist)%nat) by (apply nth_error_Some; congruence).
  assert (Hq : 0 <= day / 2) by (apply Z.div_pos; lia).
  assert (Em : m = Z.to_nat (day / 2)) by (unfold m; lia).
  split; [exact Em|].
  rewrite lookup_body, Ef, Hn by exact Hne.
  rewrite (Hshape _ _ Eb), (Hshape _ _ Hn).
  replace (2 * Z.of_nat (m + 1) - 2 * Z.of_nat m) with 2 by lia.
  pose proof (Z.mod_pos_bound day 2 ltac:(lia)) as Hmod.
  pose proof (Z.div_mod day 2 ltac:(lia)) as Hdm.
  assert (Hcase : day = 2 * Z.of_nat m \/ day = 2 * Z.of_nat m + 1) by lia.
  destruct Hcase as [E|E]; [left | right]; (split; [exact E|]).
  - replace (day - 2 * Z.of_nat m) with 0 by lia.
    change (inject_Z 0 / inject_Z 2)%Q with (0 # 2)%Q. ring.
  - replace (day - 2 * Z.of_nat m) with 1 by lia.
    change (inject_Z 1 / inject_Z 2)%Q with (1 # 2)%Q. reflexivity.
Qed.

Hypothesis Hunit :
  forall k b, nth_error dist k = Some b -> (0 <= Maturity.cumulativePct b <= 1)%Q.
Hypothesis Hmono :
  forall j k b b', (j <= k)%nat -> nth_error dist j = Some b ->
                   nth_error dist k = Some b' ->
                   (Maturity.cumulativePct b <= Maturity.cumulativePct b')%Q.

(** The value looked up for a non-negative day lies between the fraction of
    the bucket found and the fraction of any later bucket. *)
Lemma lookup_between (day : Z) :
  dist <> [] -> 0 <= day ->
  let m := Nat.min (Z.to_nat (day / 2)) (List.length dist - 1) in
  exists b,
    nth_error dist m = Some b
    /\ (Maturity.cumulativePct b <= Maturity.getCumulativePct dist day)%Q
    /\ (Maturity.getCumulativePct dist day <= 1)%Q
    /\ forall k b', (m < k)%nat -> nth_error dist k = Some b' ->
                    (Maturity.getCumulativePct dist day <= Maturity.cumulativePct b')%Q.
Proof.
  intros Hne Hd m.
  destruct (nth_error dist (m + 1)) as [nb|] eqn:En.
  - destruct (lookup_next day nb Hne Hd En) as (b & Eb & Em & Hv). fold m in Eb.
    exists b. split; [exact Eb|].
    pose proof (Hmono m (m + 1)%nat b nb ltac:(lia) Eb En) as Hbn.
    pose proof (Hunit _ _ En) as (_ & Hn1).
    assert (Hle : (Maturity.cumulativePct b <= Maturity.getCumulativePct dist day
                   <= Maturity.cumulativePct nb)%Q)
      by (destruct Hv as [(_ & ->)|(_ & ->)]; lra).
    split; [apply Hle|]. split; [lra|].
    intros k b' Hk Ek.
    pose proof (Hmono (m + 1)%nat k nb b' ltac:(lia) En Ek). lra.
  - destruct (lookup_last day Hne Hd En) as (b & Eb & Ev). fold m in Eb.
    exists b. split; [exact Eb|]. rewrite Ev.
    split; [apply Qle_refl|]. split; [apply (Hunit _ _ Eb)|].
    intros k b' Hk Ek. exfalso.
    assert (k < List.length dist)%nat by (apply nth_error_Some; congruence).
    apply nth_error_None in En. lia.
Qed.

Lemma lookup_unit (day : Z) :
  dist <> [] -> (0 <= Maturity.getCumulativePct dist day <= 1)%Q.
Proof.
  intros Hne. destruct (Z.lt_ge_cases day 0) as [Hd|Hd].
  - rewrite lookup_negative by assumption. lra.
  - destruct (lookup_between day Hne Hd) as (b & Eb & L1 & L2 & _).
    pose proof (Hunit _ _ Eb). lra.
Qed.

Lemma lookup_monotone (day1 day2 : Z) :
  dist <> [] -> day1 <= day2 ->
  (Maturity.getCumulativePct dist day1 <= Maturity.getCumulativePct dist day2)%Q.
Proof.
  intros Hne Hd. destruct (Z.lt_ge_cases day1 0) as [H1|H1].
  - rewrite (lookup_negative day1) by assumption. now apply lookup_unit.
  - assert (H2 : 0 <= day2) by lia.
    set (m1 := Nat.min (Z.to_nat (day1 / 2)) (List.length dist - 1)).
    set (m2 := Nat.min (Z.to_nat (day2 / 2)) (List.length dist - 1)).
    assert (Hdiv : day1 / 2 <= day2 / 2) by (apply Z.div_le_mono; lia).
    assert (Hm : (m1 <= m2)%nat) by (unfold m1, m2; lia).
    destruct (lookup_between day1 Hne H1) as (b1 & E1 & _ & _ & U1). fold m1 in E1, U1.
    destruct (lookup_between day2 Hne H2) as (b2 & E2 & L2 & _ & _). fold m2 in E2.
    destruct (Nat.eq_dec m1 m2) as [Em|Em].
    + destruct (nth_error dist (m1 + 1)) as [nb|] eqn:En.
      * destruct (lookup_next day1 nb Hne H1 En) as (c1 & C1 & _ & V1). fold m1 in C1.
        assert (En2 : nth_error dist (m2 + 1) = Some nb) by (rewrite <- Em; exact En).
        destruct (lookup_next day2 nb Hne H2 En2) as (c2 & C2 & _ & V2). fold m2 in C2.
        rewrite <- Em in C2. rewrite C1 in C2. injection C2 as <-.
        pose proof (Hmono m1 (m1 + 1)%nat c1 nb ltac:(lia) C1 En).
        destruct V1 as [(D1 & ->)|(D1 & ->)], V2 as [(D2 & ->)|(D2 & ->)];
          try lra.
        exfalso. unfold m1, m2 in Em. lia.
      * destruct (lookup_last day1 Hne H1 En) as (c1 & C1 & ->). fold m1 in C1.
        assert (En2 : nth_error dist (m2 + 1) = None) by (rewrite <- Em; exact En).
        destruct (lookup_last day2 Hne H2 En2) as (c2 & C2 & ->). fold m2 in C2.
        rewrite <- Em in C2. rewrite C1 in C2. injection C2 as <-. apply Qle_refl.
    + pose proof (U1 m2 b2 ltac:(lia) E2). lra.
Qed.

End Lookup.

Section LookupOnResult.
Import JS.

Lemma distribution_shape (data : AppData) (res : Maturity.MaturityAnalysisResult) :
  Maturity.analyzeMaturity data = Some res ->
  forall k b, nth_error (Maturity.distribution res) k = Some b ->
              Maturity.days b = 2 * Z.of_nat k.
Proof.
  intros H k b Hk. now destruct (distribution_nth data res k b H Hk) as (_ & D & _).
Qed.

Lemma row_lagPct (data : AppData) (res : Maturity.MaturityAnalysisResult)
      (row : Maturity.DailyProjectionRow) :
  Maturity.analyzeMaturity data = Some res ->
  In row (Maturity.dailyProjections res) ->
  Maturity.lagPct row
  = Maturity.getCumulativePct (Maturity.distribution res) (Maturity.age row).
Proof.
  intros H Hrow.
  apply analyzeMaturity_Some in H. destruct H as (o & rest & t0Str & _ & _ & ->).
  pose proof (analyze_markers (o :: rest) o t0Str (Maturity.spanDays data))
    as (_ & _ & (Hd & _) & _).
  apply dailyProjections_row in Hrow. destruct Hrow as (entry & _ & ->).
  match goal with
  | |- context [Maturity.projectDay ?a ?b ?c ?e entry] =>
      pose proof (projectDay_cases a b c e entry Hd) as P
  end.
  cbv zeta in P. now destruct P as ((_ & _ & P1) & _).
Qed.

(** X8. The cumulative-fraction lookup on the histogram of a result always
    returns a value in [0,1], is non-decreasing in the age, reproduces the
    recorded fraction at the start day of every bucket, returns the last
    bucket's fraction for any age at or beyond its start, and returns 0 for a
    negative age; so every cohort row's lagPct lies in [0,1]. *)
Theorem cumulative_lookup (data : AppData) (res : Maturity.MaturityAnalysisResult)
        (H : Maturity.analyzeMaturity data = Some res) :
  (forall ageDays,
      (0 <= Maturity.getCumulativePct (Maturity.distribution res) ageDays <= 1)%Q)
  /\ (forall age1 age2,
         age1 <= age2 ->
         (Maturity.getCumulativePct (Maturity.distribution res) age1
          <= Maturity.getCumulativePct (Maturity.distribution res) age2)%Q)
  /\ (forall k b,
         nth_error (Maturity.distribution res) k = Some b ->
         (Maturity.getCumulativePct (Maturity.distribution res) (Maturity.days b)
          == Maturity.cumulativePct b)%Q)
  /\ (forall b ageDays,
         nth_error (Maturity.distribution res)
                   (List.length (Maturity.distribution res) - 1) = Some b ->
         Maturity.days b <= ageDays ->
         Maturity.getCumulativePct (Maturity.distribution res) ageDays
         = Maturity.cumulativePct b)
  /\ (forall ageDays,
         Maturity.distribution res <> [] -> ageDays < 0 ->
         Maturity.getCumulativePct (Maturity.distribution res) ageDays = 0%Q)
  /\ (forall row,
         In row (Maturity.dailyProjections res) ->
         (0 <= Maturity.lagPct row <= 1)%Q).
Proof.
  pose proof (distribution_shape data res H) as Hshape.
  assert (Hunit : forall k b, nth_error (Maturity.distribution res) k = Some b ->
                              (0 <= Maturity.cumulativePct b <= 1)%Q)
    by (intros k b; apply (distribution_unit data res k b H)).
  assert (Hmono : forall j k b b',
             (j <= k)%nat ->
             nth_error (Maturity.distribution res) j = Some b ->
             nth_error (Maturity.distribution res) k = Some b' ->
             (Maturity.cumulativePct b <= Maturity.cumulativePct b')%Q)
    by (intros j k b b'; apply (distribution_mono data res j k b b' H)).
  assert (U : forall ageDays,
             (0 <= Maturity.getCumulativePct (Maturity.distribution res) ageDays <= 1)%Q).
  { intros ageDays. destruct (Maturity.distribution res) as [|b0 t] eqn:Ed.
    - simpl. lra.
    - rewrite <- Ed in *. apply lookup_unit; try assumption. rewrite Ed. discriminate. }
  split; [exact U|]. split; [|split; [|split; [|split]]].
  - intros age1 age2 Hle. destruct (Maturity.distribution res) as [|b0 t] eqn:Ed.
    + simpl. lra.
    + rewrite <- Ed in *. apply lookup_monotone; try assumption.
      rewrite Ed. discriminate.
  - intros k b Hk.
    assert (Hne : Maturity.distribution res <> [])
      by (intros E; rewrite E in Hk; destruct k; discriminate).
    assert (Hlt : (k < List.length (Maturity.distribution res))%nat)
      by (apply nth_error_Some; congruence).
    assert (Hday : 0 <= Maturity.days b) by (rewrite (Hshape k b Hk); lia).
    assert (Em : Nat.min (Z.to_nat (Maturity.days b / 2))
                         (List.length (Maturity.distribution res) - 1) = k).
    { rewrite (Hshape k b Hk). rewrite Z.mul_comm, Z.div_mul by lia. lia. }
    destruct (nth_error (Maturity.distribution res) (k + 1)) as [nb|] eqn:En.
    + destruct (lookup_next _ Hshape (Maturity.days b) nb Hne Hday) as (c & C & _ & V).
      { rewrite Em. exact En. }
      rewrite Em in C, V. rewrite Hk in C. injection C as <-.
      destruct V as [(_ & V)|(D & _)]; [exact V|].
      rewrite (Hshape k b Hk) in D. lia.
    + destruct (lookup_last _ Hshape (Maturity.days b) Hne Hday) as (c & C & V).
      { rewrite Em. exact En. }
      rewrite Em in C. rewrite Hk in C. injection C as <-. rewrite V. reflexivity.
  - intros b ageDays Hb Hday.
    assert (Hne : Maturity.distribution res <> [])
      by (intros E; rewrite E in Hb; discriminate).
    assert (Hlen : (0 < List.length (Maturity.distribution res))%nat)
      by (destruct (Maturity.distribution res); [congruence | simpl; lia]).
    pose proof (Hshape _ _ Hb) as Ds.
    assert (Hage : 0 <= ageDays) by lia.
    assert (Hq : Z.of_nat (List.length (Maturity.distribution res) - 1) <= ageDays / 2)
      by (apply Z.div_le_lower_bound; lia).
    assert (Em : Nat.min (Z.to_nat (ageDays / 2))
                         (List.length (Maturity.distribution res) - 1)
                 = (List.length (Maturity.distribution res) - 1)%nat) by lia.
    destruct (lookup_last _ Hshape ageDays Hne Hage) as (c & C & V).
    { rewrite Em. apply nth_error_None. lia. }
    rewrite Em in C. rewrite Hb in C. injection C as <-. exact V.
  - intros ageDays Hne Hneg. now apply lookup_negative.
  - intros row Hrow. rewrite (row_lagPct data res row H Hrow). apply U.
Qed.

Lemma cumulative_lookup_witness :
  exists res,
    Maturity.analyzeMaturity Samples.maturityData = Some res
    /\ (Maturity.getCumulativePct (Maturity.distribution res) 5 == 4 # 7)%Q
    /\ (Maturity.getCumulativePct (Maturity.distribution res) 9 == 6 # 7)%Q
    /\ (Maturity.getCumulativePct (Maturity.distribution res) 5
        <= Maturity.getCumulativePct (Maturity.distribution res) 9)%Q.
Proof.
  eexists. split; [reflexivity|]. split; [reflexivity|]. split; [reflexivity|].
  apply (proj1 (proj2 (cumulative_lookup Samples.maturityData _ eq_refl))). lia.
Defined.

End LookupOnResult.

(* ================================================================== *)
(** ** Daily cohort map *)

Section DailyMap.
Import JS.

Lemma trendLookup_add (o : RawOrderRow) (m : list (isodate * Maturity.DayStats))
      (k : isodate) :
  Maturity.trendLookup (Maturity.dailyMapAdd (purchase_date o) o m) k
  = if purchase_date o =? k
    then (fst (Maturity.trendLookup m k) + units_sold o,
          snd (Maturity.trendLookup m k) + Maturity.getReturnCount o)
    else Maturity.trendLookup m k.
Proof.
  unfold Maturity.trendLookup. induction m as [|[k0 e0] rest IH]; simpl.
  - rewrite Z.eqb_sym. destruct (k =? purchase_date o); reflexivity.
  - destruct (Z.eqb_spec k0 (purchase_date o)) as [E|E]; simpl.
    + subst k0. rewrite Z.eqb_sym.
      destruct (Z.eqb_spec k (purchase_date o)); reflexivity.
    + destruct (Z.eqb_spec k0 k) as [E'|E'].
      * subst k0. destruct (Z.eqb_spec (purchase_date o) k); [congruence | reflexivity].
      * exact IH.
Qed.

Lemma trendLookup_fold (l : list RawOrderRow) (m : list (isodate * Maturity.DayStats))
      (k : isodate) :
  Maturity.trendLookup
    (fold_left (fun m o => Maturity.dailyMapAdd (purchase_date o) o m) l m) k
  = (fst (Maturity.trendLookup m k) + sumZ units_sold (filter (Props.onDay k) l),
     snd (Maturity.trendLookup m k)
     + sumZ Maturity.getReturnCount (filter (Props.onDay k) l)).
Proof.
  revert m. induction l as [|o os IH]; intros m; simpl.
  - rewrite !sumZ_nil, !Z.add_0_r. now destruct (Maturity.trendLookup m k).
  - rewrite IH, trendLookup_add.
    change (Props.onDay k o) with (purchase_date o =? k).
    destruct (purchase_date o =? k); simpl; rewrite ?sumZ_cons; f_equal; lia.
Qed.

(** Looking a day up in the daily map gives the totals of that day's orders,
    and zeros for a day without orders. *)
Lemma trendLookup_build (l : list RawOrderRow) (k : isodate) :
  Maturity.trendLookup (Maturity.buildDailyMap l) k
  = (sumZ units_sold (filter (Props.onDay k) l),
     sumZ Maturity.getReturnCount (filter (Props.onDay k) l)).
Proof.
  unfold Maturity.buildDailyMap. rewrite trendLookup_fold. reflexivity.
Qed.

Lemma dailyMapAdd_keys (d : isodate) (o : RawOrderRow)
      (m : list (isodate * Maturity.DayStats)) :
  (In d (map fst m) -> map fst (Maturity.dailyMapAdd d o m) = map fst m)
  /\ (~ In d (map fst m) -> map fst (Maturity.dailyMapAdd d o m) = map fst m ++ [d]).
Proof.
  induction m as [|[k0 e0] rest IH]; simpl.
  - split; [intros [] | reflexivity].
  - destruct (Z.eqb_spec k0 d) as [E|E]; simpl.
    + split; [reflexivity | intros N; exfalso; apply N; now left].
    + destruct IH as (I1 & I2). split.
      * intros [H|H]; [congruence|]. now rewrite I1.
      * intros N. rewrite I2; [reflexivity|]. intros H. apply N. now right.
Qed.

Lemma buildDailyMap_NoDup (l : list RawOrderRow) :
  NoDup (map fst (Maturity.buildDailyMap l)).
Proof.
  unfold Maturity.buildDailyMap.
  assert (G : forall l m, NoDup (map fst m) ->
                NoDup (map fst (fold_left
                                  (fun m o => Maturity.dailyMapAdd (purchase_date o) o m)
                                  l m))).
  { clear l. induction l as [|o os IH]; intros m Hm; simpl; [exact Hm|].
    apply IH. destruct (dailyMapAdd_keys (purchase_date o) o m) as (K1 & K2).
    destruct (in_dec Z.eq_dec (purchase_date o) (map fst m)) as [Hin|Hin].
    - now rewrite K1.
    - rewrite K2 by exact Hin. apply NoDup_app; [exact Hm | repeat constructor; intros [] |].
      intros x Hx [<-|[]]. contradiction. }
  apply G. constructor.
Qed.

Lemma lookup_unique (m : list (isodate * Maturity.DayStats)) (k : isodate)
      (e : Maturity.DayStats) :
  NoDup (map fst m) -> In (k, e) m ->
  Maturity.trendLookup m k = (Maturity.vol e, Maturity.ret e).
Proof.
  unfold Maturity.trendLookup. induction m as [|[k0 e0] rest IH]; intros Hn Hin.
  - destruct Hin.
  - simpl in Hn. inversion Hn as [|? ? Hk Hr]; subst. simpl.
    destruct Hin as [E|Hin].
    + injection E as -> ->. now rewrite Z.eqb_refl.
    + destruct (Z.eqb_spec k0 k) as [E|E].
      * subst k0. exfalso. apply Hk. apply in_map_iff. now exists (k, e).
      * now apply IH.
Qed.

(** An entry of the daily map holds the totals of its day. *)
Lemma buildDailyMap_totals (l : list RawOrderRow) (k : isodate)
      (e : Maturity.DayStats) :
  In (k, e) (Maturity.buildDailyMap l) ->
  Maturity.vol e = sumZ units_sold (filter (Props.onDay k) l)
  /\ Maturity.ret e = sumZ Maturity.getReturnCount (filter (Props.onDay k) l).
Proof.
  intros Hin.
  pose proof (lookup_unique _ k e (buildDailyMap_NoDup l) Hin) as E.
  rewrite trendLookup_build in E. injection E as <- <-. split; reflexivity.
Qed.

Lemma dailyMapAdd_has_key (d : isodate) (o : RawOrderRow)
      (m : list (isodate * Maturity.DayStats)) (k : isodate) :
  In k (map fst m) \/ k = d -> In k (map fst (Maturity.dailyMapAdd d o m)).
Proof.
  destruct (dailyMapAdd_keys d o m) as (K1 & K2).
  destruct (in_dec Z.eq_dec d (map fst m)) as [Hin|Hin].
  - rewrite K1 by exact Hin. intros [H| ->]; assumption.
  - rewrite K2 by exact Hin. intros [H| ->]; apply in_or_app; [now left | right; now left].
Qed.

(** Every order's purchase day is a key of the daily map. *)
Lemma buildDailyMap_has_key (l : list RawOrderRow) (o : RawOrderRow) :
  In o l -> In (purchase_date o) (map fst (Maturity.buildDailyMap l)).
Proof.
  unfold Maturity.buildDailyMap.
  assert (G : forall l m k,
             In k (map fst m) \/ (exists x, In x l /\ purchase_date x = k) ->
             In k (map fst (fold_left
                              (fun m o => Maturity.dailyMapAdd (purchase_date o) o m)
                              l m))).
  { clear. induction l as [|x xs IH]; intros m k H; simpl.
    - destruct H as [H|(x & [] & _)]. exact H.
    - apply IH. destruct H as [H|(y & [<-|Hy] & Ey)].
      + left. apply dailyMapAdd_has_key. now left.
      + left. apply dailyMapAdd_has_key. right. now symmetry.
      + right. now exists y. }
  intros Ho. apply G. right. now exists o.
Qed.

Lemma dailyMapAdd_volume (d : isodate) (o : RawOrderRow)
      (m : list (isodate * Maturity.DayStats)) :
  sumZ (fun kv => Maturity.vol (snd kv)) (Maturity.dailyMapAdd d o m)
  = sumZ (fun kv => Maturity.vol (snd kv)) m + units_sold o.
Proof.
  induction m as [|[k0 e0] rest IH]; simpl.
  - rewrite sumZ_cons, !sumZ_nil. simpl. lia.
  - destruct (k0 =? d); rewrite !sumZ_cons; simpl; [lia | rewrite IH; lia].
Qed.

(** The volumes of the daily map add up to the units sold of the subset. *)
Lemma buildDailyMap_volume (l : list RawOrderRow) :
  sumZ (fun kv => Maturity.vol (snd kv)) (Maturity.buildDailyMap l)
  = sumZ units_sold l.
Proof.
  unfold Maturity.buildDailyMap.
  assert (G : forall l m,
             sumZ (fun kv => Maturity.vol (snd kv))
                  (fold_left (fun m o => Maturity.dailyMapAdd (purchase_date o) o m) l m)
             = sumZ (fun kv => Maturity.vol (snd kv)) m + sumZ units_sold l).
  { clear. induction l as [|x xs IH]; intros m; simpl.
    - rewrite sumZ_nil. lia.
    - rewrite IH, dailyMapAdd_volume, sumZ_cons. lia. }
  rewrite G, sumZ_nil. lia.
Qed.

End DailyMap.

Section CohortAggregation.
Import JS.

Lemma analyze_rows (orders : list RawOrderRow) (o : RawOrderRow)
      (t0Str : isodate) (span : Z) :
  let res := Maturity.analyze orders o t0Str span in
  Maturity.dailyProjections res
  = sort (fun a b => Maturity.age b - Maturity.age a)
         (map (Maturity.projectDay (latestTime orders) (Maturity.d_value res)
                 (Maturity.p90_value res) (Maturity.distribution res))
              (Maturity.buildDailyMap
                 (filter (Maturity.in_window (getTime t0Str)
                            (getTime t0Str + span * MS_PER_DAY)) orders))).
Proof.
  unfold Maturity.analyze. cbn [Maturity.dailyProjections]. cbv zeta.
  now rewrite projectAll_rows.
Qed.

Lemma projectDay_fields (sTime d p90 : Z) (dist : list Maturity.LagBucket)
      (entry : isodate * Maturity.DayStats) :
  let row := Maturity.projectDay sTime d p90 dist entry in
  Maturity.date row = fst entry
  /\ Maturity.sales row = Maturity.vol (snd entry)
  /\ Maturity.realized row = Maturity.ret (snd entry)
  /\ Maturity.age row = (sTime - Maturity.pTime (snd entry)) / MS_PER_DAY.
Proof.
  unfold Maturity.projectDay. cbv zeta.
  destruct (p90 <? _); [|destruct (d <=? _)];
    cbn [Maturity.date Maturity.sales Maturity.realized Maturity.age]; repeat split.
Qed.

Lemma in_window_days (t0Str span : Z) (o : RawOrderRow) :
  Maturity.in_window (getTime t0Str) (getTime t0Str + span * MS_PER_DAY) o
  = Props.inDays t0Str (t0Str + span) o.
Proof.
  unfold Maturity.in_window, Maturity.purchaseTime, Props.inDays.
  rewrite getTime_shift. f_equal.
  - destruct (Z.leb_spec t0Str (purchase_date o)) as [L|L].
    + apply Z.leb_le. now apply getTime_le.
    + apply Z.leb_gt. now apply getTime_lt.
  - destruct (Z.ltb_spec (purchase_date o) (t0Str + span)) as [L|L].
    + apply Z.ltb_lt. now apply getTime_lt.
    + apply Z.ltb_ge. now apply getTime_le.
Qed.

(** The orders of one day of a window are that day's orders of the whole
    list. *)
Lemma filter_onDay_window (lo hi k : isodate) (l : list RawOrderRow) :
  lo <= k < hi ->
  filter (Props.onDay k) (filter (Props.inDays lo hi) l) = filter (Props.onDay k) l.
Proof.
  intros Hk. induction l as [|x t IH]; [reflexivity|]. simpl.
  unfold Props.inDays at 1, Props.onDay at 2.
  destruct (Z.eqb_spec (purchase_date x) k) as [E|E].
  - rewrite E.
    destruct (Z.leb_spec lo k), (Z.ltb_spec k hi); try lia. simpl.
    unfold Props.onDay at 1. rewrite E, Z.eqb_refl. now rewrite IH.
  - destruct ((lo <=? purchase_date x) && (purchase_date x <? hi)); [|exact IH].
    simpl. unfold Props.onDay at 1.
    destruct (Z.eqb_spec (purchase_date x) k); [congruence | exact IH].
Qed.

(** X9. The cohort rows aggregate the forecast window by purchase day: no
    two rows share a date; a row's sales and realized returns are the units
    sold and the return counts of all orders purchased on its date; its age
    is not negative; every order purchased in [T0, T0+span) has its day among
    the rows; and the rows' sales add up to the post-cutoff volume metric. *)
Theorem cohort_rows_aggregate (data : AppData) (orders : list RawOrderRow)
        (res : Maturity.MaturityAnalysisResult)
        (Ho : return_order data = Some orders)
        (H : Maturity.analyzeMaturity data = Some res) :
  NoDup (map Maturity.date (Maturity.dailyProjections res))
  /\ (forall row,
         In row (Maturity.dailyProjections res) ->
         Maturity.sales row
         = sumZ units_sold (filter (Props.onDay (Maturity.date row)) orders)
         /\ Maturity.realized row
            = sumZ Maturity.getReturnCount
                (filter (Props.onDay (Maturity.date row)) orders)
         /\ 0 <= Maturity.age row)
  /\ (forall o,
         In o orders ->
         Maturity.t0 res <= purchase_date o
                         < Maturity.t0 res + Maturity.spanDays data ->
         exists row,
           In row (Maturity.dailyProjections res)
           /\ Maturity.date row = purchase_date o)
  /\ sumZ Maturity.sales (Maturity.dailyProjections res)
     = Maturity.volume (Maturity.postNominal (Maturity.metrics res)).
Proof.
  apply analyzeMaturity_Some in H. destruct H as (o & rest & t0Str & Ho' & _ & ->).
  rewrite Ho in Ho'. injection Ho' as ->.
  set (span := Maturity.spanDays data).
  pose proof (analyze_rows (o :: rest) o t0Str span) as Er. cbv zeta in Er.
  set (res := Maturity.analyze (o :: rest) o t0Str span) in *.
  set (subset := filter (Maturity.in_window (getTime t0Str)
                           (getTime t0Str + span * MS_PER_DAY)) (o :: rest)) in *.
  set (pd := Maturity.projectDay (latestTime (o :: rest)) (Maturity.d_value res)
               (Maturity.p90_value res) (Maturity.distribution res)) in *.
  assert (Esub : subset = filter (Props.inDays t0Str (t0Str + span)) (o :: rest))
    by (apply filter_ext; intros x; apply in_window_days).
  assert (P : Permutation (Maturity.dailyProjections res)
                          (map pd (Maturity.buildDailyMap subset)))
    by (rewrite Er; apply sort_perm).
  assert (Edate : map Maturity.date (map pd (Maturity.buildDailyMap subset))
                  = map fst (Maturity.buildDailyMap subset)).
  { rewrite map_map. apply map_ext. intros e.
    now destruct (projectDay_fields (latestTime (o :: rest)) (Maturity.d_value res)
                    (Maturity.p90_value res) (Maturity.distribution res) e) as (D & _). }
  split; [|split; [|split]].
  - apply (Permutation_NoDup (l := map fst (Maturity.buildDailyMap subset)));
      [|apply buildDailyMap_NoDup].
    rewrite <- Edate. symmetry. now apply Permutation_map.
  - intros row Hrow. apply (Permutation_in _ P) in Hrow. apply in_map_iff in Hrow.
    destruct Hrow as ([k e] & <- & Hin).
    destruct (projectDay_fields (latestTime (o :: rest)) (Maturity.d_value res)
                (Maturity.p90_value res) (Maturity.distribution res) (k, e))
      as (D & S & R & A).
    fold pd in D, S, R, A. cbn [fst snd] in D, S, R, A. rewrite D, S, R, A.
    destruct (buildDailyMap_totals subset k e Hin) as (V1 & V2).
    destruct (buildDailyMap_entries subset k e Hin) as (Ep & x & Hx & Ex).
    assert (Hk : t0Str <= k < t0Str + span).
    { rewrite Esub in Hx. apply filter_In in Hx. destruct Hx as (_ & Hw).
      unfold Props.inDays in Hw. rewrite Ex in Hw. apply andb_prop in Hw.
      destruct Hw as (W1 & W2). apply Z.leb_le in W1. apply Z.ltb_lt in W2. lia. }
    rewrite V1, V2, Esub, !filter_onDay_window by exact Hk.
    split; [reflexivity|]. split; [reflexivity|].
    rewrite Ep. destruct (latestTime_day (o :: rest)) as (sd & _ & Es).
    rewrite Es, getTime_diff_days.
    assert (In x (o :: rest)) by (unfold subset in Hx; apply filter_In in Hx; tauto).
    pose proof (latestTime_ge (o :: rest) x ltac:(assumption)) as Hle.
    rewrite Es, toISODate_getTime, Ex in Hle. lia.
  - intros x Hx Hwin.
    assert (Hs : In x subset).
    { rewrite Esub. apply filter_In. split; [exact Hx|].
      unfold Props.inDays. change (Maturity.t0 res) with t0Str in Hwin.
      destruct (Z.leb_spec t0Str (purchase_date x)),
        (Z.ltb_spec (purchase_date x) (t0Str + span)); try reflexivity; lia. }
    apply buildDailyMap_has_key in Hs. apply in_map_iff in Hs.
    destruct Hs as ([k e] & Ek & Hin). simpl in Ek. subst k.
    exists (pd (purchase_date x, e)). split.
    + apply (Permutation_in _ (Permutation_sym P)). apply in_map_iff.
      now exists (purchase_date x, e).
    + now destruct (projectDay_fields (latestTime (o :: rest)) (Maturity.d_value res)
                      (Maturity.p90_value res) (Maturity.distribution res)
                      (purchase_date x, e)) as (D & _).
  - rewrite (sumZ_perm _ _ _ P), sumZ_map.
    rewrite (sumZ_ext_in _ (fun kv => Maturity.vol (snd kv))).
    + rewrite buildDailyMap_volume. reflexivity.
    + intros e _.
      now destruct (projectDay_fields (latestTime (o :: rest)) (Maturity.d_value res)
                      (Maturity.p90_value res) (Maturity.distribution res) e)
        as (_ & S & _).
Qed.

Lemma cohort_rows_aggregate_witness :
  exists res,
    Maturity.analyzeMaturity Samples.maturityData = Some res
    /\ map Maturity.date (Maturity.dailyProjections res)
       = [ymd 2024 3 2; ymd 2024 3 20; ymd 2024 4 3]
    /\ sumZ Maturity.sales (Maturity.dailyProjections res) = 113
    /\ sumZ Maturity.sales (Maturity.dailyProjections res)
       = Maturity.volume (Maturity.postNominal (Maturity.metrics res)).
Proof.
  eexists. split; [reflexivity|]. split; [reflexivity|]. split; [reflexivity|].
  exact (proj2 (proj2 (proj2 (cohort_rows_aggregate Samples.maturityData
                                Samples.maturityOrders _ eq_refl eq_refl)))).
Defined.

End CohortAggregation.

(* ================================================================== *)
(** ** Target dates *)

Section TargetDates.
Import JS.

Lemma scan_found (T : Z) (l : list RawOrderRow) (st : Maturity.TargetScan) :
  Maturity.foundTarget st = true ->
  Maturity.p50VolDateTimestamp (fold_left (Maturity.targetStep T) l st)
  = Maturity.p50VolDateTimestamp st.
Proof.
  revert st. induction l as [|y t IH]; intros st Hf; simpl; [reflexivity|].
  rewrite IH.
  - unfold Maturity.targetStep. cbn [Maturity.p50VolDateTimestamp].
    now rewrite Hf.
  - unfold Maturity.targetStep. cbn [Maturity.foundTarget]. now rewrite Hf.
Qed.

(** The order at which the running volume first reaches half of [T]. *)
Lemma scan_hit (T : Z) (l : list RawOrderRow) (st : Maturity.TargetScan) :
  Maturity.foundTarget st = false ->
  2 * Maturity.accumulatedVol st < T ->
  T <= 2 * (Maturity.accumulatedVol st + sumZ units_sold l) ->
  exists p1 x p2,
    l = p1 ++ x :: p2
    /\ 2 * (Maturity.accumulatedVol st + sumZ units_sold p1) < T
    /\ T <= 2 * (Maturity.accumulatedVol st + sumZ units_sold p1 + units_sold x)
    /\ Maturity.p50VolDateTimestamp (fold_left (Maturity.targetStep T) l st)
       = Maturity.purchaseTime x.
Proof.
  revert st. induction l as [|y t IH]; intros st Hf Hlo Hhi.
  - rewrite sumZ_nil in Hhi. lia.
  - rewrite sumZ_cons in Hhi. simpl fold_left.
    destruct (Z.leb_spec T (2 * (Maturity.accumulatedVol st + units_sold y))) as [L|L].
    + exists [], y, t. rewrite sumZ_nil. split; [reflexivity|].
      split; [lia|]. split; [lia|].
      rewrite scan_found.
      * unfold Maturity.targetStep. cbn [Maturity.p50VolDateTimestamp].
        rewrite Hf. simpl negb. cbn [andb].
        destruct (Z.leb_spec T (2 * (Maturity.accumulatedVol st + units_sold y)));
          [reflexivity | lia].
      * unfold Maturity.targetStep. cbn [Maturity.foundTarget].
        rewrite Hf. simpl negb. cbn [andb].
        destruct (Z.leb_spec T (2 * (Maturity.accumulatedVol st + units_sold y)));
          [reflexivity | lia].
    + destruct (IH (Maturity.targetStep T st y)) as (p1 & x & p2 & El & H1 & H2 & H3).
      * unfold Maturity.targetStep. cbn [Maturity.foundTarget].
        rewrite Hf. simpl negb. cbn [andb].
        destruct (Z.leb_spec T (2 * (Maturity.accumulatedVol st + units_sold y)));
          [lia | reflexivity].
      * unfold Maturity.targetStep. cbn [Maturity.accumulatedVol]. lia.
      * unfold Maturity.targetStep. cbn [Maturity.accumulatedVol]. lia.
      * unfold Maturity.targetStep in H1, H2. cbn [Maturity.accumulatedVol] in H1, H2.
        exists (y :: p1), x, p2. rewrite sumZ_cons.
        split; [now rewrite El|]. split; [lia|]. split; [lia | exact H3].
Qed.

Lemma scan_last (T : Z) (l : list RawOrderRow) (z : RawOrderRow)
      (st : Maturity.TargetScan) :
  Maturity.p100DateTimestamp (fold_left (Maturity.targetStep T) (l ++ [z]) st)
  = Maturity.purchaseTime z.
Proof.
  rewrite fold_left_app. reflexivity.
Qed.

Lemma StronglySorted_app_inv {A : Type} (R : A -> A -> Prop) (p1 p2 : list A) (x : A) :
  StronglySorted R (p1 ++ x :: p2) ->
  Forall (fun y => R y x) p1 /\ Forall (R x) p2.
Proof.
  induction p1 as [|y t IH]; simpl; intros S.
  - inversion S; subst. split; [constructor | assumption].
  - inversion S as [|? ? St Hy]; subst. destruct (IH St) as (I1 & I2).
    split; [|exact I2]. constructor; [|exact I1].
    rewrite Forall_forall in Hy. apply Hy. apply in_or_app. right. now left.
Qed.

Lemma sort_by_time_sorted (l : list RawOrderRow) :
  StronglySorted (fun a b => Maturity.purchaseTime a <= Maturity.purchaseTime b)
    (sort (fun a b => Maturity.purchaseTime a - Maturity.purchaseTime b) l).
Proof.
  apply Sorted_StronglySorted.
  - intros a b c Hab Hbc. lia.
  - apply (sort_ascending_key Maturity.purchaseTime).
Qed.

(** What the scan records for a subset with positive volume: the order [x]
    at which half of the volume is reached, and the latest purchase. *)
Lemma targetScan_positive (t0Time : Z) (subset : list RawOrderRow) :
  0 < sumZ units_sold subset ->
  let scan := Maturity.targetScan t0Time subset in
  let T := sumZ units_sold subset in
  (exists p1 x p2,
      Permutation subset (p1 ++ x :: p2)
      /\ Forall (fun y => purchase_date y <= purchase_date x) p1
      /\ Forall (fun y => purchase_date x <= purchase_date y) p2
      /\ 2 * sumZ units_sold p1 < T <= 2 * (sumZ units_sold p1 + units_sold x)
      /\ Maturity.p50VolDateTimestamp scan = getTime (purchase_date x))
  /\ (exists z,
         In z subset
         /\ (forall y, In y subset -> purchase_date y <= purchase_date z)
         /\ Maturity.p100DateTimestamp scan = getTime (purchase_date z)).
Proof.
  intros Hpos scan T. unfold scan, Maturity.targetScan. cbv zeta.
  destruct (Z.ltb_spec 0 (sumZ units_sold subset)) as [_|]; [|lia].
  set (l := sort (fun a b => Maturity.purchaseTime a - Maturity.purchaseTime b) subset).
  assert (P : Permutation l subset) by apply sort_perm.
  assert (S : StronglySorted
                (fun a b => Maturity.purchaseTime a <= Maturity.purchaseTime b) l)
    by apply sort_by_time_sorted.
  assert (ET : sumZ units_sold l = T) by (apply sumZ_perm; exact P).
  split.
  - destruct (scan_hit T l
                {| Maturity.accumulatedVol := 0; Maturity.foundTarget := false;
                   Maturity.p50VolDateTimestamp := t0Time;
                   Maturity.p100DateTimestamp := t0Time |})
      as (p1 & x & p2 & El & H1 & H2 & H3);
      [reflexivity | cbn [Maturity.accumulatedVol]; unfold T; lia
       | cbn [Maturity.accumulatedVol]; unfold T in *; lia |].
    cbn [Maturity.accumulatedVol] in H1, H2.
    exists p1, x, p2. rewrite El in S, P. apply StronglySorted_app_inv in S.
    destruct S as (S1 & S2).
    split; [now symmetry|].
    split; [revert S1; apply Forall_impl; intros y Hy; now apply getTime_le|].
    split; [revert S2; apply Forall_impl; intros y Hy; now apply getTime_le|].
    split; [lia | exact H3].
  - assert (Hne : l <> []).
    { intros E. rewrite E in ET. rewrite sumZ_nil in ET. unfold T in ET. lia. }
    destruct (exists_last Hne) as (l' & z & El).
    exists z. rewrite El in S, P |- *.
    split; [apply (Permutation_in _ P); apply in_or_app; right; now left|].
    split; [|apply scan_last].
    intros y Hy. apply (Permutation_in _ (Permutation_sym P)) in Hy.
    apply in_app_or in Hy. destruct Hy as [Hy|[<-|[]]]; [|lia].
    apply StronglySorted_app_inv in S. destruct S as (S1 & _).
    rewrite Forall_forall in S1. apply getTime_le. now apply S1.
Qed.

Lemma targetScan_empty (t0Time : Z) (subset : list RawOrderRow) :
  sumZ units_sold subset <= 0 ->
  Maturity.p50VolDateTimestamp (Maturity.targetScan t0Time subset) = t0Time
  /\ Maturity.p100DateTimestamp (Maturity.targetScan t0Time subset) = t0Time.
Proof.
  intros H. unfold Maturity.targetScan. cbv zeta.
  destruct (Z.ltb_spec 0 (sumZ units_sold subset)); [lia|]. split; reflexivity.
Qed.

Lemma ceil_div_days (a b : Z) :
  ceil_div (getTime a - getTime b) MS_PER_DAY = a - b.
Proof.
  unfold ceil_div.
  replace (- (getTime a - getTime b)) with (getTime b - getTime a) by lia.
  rewrite getTime_diff_days. lia.
Qed.

End TargetDates.

Section TargetDatesOnResult.
Import JS.

Lemma analyze_target (orders : list RawOrderRow) (o : RawOrderRow)
      (t0Str : isodate) (span : Z) :
  let res := Maturity.analyze orders o t0Str span in
  let subset := filter (Maturity.in_window (getTime t0Str)
                          (getTime t0Str + span * MS_PER_DAY)) orders in
  let scan := Maturity.targetScan (getTime t0Str) subset in
  Maturity.earliestEvalDate res
  = toISODate (Maturity.p50VolDateTimestamp scan + Maturity.d_value res * MS_PER_DAY)
  /\ Maturity.p90Date res
     = toISODate (Maturity.p100DateTimestamp scan + Maturity.p90_value res * MS_PER_DAY)
  /\ Maturity.daysToWait res
     = ceil_div (Maturity.p50VolDateTimestamp scan + Maturity.d_value res * MS_PER_DAY
                 - latestTime orders) MS_PER_DAY
  /\ Maturity.volume (Maturity.postNominal (Maturity.metrics res))
     = sumZ units_sold subset
  /\ Maturity.s res = toISODate (latestTime orders)
  /\ Maturity.t0 res = t0Str.
Proof. cbv zeta. repeat split. Qed.

Lemma sumZ_filter_le {A : Type} (f : A -> Z) (p : A -> bool) (l : list A) :
  (forall x, In x l -> 0 <= f x) -> 0 <= sumZ f (filter p l) <= sumZ f l.
Proof.
  induction l as [|x t IH]; intros H; simpl; [rewrite sumZ_nil; lia|].
  assert (0 <= f x) by (apply H; now left).
  assert (0 <= sumZ f (filter p t) <= sumZ f t) by (apply IH; intros; apply H; now right).
  destruct (p x); rewrite ?sumZ_cons; lia.
Qed.

Lemma filter_none {A : Type} (p : A -> bool) (l : list A) :
  Forall (fun x => p x = false) l -> filter p l = [].
Proof.
  induction 1 as [|x t Hx Ht IH]; simpl; [reflexivity|]. now rewrite Hx.
Qed.

Lemma filter_every {A : Type} (p : A -> bool) (l : list A) :
  Forall (fun x => p x = true) l -> filter p l = l.
Proof.
  induction 1 as [|x t Hx Ht IH]; simpl; [reflexivity|]. now rewrite Hx, IH.
Qed.

Lemma filter_filter {A : Type} (p q : A -> bool) (l : list A) :
  filter p (filter q l) = filter (fun x => q x && p x) l.
Proof.
  induction l as [|x t IH]; simpl; [reflexivity|].
  destruct (q x); simpl; [destruct (p x)|]; now rewrite IH.
Qed.

(** X10. The target dates of a result: the earliest evaluation date is a day
    a in the forecast window plus P50 and the full-maturity date is a day
    b >= a plus P90, so the former comes strictly first, never before
    T0 + P50; daysToWait is the earliest evaluation date minus S in days
    (negative once it has passed).  Without volume in the forecast window
    a = b = T0; with volume, a is the purchase day of an order of the window
    and b is the latest purchase day in the window. *)
Theorem target_dates (data : AppData) (orders : list RawOrderRow)
        (res : Maturity.MaturityAnalysisResult)
        (Ho : return_order data = Some orders)
        (H : Maturity.analyzeMaturity data = Some res) :
  let window := Props.inDays (Maturity.t0 res)
                  (Maturity.t0 res + Maturity.spanDays data) in
  let V := Maturity.volume (Maturity.postNominal (Maturity.metrics res)) in
  Maturity.t0 res + Maturity.d_value res <= Maturity.earliestEvalDate res
  /\ Maturity.earliestEvalDate res - Maturity.d_value res
     <= Maturity.p90Date res - Maturity.p90_value res
  /\ Maturity.earliestEvalDate res < Maturity.p90Date res
  /\ Maturity.daysToWait res = Maturity.earliestEvalDate res - Maturity.s res
  /\ (V <= 0 ->
      Maturity.earliestEvalDate res = Maturity.t0 res + Maturity.d_value res
      /\ Maturity.p90Date res = Maturity.t0 res + Maturity.p90_value res)
  /\ (0 < V ->
      (exists x, In x orders /\ window x = true
                 /\ Maturity.earliestEvalDate res
                    = purchase_date x + Maturity.d_value res)
      /\ (exists z, In z orders /\ window z = true
                    /\ Maturity.p90Date res = purchase_date z + Maturity.p90_value res
                    /\ forall y, In y orders -> window y = true ->
                                 purchase_date y <= purchase_date z)).
Proof.
  apply analyzeMaturity_Some in H. destruct H as (o & rest & t0Str & Ho' & _ & ->).
  rewrite Ho in Ho'. injection Ho' as ->.
  set (span := Maturity.spanDays data).
  pose proof (analyze_markers (o :: rest) o t0Str span) as (_ & _ & (Hd & _) & _).
  destruct (analyze_target (o :: rest) o t0Str span) as (E1 & E2 & E3 & E4 & E5 & E6).
  cbv zeta in Hd, E1, E2, E3, E4, E5, E6.
  set (res := Maturity.analyze (o :: rest) o t0Str span) in *.
  set (subset := filter (Maturity.in_window (getTime t0Str)
                           (getTime t0Str + span * MS_PER_DAY)) (o :: rest)) in *.
  set (scan := Maturity.targetScan (getTime t0Str) subset) in *.
  assert (Hsub : forall x, In x subset <->
                           In x (o :: rest) /\ Props.inDays t0Str (t0Str + span) x = true).
  { intros x. unfold subset. rewrite filter_In, in_window_days. tauto. }
  destruct (latestTime_day (o :: rest)) as (sd & _ & Es).
  assert (Key : exists a b,
             Maturity.p50VolDateTimestamp scan = getTime a
             /\ Maturity.p100DateTimestamp scan = getTime b
             /\ t0Str <= a <= b
             /\ (sumZ units_sold subset <= 0 -> a = t0Str /\ b = t0Str)
             /\ (0 < sumZ units_sold subset ->
                 (exists x, In x subset /\ purchase_date x = a)
                 /\ (exists z, In z subset /\ purchase_date z = b
                               /\ forall y, In y subset ->
                                            purchase_date y <= purchase_date z))).
  { destruct (Z.lt_ge_cases 0 (sumZ units_sold subset)) as [Hp|Hp].
    - destruct (targetScan_positive (getTime t0Str) subset Hp)
        as ((p1 & x & p2 & P & _ & _ & _ & Ex) & (z & Hz & Hmax & Ez)).
      fold scan in Ex, Ez.
      assert (Hx : In x subset)
        by (apply (Permutation_in _ (Permutation_sym P)); apply in_or_app; right;
            now left).
      exists (purchase_date x), (purchase_date z).
      split; [exact Ex|]. split; [exact Ez|].
      split; [|split; [lia|]].
      + split; [|now apply Hmax].
        apply Hsub in Hx. destruct Hx as (_ & Hw). unfold Props.inDays in Hw.
        apply andb_prop in Hw. destruct Hw as (W1 & _). now apply Z.leb_le in W1.
      + intros _. split; [now exists x | now exists z].
    - destruct (targetScan_empty (getTime t0Str) subset ltac:(lia)) as (Ea & Eb).
      fold scan in Ea, Eb. exists t0Str, t0Str.
      split; [exact Ea|]. split; [exact Eb|]. split; [lia|].
      split; [intros _; now split | lia]. }
  destruct Key as (a & b & Ka & Kb & Hab & Kz & Kp).
  rewrite Ka, getTime_shift in E1, E3. rewrite Kb, getTime_shift in E2.
  rewrite toISODate_getTime in E1, E2. rewrite Es, ceil_div_days in E3.
  rewrite Es, toISODate_getTime in E5.
  cbv zeta. rewrite E1, E2, E3, E4, E5, E6.
  split; [lia|]. split; [lia|]. split; [lia|]. split; [lia|].
  split.
  - intros Hv. destruct (Kz Hv) as (-> & ->). split; reflexivity.
  - intros Hv. destruct (Kp Hv) as ((x & Hx & Ex) & (z & Hz & Ez & Hmax)).
    split.
    + exists x. apply Hsub in Hx. destruct Hx as (Hx & Hw).
      split; [exact Hx|]. split; [exact Hw | now rewrite Ex].
    + exists z. apply Hsub in Hz. destruct Hz as (Hz & Hw).
      split; [exact Hz|]. split; [exact Hw|]. split; [now rewrite Ez|].
      intros y Hy Hwy. apply Hmax. apply Hsub. now split.
Qed.

Lemma target_dates_witness :
  exists res,
    Maturity.analyzeMaturity Samples.maturityData = Some res
    /\ Maturity.earliestEvalDate res = ymd 2024 3 7
    /\ Maturity.p90Date res = ymd 2024 4 23
    /\ Maturity.daysToWait res = -27
    /\ Maturity.daysToWait res = Maturity.earliestEvalDate res - Maturity.s res.
Proof.
  eexists. split; [reflexivity|]. split; [reflexivity|]. split; [reflexivity|].
  split; [reflexivity|].
  pose proof (target_dates Samples.maturityData Samples.maturityOrders _ eq_refl eq_refl)
    as (_ & _ & _ & E & _).
  exact E.
Defined.

End TargetDatesOnResult.

Section HalfVolume.
Import JS.

(** X11. With non-negative unit counts and a positive forecast-window
    volume V, the day a = earliestEvalDate - P50 is the first purchase day by
    which half of V has been sold: the window's orders purchased before a
    sold less than V/2 units and those purchased up to a sold at least V/2. *)
Theorem target_day_reaches_half_volume (data : AppData) (orders : list RawOrderRow)
        (res : Maturity.MaturityAnalysisResult)
        (Ho : return_order data = Some orders)
        (H : Maturity.analyzeMaturity data = Some res)
        (Hunits : forall o, In o orders -> 0 <= units_sold o)
        (Hvol : 0 < Maturity.volume (Maturity.postNominal (Maturity.metrics res))) :
  let window := Props.inDays (Maturity.t0 res)
                  (Maturity.t0 res + Maturity.spanDays data) in
  let a := Maturity.earliestEvalDate res - Maturity.d_value res in
  let V := Maturity.volume (Maturity.postNominal (Maturity.metrics res)) in
  2 * sumZ units_sold (filter (fun o => window o && (purchase_date o <? a)) orders) < V
  /\ V <= 2 * sumZ units_sold
                (filter (fun o => window o && (purchase_date o <=? a)) orders).
Proof.
  apply analyzeMaturity_Some in H. destruct H as (o & rest & t0Str & Ho' & _ & ->).
  rewrite Ho in Ho'. injection Ho' as ->.
  set (span := Maturity.spanDays data).
  destruct (analyze_target (o :: rest) o t0Str span) as (E1 & _ & _ & E4 & _ & E6).
  cbv zeta in E1, E4, E6. revert Hvol. cbv zeta.
  set (res := Maturity.analyze (o :: rest) o t0Str span) in *.
  set (subset := filter (Maturity.in_window (getTime t0Str)
                           (getTime t0Str + span * MS_PER_DAY)) (o :: rest)) in *.
  rewrite E4, E6. intros Hvol.
  assert (Esub : subset = filter (Props.inDays t0Str (t0Str + span)) (o :: rest))
    by (apply filter_ext; intros x; apply in_window_days).
  destruct (targetScan_positive (getTime t0Str) subset Hvol)
    as ((p1 & x & p2 & P & S1 & S2 & (Hlo & Hhi) & Ex) & _).
  cbv zeta in Hlo, Hhi.
  rewrite Ex, getTime_shift, toISODate_getTime in E1. rewrite E1.
  replace (purchase_date x + Maturity.d_value res - Maturity.d_value res)
    with (purchase_date x) by lia.
  rewrite <- !filter_filter, <- Esub.
  rewrite (sumZ_perm _ _ _ (filter_perm _ _ _ P)).
  rewrite (sumZ_perm units_sold
             (filter (fun o0 => purchase_date o0 <=? purchase_date x) subset) _
             (filter_perm _ _ _ P)).
  assert (Hnn : forall y, In y (p1 ++ x :: p2) -> 0 <= units_sold y).
  { intros y Hy. apply (Permutation_in _ (Permutation_sym P)) in Hy.
    unfold subset in Hy. apply filter_In in Hy. apply Hunits. tauto. }
  rewrite !filter_app, !sumZ_app. simpl filter.
  rewrite Z.ltb_irrefl, Z.leb_refl, sumZ_cons.
  rewrite (filter_none (fun o0 => purchase_date o0 <? purchase_date x) p2).
  2:{ revert S2. apply Forall_impl. intros y Hy. apply Z.ltb_ge. exact Hy. }
  rewrite (filter_every (fun o0 => purchase_date o0 <=? purchase_date x) p1).
  2:{ revert S1. apply Forall_impl. intros y Hy. apply Z.leb_le. exact Hy. }
  rewrite sumZ_nil.
  assert (B1 : 0 <= sumZ units_sold
                     (filter (fun o0 => purchase_date o0 <? purchase_date x) p1)
                 <= sumZ units_sold p1).
  { apply sumZ_filter_le. intros y Hy. apply Hnn. apply in_or_app. now left. }
  assert (B2 : 0 <= sumZ units_sold
                     (filter (fun o0 => purchase_date o0 <=? purchase_date x) p2)
                 <= sumZ units_sold p2).
  { apply sumZ_filter_le. intros y Hy. apply Hnn. apply in_or_app. right. now right. }
  lia.
Qed.

Lemma target_day_reaches_half_volume_witness :
  exists res,
    Maturity.analyzeMaturity Samples.maturityData = Some res
    /\ Maturity.volume (Maturity.postNominal (Maturity.metrics res)) = 113
    /\ Maturity.earliestEvalDate res - Maturity.d_value res = ymd 2024 3 2
    /\ Maturity.volume (Maturity.postNominal (Maturity.metrics res))
       <= 2 * sumZ units_sold
                (filter (fun o => Props.inDays (Maturity.t0 res)
                                   (Maturity.t0 res + Maturity.spanDays Samples.maturityData)
                                   o
                                 && (purchase_date o
                                     <=? Maturity.earliestEvalDate res
                                         - Maturity.d_value res))
                        Samples.maturityOrders).
Proof.
  eexists. split; [reflexivity|]. split; [reflexivity|]. split; [reflexivity|].
  assert (Hunits : forall o, In o Samples.maturityOrders -> 0 <= units_sold o).
  { intros o Ho. repeat (destruct Ho as [<-|Ho]; [vm_compute; discriminate|]).
    destruct Ho. }
  exact (proj2 (target_day_reaches_half_volume Samples.maturityData
                  Samples.maturityOrders _ eq_refl eq_refl Hunits eq_refl)).
Defined.

End HalfVolume.

(* ================================================================== *)
(** ** Date ranges *)

Section Ranges.
Import JS.

Lemma fold_min_time (rest : list RawOrderRow) (init : Z) :
  let r := fold_left (fun m x => if Maturity.purchaseTime x <? m
                                 then Maturity.purchaseTime x else m) rest init in
  r <= init
  /\ (forall x, In x rest -> r <= Maturity.purchaseTime x)
  /\ (r = init \/ exists x, In x rest /\ r = Maturity.purchaseTime x).
Proof.
  revert init. induction rest as [|y t IH]; intros init; simpl.
  - split; [lia|]. split; [intros x []|now left].
  - destruct (Z.ltb_spec (Maturity.purchaseTime y) init) as [L|L].
    + destruct (IH (Maturity.purchaseTime y)) as (I1 & I2 & I3). cbv zeta in I1, I2, I3.
      split; [lia|]. split.
      * intros x [<-|Hx]; [exact I1 | now apply I2].
      * right. destruct I3 as [E|(x & Hx & E)]; [exists y | exists x]; auto.
    + destruct (IH init) as (I1 & I2 & I3). cbv zeta in I1, I2, I3.
      split; [exact I1|]. split.
      * intros x [<-|Hx]; [lia | now apply I2].
      * destruct I3 as [E|(x & Hx & E)]; [now left | right; exists x; auto].
Qed.

Lemma fold_max_time (rest : list RawOrderRow) (init : Z) :
  let r := fold_left (fun m x => if m <? Maturity.purchaseTime x
                                 then Maturity.purchaseTime x else m) rest init in
  init <= r
  /\ (forall x, In x rest -> Maturity.purchaseTime x <= r)
  /\ (r = init \/ exists x, In x rest /\ r = Maturity.purchaseTime x).
Proof.
  revert init. induction rest as [|y t IH]; intros init; simpl.
  - split; [lia|]. split; [intros x []|now left].
  - destruct (Z.ltb_spec init (Maturity.purchaseTime y)) as [L|L].
    + destruct (IH (Maturity.purchaseTime y)) as (I1 & I2 & I3). cbv zeta in I1, I2, I3.
      split; [lia|]. split.
      * intros x [<-|Hx]; [exact I1 | now apply I2].
      * right. destruct I3 as [E|(x & Hx & E)]; [exists y | exists x]; auto.
    + destruct (IH init) as (I1 & I2 & I3). cbv zeta in I1, I2, I3.
      split; [exact I1|]. split.
      * intros x [<-|Hx]; [lia | now apply I2].
      * destruct I3 as [E|(x & Hx & E)]; [now left | right; exists x; auto].
Qed.

(** X12. getRangeInfo returns the placeholder range with span 0 for an empty
    subset; otherwise its start and end are the earliest and the latest
    purchase date of the subset, both attained by an order, and daysSpan is
    end - start + 1, at least 1. *)
Theorem range_info (subset : list RawOrderRow) :
  (subset = [] ->
   Maturity.getRangeInfo subset
   = {| Maturity.range_start := None; Maturity.range_end := None;
        Maturity.daysSpan := 0 |})
  /\ (subset <> [] ->
      exists mn mx,
        Maturity.range_start (Maturity.getRangeInfo subset) = Some mn
        /\ Maturity.range_end (Maturity.getRangeInfo subset) = Some mx
        /\ Maturity.daysSpan (Maturity.getRangeInfo subset) = mx - mn + 1
        /\ 1 <= Maturity.daysSpan (Maturity.getRangeInfo subset)
        /\ (forall x, In x subset -> mn <= purchase_date x <= mx)
        /\ (exists x, In x subset /\ purchase_date x = mn)
        /\ (exists x, In x subset /\ purchase_date x = mx)).
Proof.
  split; [intros ->; reflexivity|].
  destruct subset as [|o rest]; [congruence|]. intros _.
  unfold Maturity.getRangeInfo.
  destruct (fold_min_time rest (Maturity.purchaseTime o)) as (N1 & N2 & N3).
  destruct (fold_max_time rest (Maturity.purchaseTime o)) as (X1 & X2 & X3).
  cbv zeta in N1, N2, N3, X1, X2, X3. cbv zeta.
  cbn [Maturity.range_start Maturity.range_end Maturity.daysSpan].
  set (mn := fold_left _ rest (Maturity.purchaseTime o)) in *.
  set (mx := fold_left _ rest (Maturity.purchaseTime o)) in X1, X2, X3 |- *.
  assert (An : exists x, In x (o :: rest) /\ mn = getTime (purchase_date x)).
  { destruct N3 as [E|(x & Hx & E)]; [exists o | exists x]; split;
      solve [now left | now right | exact E]. }
  assert (Ax : exists x, In x (o :: rest) /\ mx = getTime (purchase_date x)).
  { destruct X3 as [E|(x & Hx & E)]; [exists o | exists x]; split;
      solve [now left | now right | exact E]. }
  destruct An as (xn & Hxn & En). destruct Ax as (xx & Hxx & Exx).
  exists (purchase_date xn), (purchase_date xx).
  rewrite En, Exx, !toISODate_getTime, getTime_diff_days.
  assert (Hall : forall x, In x (o :: rest) ->
                           purchase_date xn <= purchase_date x <= purchase_date xx).
  { intros x Hx. split; apply getTime_le; rewrite <- ?En, <- ?Exx.
    - destruct Hx as [<-|Hx]; [exact N1 | now apply N2].
    - destruct Hx as [<-|Hx]; [exact X1 | now apply X2]. }
  split; [reflexivity|]. split; [reflexivity|]. split; [reflexivity|].
  split; [pose proof (Hall xn Hxn); lia|].
  split; [exact Hall|]. split; [now exists xn | now exists xx].
Qed.

Lemma range_info_witness :
  Samples.maturityOrders <> []
  /\ Maturity.getRangeInfo Samples.maturityOrders
     = {| Maturity.range_start := Some (ymd 2024 2 10);
          Maturity.range_end := Some (ymd 2024 4 3);
          Maturity.daysSpan := 54 |}
  /\ exists mn mx,
       Maturity.range_start (Maturity.getRangeInfo Samples.maturityOrders) = Some mn
       /\ Maturity.range_end (Maturity.getRangeInfo Samples.maturityOrders) = Some mx
       /\ Maturity.daysSpan (Maturity.getRangeInfo Samples.maturityOrders) = mx - mn + 1.
Proof.
  assert (Hne : Samples.maturityOrders <> []) by discriminate.
  split; [exact Hne|]. split; [reflexivity|].
  destruct (proj2 (range_info Samples.maturityOrders) Hne)
    as (mn & mx & E1 & E2 & E3 & _).
  exists mn, mx. repeat split; assumption.
Defined.

End Ranges.

(* ================================================================== *)
(** ** Daily trend *)

Section Trend.
Import JS.

Lemma trendLoop_spec (tm : list (isodate * Maturity.DayStats)) (ts sT t0T : Z)
      (steps : nat) (i : Z) :
  (forall j, (j < steps)%nat -> ts + (i + Z.of_nat j) * MS_PER_DAY <= sT) ->
  List.length (Maturity.trendLoop tm ts sT t0T steps i) = steps
  /\ forall k row,
       nth_error (Maturity.trendLoop tm ts sT t0T steps i) k = Some row ->
       let t := ts + (i + Z.of_nat k) * MS_PER_DAY in
       Maturity.trend_date row = toISODate t
       /\ Maturity.trend_volume row = fst (Maturity.trendLookup tm (toISODate t))
       /\ Maturity.trend_returns row = snd (Maturity.trendLookup tm (toISODate t))
       /\ Maturity.isPost row = (t0T <=? t).
Proof.
  revert i. induction steps as [|n IH]; intros i Hno.
  - split; [reflexivity|]. intros k row Hk. destruct k; discriminate.
  - cbn [Maturity.trendLoop]. cbv zeta.
    assert (H0 : ts + i * MS_PER_DAY <= sT).
    { specialize (Hno 0%nat ltac:(lia)). now rewrite Z.add_0_r in Hno. }
    destruct (Z.ltb_spec sT (ts + i * MS_PER_DAY)) as [L|_]; [lia|].
    destruct (IH (i + 1)) as (Il & In).
    { intros j Hj. specialize (Hno (S j) ltac:(lia)).
      replace (i + 1 + Z.of_nat j) with (i + Z.of_nat (S j)) by lia. exact Hno. }
    split; [simpl; now rewrite Il|].
    intros k row Hk. destruct k as [|k].
    + cbn [nth_error] in Hk. injection Hk as <-.
      cbn [Maturity.trend_date Maturity.trend_volume Maturity.trend_returns
           Maturity.isPost].
      rewrite Z.add_0_r. repeat split.
    + cbn [nth_error] in Hk. apply In in Hk. cbv zeta in Hk.
      replace (i + 1 + Z.of_nat k) with (i + Z.of_nat (S k)) in Hk by lia.
      exact Hk.
Qed.

Lemma in_window_getTime (a b : isodate) (o : RawOrderRow) :
  Maturity.in_window (getTime a) (getTime b) o = Props.inDays a b o.
Proof.
  replace (getTime b) with (getTime a + (b - a) * MS_PER_DAY)
    by (unfold getTime; ring).
  rewrite in_window_days. do 2 f_equal. lia.
Qed.

Lemma filter_onDay_outside (lo hi k : isodate) (l : list RawOrderRow) :
  ~ lo <= k < hi ->
  filter (Props.onDay k) (filter (Props.inDays lo hi) l) = [].
Proof.
  intros Hk. rewrite filter_filter. apply filter_none. apply Forall_forall.
  intros x _. unfold Props.inDays, Props.onDay.
  destruct (Z.eqb_spec (purchase_date x) k) as [E|E]; [|apply andb_false_r].
  rewrite E.
  destruct (Z.leb_spec lo k), (Z.ltb_spec k hi); try reflexivity. lia.
Qed.

(** The orders of a day in [T0 - span, T0 + span), taken from the reference
    and the forecast subsets together, are that day's orders. *)
Lemma onDay_both_windows (t0Str span d : Z) (l : list RawOrderRow) :
  t0Str - span <= d < t0Str + span ->
  filter (Props.onDay d)
         (filter (Props.inDays (t0Str - span) t0Str) l
          ++ filter (Props.inDays t0Str (t0Str + span)) l)
  = filter (Props.onDay d) l.
Proof.
  intros Hd. rewrite filter_app.
  destruct (Z.lt_ge_cases d t0Str) as [L|L].
  - rewrite filter_onDay_window by lia.
    rewrite filter_onDay_outside by lia. apply app_nil_r.
  - rewrite filter_onDay_outside by lia.
    rewrite filter_onDay_window by lia. reflexivity.
Qed.

Lemma getTime_min (a b : isodate) : Z.min (getTime a) (getTime b) = getTime (Z.min a b).
Proof.
  destruct (Z.le_ge_cases a b) as [L|L].
  - rewrite !Z.min_l; [reflexivity | exact L | now apply getTime_le].
  - rewrite !Z.min_r; [reflexivity | lia | apply getTime_le; lia].
Qed.

Lemma analyze_trend (orders : list RawOrderRow) (o : RawOrderRow)
      (t0Str : isodate) (span : Z) :
  Maturity.trend (Maturity.analyze orders o t0Str span)
  = Maturity.trendLoop
      (Maturity.buildDailyMap
         (filter (Maturity.in_window (getTime t0Str - span * MS_PER_DAY) (getTime t0Str))
                 orders
          ++ filter (Maturity.in_window (getTime t0Str)
                       (getTime t0Str + span * MS_PER_DAY)) orders))
      (getTime t0Str - span * MS_PER_DAY) (latestTime orders) (getTime t0Str)
      (Z.to_nat (Z.max 0 (ceil_div
                            (Z.min (getTime t0Str + span * MS_PER_DAY)
                                   (latestTime orders + MS_PER_DAY)
                             - (getTime t0Str - span * MS_PER_DAY)) MS_PER_DAY))) 0.
Proof. reflexivity. Qed.

(** X13. The daily trend lists consecutive days from T0 - span up to the
    earlier of T0 + span - 1 and S, one row per day and none missing; a row
    is marked post exactly when its date is on or after T0, and its volume
    and returns are the units sold and the return counts of all orders
    purchased on its date (zero on a day without orders). *)
Theorem trend_series (data : AppData) (orders : list RawOrderRow)
        (res : Maturity.MaturityAnalysisResult)
        (Ho : return_order data = Some orders)
        (H : Maturity.analyzeMaturity data = Some res) :
  let span := Maturity.spanDays data in
  Z.of_nat (List.length (Maturity.trend res))
  = Z.max 0 (Z.min (Maturity.t0 res + span) (Maturity.s res + 1)
             - (Maturity.t0 res - span))
  /\ forall k row,
       nth_error (Maturity.trend res) k = Some row ->
       Maturity.trend_date row = Maturity.t0 res - span + Z.of_nat k
       /\ Maturity.trend_date row <= Maturity.s res
       /\ Maturity.trend_date row < Maturity.t0 res + span
       /\ Maturity.isPost row = (Maturity.t0 res <=? Maturity.trend_date row)
       /\ Maturity.trend_volume row
          = sumZ units_sold (filter (Props.onDay (Maturity.trend_date row)) orders)
       /\ Maturity.trend_returns row
          = sumZ Maturity.getReturnCount
              (filter (Props.onDay (Maturity.trend_date row)) orders).
Proof.
  apply analyzeMaturity_Some in H. destruct H as (o & rest & t0Str & Ho' & _ & ->).
  rewrite Ho in Ho'. injection Ho' as ->.
  set (span := Maturity.spanDays data). cbv zeta.
  rewrite analyze_trend.
  destruct (latestTime_day (o :: rest)) as (sd & _ & Es).
  assert (Et : Maturity.t0 (Maturity.analyze (o :: rest) o t0Str span) = t0Str)
    by reflexivity.
  assert (Esd : Maturity.s (Maturity.analyze (o :: rest) o t0Str span) = sd)
    by (unfold Maturity.analyze; cbn [Maturity.s]; now rewrite Es, toISODate_getTime).
  rewrite Et, Esd, Es.
  replace (getTime t0Str - span * MS_PER_DAY) with (getTime (t0Str - span))
    by (unfold getTime; ring).
  replace (getTime t0Str + span * MS_PER_DAY) with (getTime (t0Str + span))
    by (unfold getTime; ring).
  replace (getTime sd + MS_PER_DAY) with (getTime (sd + 1)) by (unfold getTime; ring).
  rewrite getTime_min, ceil_div_days.
  set (n := Z.max 0 (Z.min (t0Str + span) (sd + 1) - (t0Str - span))).
  match goal with
  | |- context [Maturity.trendLoop ?tm ?ts ?sT ?t0T ?steps 0] =>
      destruct (trendLoop_spec tm ts sT t0T steps 0) as (Hl & Hn)
  end.
  { intros j Hj. rewrite getTime_shift. apply getTime_le. unfold n in Hj. lia. }
  split; [rewrite Hl; lia|].
  intros k row Hk.
  assert (Hklt : (k < Z.to_nat n)%nat).
  { rewrite <- Hl. apply nth_error_Some. congruence. }
  apply Hn in Hk. cbv zeta in Hk. rewrite Z.add_0_l in Hk.
  rewrite getTime_shift, toISODate_getTime in Hk.
  destruct Hk as (D & V & R & P). rewrite D, V, R, P.
  assert (Hd : t0Str - span <= t0Str - span + Z.of_nat k < t0Str + span)
    by (unfold n in Hklt; lia).
  split; [reflexivity|]. split; [unfold n in Hklt; lia|]. split; [lia|].
  split.
  - destruct (Z.leb_spec t0Str (t0Str - span + Z.of_nat k)) as [L|L].
    + apply Z.leb_le. now apply getTime_le.
    + apply Z.leb_gt. now apply getTime_lt.
  - rewrite trendLookup_build. cbn [fst snd].
    rewrite (filter_ext _ _ (in_window_getTime (t0Str - span) t0Str)).
    rewrite (filter_ext _ _ (in_window_getTime t0Str (t0Str + span))).
    rewrite onDay_both_windows by exact Hd. split; reflexivity.
Qed.

Lemma trend_series_witness :
  exists res row,
    Maturity.analyzeMaturity Samples.maturityData = Some res
    /\ List.length (Maturity.trend res) = 79%nat
    /\ nth_error (Maturity.trend res) 46 = Some row
    /\ Maturity.trend_date row = ymd 2024 3 2
    /\ Maturity.trend_volume row = 100
    /\ Maturity.trend_volume row
       = sumZ units_sold
           (filter (Props.onDay (Maturity.trend_date row)) Samples.maturityOrders).
Proof.
  eexists. eexists. split; [reflexivity|]. split; [reflexivity|].
  split; [reflexivity|]. split; [reflexivity|]. split; [reflexivity|].
  pose proof (proj2 (trend_series Samples.maturityData Samples.maturityOrders _
                       eq_refl eq_refl) 46%nat _ eq_refl)
    as (_ & _ & _ & _ & V & _).
  exact V.
Defined.

End Trend.

(* ================================================================== *)
(** ** Phase buckets and the confidence score *)

Section PhaseBuckets.
Import JS.

Lemma bucket_step (p : Maturity.Phase)
      (acc : list Maturity.DailyProjectionRow * Maturity.ProjBuckets)
      (row : Maturity.DailyProjectionRow) :
  Phases.bucketInv p acc ->
  Phases.bucketInv p (fst acc ++ [row], Maturity.accumulate (snd acc) row).
Proof.
  destruct acc as [rows bs]. unfold Phases.bucketInv. cbn [fst snd].
  intros (I & V & R & F).
  rewrite filter_app, !sumZ_app, sumQ_app. cbn [filter].
  unfold Maturity.accumulate, Phases.inPhase at 2 4 6.
  destruct p, (Maturity.phase row);
    cbn [Phases.bucketOf Maturity.b_finalized Maturity.b_mature Maturity.b_rampup
         Maturity.bucketAdd Maturity.bucket_volume Maturity.realizedReturns
         Maturity.forecastedReturns Maturity.id] in *;
    rewrite ?sumZ_cons, ?sumZ_nil; cbn [Spec.sumQ fold_right];
    (split; [exact I|]); (split; [lia|]); (split; [lia|]);
    rewrite <- F; ring.
Qed.

Lemma projectAll_buckets (p : Maturity.Phase) (sTime d p90 : Z)
      (dist : list Maturity.LagBucket) (dailyMap : list (isodate * Maturity.DayStats)) :
  Phases.bucketInv p (Maturity.projectAll sTime d p90 dist dailyMap).
Proof.
  unfold Maturity.projectAll.
  assert (I0 : Phases.bucketInv p ([], Maturity.initBuckets)).
  { unfold Phases.bucketInv. destruct p; cbn; repeat split; reflexivity. }
  revert I0. generalize ([] : list Maturity.DailyProjectionRow, Maturity.initBuckets).
  induction dailyMap as [|e es IH]; intros acc I; simpl; [exact I|].
  apply IH. now apply bucket_step.
Qed.

Lemma rampup_no_forecast (sTime d p90 : Z) (dist : list Maturity.LagBucket)
      (entry : isodate * Maturity.DayStats) :
  let row := Maturity.projectDay sTime d p90 dist entry in
  Maturity.phase row = Maturity.rampup -> Maturity.forecastAdd row = 0%Q.
Proof.
  unfold Maturity.projectDay. cbv zeta.
  destruct (p90 <? _); [|destruct (d <=? _)];
    cbn [Maturity.phase Maturity.forecastAdd]; congruence.
Qed.

Lemma sumQ_zero {A : Type} (f : A -> Q) (l : list A) :
  (forall x, In x l -> f x = 0%Q) -> (Spec.sumQ f l == 0)%Q.
Proof.
  induction l as [|x t IH]; intros H; simpl; [reflexivity|].
  rewrite (H x) by now left. rewrite IH by (intros; apply H; now right).
  reflexivity.
Qed.

Lemma analyze_buckets (orders : list RawOrderRow) (o : RawOrderRow)
      (t0Str : isodate) (span : Z) :
  let res := Maturity.analyze orders o t0Str span in
  let pa := Maturity.projectAll (latestTime orders) (Maturity.d_value res)
              (Maturity.p90_value res) (Maturity.distribution res)
              (Maturity.buildDailyMap
                 (filter (Maturity.in_window (getTime t0Str)
                            (getTime t0Str + span * MS_PER_DAY)) orders)) in
  let total := Maturity.bucket_volume (Maturity.b_finalized (snd pa))
               + Maturity.bucket_volume (Maturity.b_mature (snd pa))
               + Maturity.bucket_volume (Maturity.b_rampup (snd pa)) in
  Maturity.buckets (Maturity.projection res)
  = map (Maturity.finishBucket total)
        [Maturity.b_finalized (snd pa); Maturity.b_mature (snd pa);
         Maturity.b_rampup (snd pa)]
  /\ Maturity.forecastedVolume (Maturity.projection res)
     = (0 + Maturity.forecastedReturns (Maturity.b_finalized (snd pa))
        + Maturity.forecastedReturns (Maturity.b_mature (snd pa)))%Q
  /\ Maturity.confidenceScore res
     = (if 0 <? total
        then js_div (inject_Z (Maturity.bucket_volume (Maturity.b_finalized (snd pa))
                               + Maturity.bucket_volume (Maturity.b_mature (snd pa))))
                    (inject_Z total)
        else Fin 0)
  /\ Maturity.isEvaluable res = js_geq (Maturity.confidenceScore res) (1 # 2)
  /\ Maturity.dailyProjections res
     = sort (fun a b => Maturity.age b - Maturity.age a) (fst pa).
Proof.
  cbv zeta. unfold Maturity.analyze.
  cbn [Maturity.buckets Maturity.projection Maturity.forecastedVolume
       Maturity.confidenceScore Maturity.isEvaluable Maturity.dailyProjections
       Maturity.d_value Maturity.p90_value Maturity.distribution].
  rewrite !Z.add_0_l. repeat split; reflexivity.
Qed.

(** X14. The projection table has exactly the three buckets finalized,
    mature and ramp-up, in this order.  Each bucket's volume, realized
    returns and forecasted returns are the sums of sales, realized and
    forecastAdd over the cohort days of its phase; its totalExpectedReturns
    is realized + forecasted, and its contributionRate is that total
    divided by the sales of all cohort days, guarded against a zero total.
    The ramp-up bucket forecasts nothing, and the forecastedVolume of the
    projection is the forecast of the finalized and mature buckets. *)
Theorem phase_buckets (data : AppData) (res : Maturity.MaturityAnalysisResult)
        (H : Maturity.analyzeMaturity data = Some res) :
  let rows := Maturity.dailyProjections res in
  let total := sumZ Maturity.sales rows in
  exists fin mat ramp,
    Maturity.buckets (Maturity.projection res) = [fin; mat; ramp]
    /\ Maturity.id fin = Maturity.finalized
    /\ Maturity.id mat = Maturity.mature
    /\ Maturity.id ramp = Maturity.rampup
    /\ (forall b, In b [fin; mat; ramp] ->
          let mine := filter (Phases.inPhase (Maturity.id b)) rows in
          Maturity.bucket_volume b = sumZ Maturity.sales mine
          /\ Maturity.realizedReturns b = sumZ Maturity.realized mine
          /\ (Maturity.forecastedReturns b == Spec.sumQ Maturity.forecastAdd mine)%Q
          /\ Maturity.totalExpectedReturns b
             = (inject_Z (Maturity.realizedReturns b) + Maturity.forecastedReturns b)%Q
          /\ Spec.guardedRatio (Maturity.contributionRate b)
               (Maturity.totalExpectedReturns b) (inject_Z total))
    /\ (Maturity.forecastedReturns ramp == 0)%Q
    /\ (Maturity.totalExpectedReturns ramp
        == inject_Z (Maturity.realizedReturns ramp))%Q
    /\ (Maturity.forecastedVolume (Maturity.projection res)
        == Maturity.forecastedReturns fin + Maturity.forecastedReturns mat)%Q.
Proof.
  apply analyzeMaturity_Some in H. destruct H as (o & rest & t0Str & _ & _ & ->).
  pose proof (analyze_buckets (o :: rest) o t0Str (Maturity.spanDays data)) as A.
  cbv zeta in A. destruct A as (Eb & Ef & _ & _ & Er).
  set (res := Maturity.analyze (o :: rest) o t0Str (Maturity.spanDays data)) in *.
  set (pa := Maturity.projectAll _ _ _ _ _) in *.
  cbv zeta. rewrite Eb, Ef, Er. clear Eb Ef.
  set (cmp := fun a b : Maturity.DailyProjectionRow => Maturity.age b - Maturity.age a).
  pose proof (sort_perm cmp (fst pa)) as P.
  assert (Inv : forall p, let b := Phases.bucketOf p (snd pa) in
              let mine := filter (Phases.inPhase p) (sort cmp (fst pa)) in
              Maturity.id b = p
              /\ Maturity.bucket_volume b = sumZ Maturity.sales mine
              /\ Maturity.realizedReturns b = sumZ Maturity.realized mine
              /\ (Maturity.forecastedReturns b
                  == Spec.sumQ Maturity.forecastAdd mine)%Q).
  { intros p. cbv zeta.
    pose proof (projectAll_buckets p (latestTime (o :: rest)) (Maturity.d_value res)
                  (Maturity.p90_value res) (Maturity.distribution res)
                  (Maturity.buildDailyMap
                     (filter (Maturity.in_window (getTime t0Str)
                                (getTime t0Str + Maturity.spanDays data * MS_PER_DAY))
                             (o :: rest)))) as I.
    fold pa in I. unfold Phases.bucketInv in I. cbv zeta in I.
    destruct I as (I & V & R & F).
    rewrite (sumZ_perm Maturity.sales _ _ (filter_perm (Phases.inPhase p) _ _ P)).
    rewrite (sumZ_perm Maturity.realized _ _ (filter_perm (Phases.inPhase p) _ _ P)).
    rewrite (sumQ_perm Maturity.forecastAdd _ _
               (filter_perm (Phases.inPhase p) _ _ P)).
    repeat split; assumption. }
  pose proof (projectAll_rollup (latestTime (o :: rest)) (Maturity.d_value res)
                (Maturity.p90_value res) (Maturity.distribution res)
                (Maturity.buildDailyMap
                   (filter (Maturity.in_window (getTime t0Str)
                              (getTime t0Str + Maturity.spanDays data * MS_PER_DAY))
                           (o :: rest)))) as T.
  fold pa in T. unfold Spec.rollupInv in T. cbv zeta in T.
  destruct T as (_ & T & _ & _).
  rewrite <- (sumZ_perm Maturity.sales _ _ P) in T. rewrite T.
  set (total := sumZ Maturity.sales (sort cmp (fst pa))).
  pose proof (Inv Maturity.finalized) as (If & Vf & Rf & Ff).
  pose proof (Inv Maturity.mature) as (Im & Vm & Rm & Fm).
  pose proof (Inv Maturity.rampup) as (Ir & Vr & Rr & Fr).
  cbn [Phases.bucketOf] in *.
  assert (Zr : (Maturity.forecastedReturns (Maturity.b_rampup (snd pa)) == 0)%Q).
  { rewrite Fr. apply sumQ_zero. intros x Hx. apply filter_In in Hx.
    destruct Hx as (Hx & Px). apply (proj1 (sort_In cmp _ _)) in Hx.
    unfold pa in Hx. rewrite projectAll_rows in Hx. apply in_map_iff in Hx.
    destruct Hx as (entry & <- & _). apply rampup_no_forecast.
    unfold Phases.inPhase in Px.
    destruct (Maturity.phase _); [reflexivity | discriminate | discriminate]. }
  do 3 eexists. cbn [map]. split; [reflexivity|].
  cbn [Maturity.finishBucket Maturity.id Maturity.forecastedReturns
       Maturity.totalExpectedReturns Maturity.realizedReturns].
  split; [exact If|]. split; [exact Im|]. split; [exact Ir|].
  split; [|split; [exact Zr | split; [rewrite Zr; ring | ring]]].
  intros b [<- | [<- | [<- | []]]];
    unfold Maturity.finishBucket;
    cbn [Maturity.id Maturity.bucket_volume Maturity.realizedReturns
         Maturity.forecastedReturns Maturity.totalExpectedReturns
         Maturity.contributionRate];
    [rewrite If | rewrite Im | rewrite Ir];
    (split; [assumption|]); (split; [assumption|]); (split; [assumption|]);
    (split; [reflexivity | apply guarded_intro]).
Qed.

Lemma phase_buckets_witness :
  exists res fin mat ramp,
    Maturity.analyzeMaturity Samples.maturityData = Some res
    /\ Maturity.buckets (Maturity.projection res) = [fin; mat; ramp]
    /\ Maturity.bucket_volume mat
       = sumZ Maturity.sales
           (filter (Phases.inPhase Maturity.mature) (Maturity.dailyProjections res))
    /\ sumZ Maturity.sales
         (filter (Phases.inPhase Maturity.mature) (Maturity.dailyProjections res)) = 6.
Proof.
  destruct (phase_buckets Samples.maturityData _ eq_refl)
    as (fin & mat & ramp & Eb & _ & Im & _ & Hb & _).
  eexists. exists fin, mat, ramp. split; [reflexivity|]. split; [exact Eb|]. split.
  - destruct (Hb mat (or_intror (or_introl eq_refl))) as (V & _).
    cbv zeta in V. rewrite Im in V. exact V.
  - reflexivity.
Defined.

Lemma dailyMapAdd_filter (q : isodate -> bool) (d : isodate) (o : RawOrderRow)
      (m : list (isodate * Maturity.DayStats)) :
  filter (fun kv => q (fst kv)) (Maturity.dailyMapAdd d o m)
  = if q d then Maturity.dailyMapAdd d o (filter (fun kv => q (fst kv)) m)
    else filter (fun kv => q (fst kv)) m.
Proof.
  induction m as [|[k e] rest IH]; cbn [Maturity.dailyMapAdd filter fst].
  - destruct (q d); reflexivity.
  - destruct (Z.eqb_spec k d) as [->|N]; cbn [filter fst].
    + destruct (q d); cbn [Maturity.dailyMapAdd]; [|reflexivity].
      now rewrite Z.eqb_refl.
    + rewrite IH. destruct (q k), (q d); cbn [Maturity.dailyMapAdd]; try reflexivity.
      destruct (Z.eqb_spec k d); [contradiction | reflexivity].
Qed.

(** Keeping the cohort days whose date satisfies [q] is building the map
    from the orders purchased on such a date. *)
Lemma buildDailyMap_filter (q : isodate -> bool) (l : list RawOrderRow) :
  filter (fun kv => q (fst kv)) (Maturity.buildDailyMap l)
  = Maturity.buildDailyMap (filter (fun o => q (purchase_date o)) l).
Proof.
  unfold Maturity.buildDailyMap.
  change (@nil (isodate * Maturity.DayStats))
    with (filter (fun kv : isodate * Maturity.DayStats => q (fst kv)) []) at 2.
  generalize (@nil (isodate * Maturity.DayStats)).
  induction l as [|x xs IH]; intros m; cbn [fold_left filter]; [reflexivity|].
  rewrite IH, dailyMapAdd_filter. destruct (q (purchase_date x)); reflexivity.
Qed.

Lemma filter_map_comm {A B : Type} (p : B -> bool) (f : A -> B) (l : list A) :
  filter p (map f l) = map f (filter (fun x => p (f x)) l).
Proof.
  induction l as [|x t IH]; simpl; [reflexivity|].
  destruct (p (f x)); simpl; now rewrite IH.
Qed.

(** The sales of the cohort days selected by a test that only depends on the
    date are the units of the orders purchased on the selected dates. *)
Lemma rows_sum_by_date (rp : Maturity.DailyProjectionRow -> bool) (q : isodate -> bool)
      (sTime d p90 : Z) (dist : list Maturity.LagBucket) (subset : list RawOrderRow) :
  (forall k e, In (k, e) (Maturity.buildDailyMap subset) ->
               rp (Maturity.projectDay sTime d p90 dist (k, e)) = q k) ->
  sumZ Maturity.sales
       (filter rp (map (Maturity.projectDay sTime d p90 dist)
                       (Maturity.buildDailyMap subset)))
  = sumZ units_sold (filter (fun o => q (purchase_date o)) subset).
Proof.
  intros Hq. rewrite filter_map_comm.
  rewrite (filter_ext_in _ (fun kv => q (fst kv))).
  2:{ intros [k e] Hin. now apply Hq. }
  rewrite buildDailyMap_filter, sumZ_map.
  rewrite <- buildDailyMap_volume. apply sumZ_ext_in. intros kv _.
  apply (projectDay_fields sTime d p90 dist kv).
Qed.

Lemma reliable_projectDay (sTime d p90 : Z) (dist : list Maturity.LagBucket)
      (entry : isodate * Maturity.DayStats) :
  d <= p90 ->
  Spec.reliable (Maturity.projectDay sTime d p90 dist entry)
  = (d <=? (sTime - Maturity.pTime (snd entry)) / MS_PER_DAY).
Proof.
  intros Hd. unfold Maturity.projectDay. cbv zeta.
  destruct (Z.ltb_spec p90 ((sTime - Maturity.pTime (snd entry)) / MS_PER_DAY)) as [L|L];
    [|destruct (Z.leb_spec d ((sTime - Maturity.pTime (snd entry)) / MS_PER_DAY))
        as [L2|L2]];
    unfold Spec.reliable; cbn [Maturity.phase]; symmetry;
    [apply Z.leb_le; lia | reflexivity | reflexivity].
Qed.

Lemma half_ratio (a n : Z) :
  0 < n -> ((1 # 2 <= inject_Z a / inject_Z n)%Q <-> n <= 2 * a).
Proof.
  intros Hn. destruct n as [|p|p]; try lia.
  unfold Qle, Qdiv, Qmult, Qinv, inject_Z.
  cbn [Qnum Qden]. change (Z.pos (1 * p)) with (Z.pos p). change (Z.pos 2) with 2. lia.
Qed.

(** X15. confidenceScore is the share of the forecast-window units that were
    purchased at least P50 days before S: it is the units of the window's
    orders of age >= d_value divided by the units of all orders of the
    window [T0, T0+span), and 0 when the window has no units.  With no
    negative quantity it lies in [0, 1].  isEvaluable holds exactly when
    the status is projecting, that is when at least half of the window's
    units are that old. *)
Theorem confidence_share (data : AppData) (orders : list RawOrderRow)
        (res : Maturity.MaturityAnalysisResult)
        (Ho : return_order data = Some orders)
        (H : Maturity.analyzeMaturity data = Some res) :
  let lo := Maturity.t0 res in
  let hi := Maturity.t0 res + Maturity.spanDays data in
  let old := fun o => Maturity.d_value res <=? Maturity.s res - purchase_date o in
  let windowUnits := sumZ units_sold (filter (Props.inDays lo hi) orders) in
  let oldUnits :=
    sumZ units_sold (filter (fun o => Props.inDays lo hi o && old o) orders) in
  (windowUnits <= 0 -> Maturity.confidenceScore res = Fin 0)
  /\ (0 < windowUnits ->
      exists c, Maturity.confidenceScore res = Fin c
                /\ (c == inject_Z oldUnits / inject_Z windowUnits)%Q)
  /\ ((forall o, In o orders -> 0 <= units_sold o) ->
      0 <= oldUnits <= windowUnits
      /\ exists c, Maturity.confidenceScore res = Fin c /\ (0 <= c <= 1)%Q)
  /\ (Maturity.isEvaluable res = true
      <-> Maturity.maturityStatus res = Maturity.projecting)
  /\ (Maturity.isEvaluable res = true
      <-> 0 < windowUnits /\ windowUnits <= 2 * oldUnits).
Proof.
  apply analyzeMaturity_Some in H. destruct H as (o & rest & t0Str & Ho' & _ & ->).
  rewrite Ho in Ho'. injection Ho' as ->.
  set (span := Maturity.spanDays data).
  pose proof (analyze_buckets (o :: rest) o t0Str span) as A.
  pose proof (analyze_markers (o :: rest) o t0Str span) as (_ & _ & (Hd & _) & _).
  cbv zeta in A. destruct A as (_ & _ & Ec & Ee & _).
  assert (Est : Maturity.maturityStatus (Maturity.analyze (o :: rest) o t0Str span)
                = if Maturity.isEvaluable (Maturity.analyze (o :: rest) o t0Str span)
                  then Maturity.projecting else Maturity.insufficient) by reflexivity.
  destruct (latestTime_day (o :: rest)) as (sd & _ & Es).
  assert (Esd : Maturity.s (Maturity.analyze (o :: rest) o t0Str span) = sd)
    by (unfold Maturity.analyze; cbn [Maturity.s]; now rewrite Es, toISODate_getTime).
  assert (Et : Maturity.t0 (Maturity.analyze (o :: rest) o t0Str span) = t0Str)
    by reflexivity.
  set (res := Maturity.analyze (o :: rest) o t0Str span) in *.
  set (subset := filter (Maturity.in_window (getTime t0Str)
                           (getTime t0Str + span * MS_PER_DAY)) (o :: rest)) in *.
  set (pa := Maturity.projectAll _ _ _ _ _) in *.
  pose proof (projectAll_rollup (latestTime (o :: rest)) (Maturity.d_value res)
                (Maturity.p90_value res) (Maturity.distribution res)
                (Maturity.buildDailyMap subset)) as T.
  fold pa in T. unfold Spec.rollupInv in T. cbv zeta in T.
  destruct T as (V & T & _ & _).
  assert (Rows : fst pa = map (Maturity.projectDay (latestTime (o :: rest))
                                 (Maturity.d_value res) (Maturity.p90_value res)
                                 (Maturity.distribution res))
                              (Maturity.buildDailyMap subset))
    by apply projectAll_rows.
  assert (Sub : subset = filter (Props.inDays t0Str (t0Str + span)) (o :: rest)).
  { unfold subset. apply filter_ext. intros x. apply in_window_days. }
  cbv zeta. rewrite Esd, Et.
  set (old := fun x : RawOrderRow => Maturity.d_value res <=? sd - purchase_date x).
  set (windowUnits := sumZ units_sold (filter (Props.inDays t0Str (t0Str + span))
                                              (o :: rest))).
  set (oldUnits := sumZ units_sold
                     (filter (fun x => Props.inDays t0Str (t0Str + span) x && old x)
                             (o :: rest))).
  assert (Tw : Maturity.bucket_volume (Maturity.b_finalized (snd pa))
               + Maturity.bucket_volume (Maturity.b_mature (snd pa))
               + Maturity.bucket_volume (Maturity.b_rampup (snd pa)) = windowUnits).
  { rewrite T, Rows, sumZ_map.
    rewrite (sumZ_ext_in _ (fun kv => Maturity.vol (snd kv))).
    2:{ intros kv _. apply (projectDay_fields _ _ _ _ kv). }
    rewrite buildDailyMap_volume, Sub. reflexivity. }
  assert (Vw : Maturity.bucket_volume (Maturity.b_finalized (snd pa))
               + Maturity.bucket_volume (Maturity.b_mature (snd pa)) = oldUnits).
  { rewrite V, Rows.
    rewrite (rows_sum_by_date Spec.reliable
               (fun k => Maturity.d_value res <=? sd - k)).
    - rewrite Sub, filter_filter. reflexivity.
    - intros k e Hin. rewrite reliable_projectDay by lia.
      apply buildDailyMap_entries in Hin. destruct Hin as (Ep & _).
      cbn [snd]. rewrite Ep, Es, getTime_diff_days. reflexivity. }
  rewrite Tw, Vw in Ec.
  assert (Hhalf : 0 < windowUnits ->
                  ((1 # 2 <= inject_Z oldUnits / inject_Z windowUnits)%Q
                   <-> windowUnits <= 2 * oldUnits)) by apply half_ratio.
  split; [|split; [|split; [|split]]].
  - intros L. rewrite Ec. destruct (Z.ltb_spec 0 windowUnits); [lia | reflexivity].
  - intros L. rewrite Ec. destruct (Z.ltb_spec 0 windowUnits); [|lia].
    rewrite js_div_pos by exact L. eexists. split; reflexivity.
  - intros Hnn.
    assert (B : 0 <= oldUnits <= windowUnits).
    { unfold oldUnits, windowUnits. apply sumZ_filter_and_le.
      intros x Hx _. now apply Hnn. }
    split; [exact B|]. rewrite Ec.
    destruct (Z.ltb_spec 0 windowUnits) as [L|L].
    + rewrite js_div_pos by exact L. eexists. split; [reflexivity|].
      now apply ratio_unit.
    + exists 0%Q. split; [reflexivity|]. split; [apply Qle_refl | discriminate].
  - rewrite Est. destruct (Maturity.isEvaluable res); split; congruence.
  - rewrite Ee, Ec. destruct (Z.ltb_spec 0 windowUnits) as [L|L].
    + rewrite js_div_pos by exact L. cbn [js_geq]. rewrite Qle_bool_iff, Hhalf by exact L.
      split; [intros G; split; assumption | intros (_ & G); exact G].
    + cbn [js_geq]. split; [discriminate | intros (G & _); lia].
Qed.

Lemma confidence_share_witness :
  exists res c,
    Maturity.analyzeMaturity Samples.maturityData = Some res
    /\ sumZ units_sold
         (filter (Props.inDays (ymd 2024 3 1) (ymd 2024 3 1 + 45))
                 Samples.maturityOrders) = 113
    /\ Maturity.confidenceScore res = Fin c
    /\ (c == 106 # 113)%Q
    /\ Maturity.isEvaluable res = true.
Proof.
  pose proof (confidence_share Samples.maturityData Samples.maturityOrders _
                eq_refl eq_refl) as (_ & C & _ & _ & E).
  destruct (C ltac:(vm_compute; reflexivity)) as (c & Ec & Eq).
  eexists. exists c. split; [reflexivity|]. split; [reflexivity|].
  split; [exact Ec|]. split.
  - rewrite Eq. vm_compute. reflexivity.
  - apply E. split; vm_compute; [reflexivity | discriminate].
Defined.

End PhaseBuckets.

(* ================================================================== *)
(** ** Velocity chart *)

Section Velocity.
Import JS.

Lemma bumpAt_length (l : nat) (r : Z) (v : list Z) :
  List.length (Contrast.bumpAt l r v) = List.length v.
Proof.
  revert l. induction v as [|x t IH]; intros [|l]; simpl; try reflexivity.
  now rewrite IH.
Qed.

Lemma bumpAt_nth (j l : nat) (r : Z) (v : list Z) :
  (j < List.length v)%nat ->
  nth j (Contrast.bumpAt l r v) 0 = nth j v 0 + (if Nat.eqb j l then r else 0).
Proof.
  revert j l. induction v as [|x t IH]; intros j l Hj; simpl in Hj; [lia|].
  destruct l as [|l], j as [|j]; simpl; try lia.
  apply IH. lia.
Qed.

Lemma sumZ_filter_cons {A : Type} (f : A -> Z) (p : A -> bool) (x : A) (l : list A) :
  sumZ f (filter p (x :: l)) = (if p x then f x else 0) + sumZ f (filter p l).
Proof. simpl. destruct (p x); rewrite ?sumZ_cons; lia. Qed.

Lemma afterStep_one (n : Z) (acc : Contrast.DayAcc) (o : RawOrderRow) (j : nat) :
  List.length (Contrast.velocity acc) = Z.to_nat n ->
  (j < Z.to_nat n)%nat ->
  List.length (Contrast.velocity (Contrast.afterStep n acc o)) = Z.to_nat n
  /\ nth j (Contrast.velocity (Contrast.afterStep n acc o)) 0
     = nth j (Contrast.velocity acc) 0
       + (if (0 <? Contrast.getReturnCount o) && Lags.lagIs (Z.of_nat j) o
          then Contrast.getReturnCount o else 0).
Proof.
  intros Hlen Hj. unfold Contrast.afterStep, Lags.lagIs. cbv zeta.
  destruct (0 <? Contrast.getReturnCount o); cbn [Contrast.velocity andb];
    [|split; lia].
  destruct (Contrast.getLag o) as [l|]; [|split; lia].
  destruct (Z.leb_spec 0 l), (Z.ltb_spec l n); cbn [andb];
    rewrite ?bumpAt_length; (split; [assumption|]);
    rewrite ?bumpAt_nth by lia;
    destruct (Z.eqb_spec l (Z.of_nat j)); try destruct (Nat.eqb_spec j (Z.to_nat l));
    lia.
Qed.

Lemma afterStep_velocity (n : Z) (l : list RawOrderRow) (acc : Contrast.DayAcc)
      (j : nat) :
  List.length (Contrast.velocity acc) = Z.to_nat n ->
  (j < Z.to_nat n)%nat ->
  let a := fold_left (Contrast.afterStep n) l acc in
  List.length (Contrast.velocity a) = Z.to_nat n
  /\ nth j (Contrast.velocity a) 0
     = nth j (Contrast.velocity acc) 0
       + sumZ Contrast.getReturnCount
           (filter (fun o => (0 <? Contrast.getReturnCount o)
                             && Lags.lagIs (Z.of_nat j) o) l).
Proof.
  intros Hlen Hj. revert acc Hlen. induction l as [|o os IH]; intros acc Hlen.
  - simpl. rewrite sumZ_nil. split; [assumption | lia].
  - cbn [fold_left]. rewrite sumZ_filter_cons.
    destruct (afterStep_one n acc o j Hlen Hj) as (L1 & N1).
    destruct (IH _ L1) as (L2 & N2). cbv zeta. split; [exact L2|].
    rewrite N2, N1. lia.
Qed.

Lemma beforeStep_one (n L : Z) (acc : Contrast.DayAcc) (o : RawOrderRow) (j : nat) :
  List.length (Contrast.velocity acc) = Z.to_nat n ->
  (j < Z.to_nat n)%nat ->
  List.length (Contrast.velocity (Contrast.beforeStep n L acc o)) = Z.to_nat n
  /\ nth j (Contrast.velocity (Contrast.beforeStep n L acc o)) 0
     = nth j (Contrast.velocity acc) 0
       + (if Spec.countedBefore L o && Lags.lagIs (Z.of_nat j) o
          then Contrast.getReturnCount o else 0).
Proof.
  intros Hlen Hj. unfold Contrast.beforeStep, Spec.countedBefore, Lags.lagIs. cbv zeta.
  destruct (0 <? Contrast.getReturnCount o); cbn [Contrast.velocity andb];
    [|split; lia].
  destruct (Contrast.getLag o) as [l|]; [|cbn [Contrast.velocity andb]; split; lia].
  destruct (l <=? L); cbn [Contrast.velocity andb]; [|split; lia].
  destruct (Z.leb_spec 0 l), (Z.ltb_spec l n); cbn [andb];
    rewrite ?bumpAt_length; (split; [assumption|]);
    rewrite ?bumpAt_nth by lia;
    destruct (Z.eqb_spec l (Z.of_nat j)); try destruct (Nat.eqb_spec j (Z.to_nat l));
    lia.
Qed.

Lemma beforeStep_velocity (n L : Z) (l : list RawOrderRow) (acc : Contrast.DayAcc)
      (j : nat) :
  List.length (Contrast.velocity acc) = Z.to_nat n ->
  (j < Z.to_nat n)%nat ->
  let b := fold_left (Contrast.beforeStep n L) l acc in
  List.length (Contrast.velocity b) = Z.to_nat n
  /\ nth j (Contrast.velocity b) 0
     = nth j (Contrast.velocity acc) 0
       + sumZ Contrast.getReturnCount
           (filter (fun o => Spec.countedBefore L o && Lags.lagIs (Z.of_nat j) o) l).
Proof.
  intros Hlen Hj. revert acc Hlen. induction l as [|o os IH]; intros acc Hlen.
  - simpl. rewrite sumZ_nil. split; [assumption | lia].
  - cbn [fold_left]. rewrite sumZ_filter_cons.
    destruct (beforeStep_one n L acc o j Hlen Hj) as (L1 & N1).
    destruct (IH _ L1) as (L2 & N2). cbv zeta. split; [exact L2|].
    rewrite N2, N1. lia.
Qed.

(** The two velocity arrays after the fairness loop over the day indices
    [idx], slot by slot. *)
Lemma loop_velocity (orders : list RawOrderRow) (maxTime afterStart beforeStart n : Z)
      (j : nat) (idx : list Z) (st0 : Contrast.LoopState) :
  List.length (Contrast.afterVelocity st0) = Z.to_nat n ->
  List.length (Contrast.beforeVelocity st0) = Z.to_nat n ->
  (j < Z.to_nat n)%nat ->
  let st := fold_left (Contrast.dayStep orders maxTime afterStart beforeStart n)
                      idx st0 in
  List.length (Contrast.afterVelocity st) = Z.to_nat n
  /\ List.length (Contrast.beforeVelocity st) = Z.to_nat n
  /\ nth j (Contrast.afterVelocity st) 0
     = nth j (Contrast.afterVelocity st0) 0
       + sumZ (fun i =>
                 sumZ Contrast.getReturnCount
                   (filter (fun o => (0 <? Contrast.getReturnCount o)
                                     && Lags.lagIs (Z.of_nat j) o)
                      (Contrast.ordersOn (toISODate (afterStart + i * MS_PER_DAY))
                                         orders))) idx
  /\ nth j (Contrast.beforeVelocity st) 0
     = nth j (Contrast.beforeVelocity st0) 0
       + sumZ (fun i =>
                 sumZ Contrast.getReturnCount
                   (filter (fun o =>
                              Spec.countedBefore
                                ((maxTime - (afterStart + i * MS_PER_DAY)) / MS_PER_DAY) o
                              && Lags.lagIs (Z.of_nat j) o)
                      (Contrast.ordersOn (toISODate (beforeStart + i * MS_PER_DAY))
                                         orders))) idx.
Proof.
  intros Ha Hb Hj. revert st0 Ha Hb.
  induction idx as [|i idx IH]; intros st0 Ha Hb; cbn [fold_left].
  - rewrite !sumZ_nil. repeat split; try assumption; lia.
  - pose proof (afterStep_velocity n
                  (Contrast.ordersOn (toISODate (afterStart + i * MS_PER_DAY)) orders)
                  {| Contrast.daySales := 0; Contrast.dayReturns := 0;
                     Contrast.velocity := Contrast.afterVelocity st0 |} j Ha Hj)
      as (A1 & A2).
    pose proof (beforeStep_velocity n
                  ((maxTime - (afterStart + i * MS_PER_DAY)) / MS_PER_DAY)
                  (Contrast.ordersOn (toISODate (beforeStart + i * MS_PER_DAY)) orders)
                  {| Contrast.daySales := 0; Contrast.dayReturns := 0;
                     Contrast.velocity := Contrast.beforeVelocity st0 |} j Hb Hj)
      as (B1 & B2).
    cbn [Contrast.velocity] in A2, B2.
    destruct (IH (Contrast.dayStep orders maxTime afterStart beforeStart n st0 i))
      as (L1 & L2 & N1 & N2); [exact A1 | exact B1 |].
    cbv zeta. split; [exact L1|]. split; [exact L2|].
    rewrite N1, N2, !sumZ_cons.
    unfold Contrast.dayStep. cbv zeta.
    cbn [Contrast.afterVelocity Contrast.beforeVelocity].
    rewrite A2, B2. split; lia.
Qed.

(** Summing the returns of each lag 0 .. n-1 is summing the returns of lag
    below [n]. *)
Lemma sumZ_by_lag (f : RawOrderRow -> Z) (q : RawOrderRow -> bool)
      (l : list RawOrderRow) (n : nat) :
  sumZ (fun j => sumZ f (filter (fun o => q o && Lags.lagIs j o) l))
       (map Z.of_nat (seq 0 (S n)))
  = sumZ f (filter (fun o => q o && Lags.lagUpTo (Z.of_nat n) o) l).
Proof.
  induction l as [|o os IH].
  - cbn [filter]. generalize (map Z.of_nat (seq 0 (S n))). intros t.
    induction t as [|i t IHt]; [reflexivity|].
    rewrite sumZ_cons, IHt. reflexivity.
  - rewrite sumZ_filter_cons, <- IH.
    rewrite (sumZ_ext_in _
               (fun j => (if q o && Lags.lagIs j o then f o else 0)
                         + sumZ f (filter (fun o => q o && Lags.lagIs j o) os)))
      by (intros j _; apply (sumZ_filter_cons f (fun x => q x && Lags.lagIs j x))).
    rewrite sumZ_add. f_equal.
    unfold Lags.lagIs, Lags.lagUpTo. destruct (q o); cbn [andb].
    + destruct (Contrast.getLag o) as [lag|].
      * rewrite (sumZ_ext_in _ (fun i => if lag =? 0 + i then f o else 0))
          by (intros; reflexivity).
        rewrite sumZ_indicator_days.
        destruct (Z.leb_spec 0 lag), (Z.ltb_spec lag (0 + Z.of_nat (S n))),
          (Z.leb_spec lag (Z.of_nat n)); cbn [andb]; try reflexivity; lia.
      * clear. induction (map Z.of_nat (seq 0 (S n))) as [|i t IHt]; [reflexivity|].
        rewrite sumZ_cons, IHt. reflexivity.
    + clear. induction (map Z.of_nat (seq 0 (S n))) as [|i t IHt]; [reflexivity|].
      rewrite sumZ_cons, IHt. reflexivity.
Qed.

Lemma velocityLoop_nth (aS bS : Z) (av bv : list Z) (m a : nat) (cumA cumB : Z) :
  let chart := Contrast.velocityLoop aS bS av bv (map Z.of_nat (seq a m)) cumA cumB in
  List.length chart = m
  /\ forall k p,
       nth_error chart k = Some p ->
       let cA := cumA + sumZ (fun j => nth (Z.to_nat j) av 0)
                             (map Z.of_nat (seq a (S k))) in
       let cB := cumB + sumZ (fun j => nth (Z.to_nat j) bv 0)
                             (map Z.of_nat (seq a (S k))) in
       Contrast.day p = Z.of_nat (a + k)
       /\ Contrast.afterRate p
          = (if 0 <? aS then js_div (inject_Z cA) (inject_Z aS) else Fin 0)
       /\ Contrast.beforeRate p
          = (if 0 <? bS then js_div (inject_Z cB) (inject_Z bS) else Fin 0).
Proof.
  revert a cumA cumB. induction m as [|m IH]; intros a cumA cumB.
  - split; [reflexivity|]. intros k p Hk. destruct k; discriminate.
  - cbn [seq map Contrast.velocityLoop]. cbv zeta.
    destruct (IH (S a) (cumA + nth (Z.to_nat (Z.of_nat a)) av 0)
                 (cumB + nth (Z.to_nat (Z.of_nat a)) bv 0)) as (Il & In).
    cbv zeta in Il, In. split; [simpl; now rewrite Il|].
    intros k p Hk. destruct k as [|k].
    + cbn [nth_error] in Hk. injection Hk as <-.
      cbn [Contrast.day Contrast.afterRate Contrast.beforeRate seq map].
      rewrite !sumZ_cons, !sumZ_nil, Nat.add_0_r, !Z.add_0_r. repeat split.
    + cbn [nth_error] in Hk. apply In in Hk. destruct Hk as (D & A & B).
      rewrite D, A, B.
      replace (seq a (S (S k))) with (a :: seq (S a) (S k)) by reflexivity.
      cbn [map]. rewrite !sumZ_cons, !Z.add_assoc.
      split; [f_equal; lia|]. split; reflexivity.
Qed.

Lemma contrast_chart (orders : list RawOrderRow) (t0Str : isodate) :
  let res := Contrast.contrast orders t0Str in
  let n := Contrast.runDays res in
  let st := Contrast.fairnessLoop orders (latestTime orders)
              (getTime t0Str + MS_PER_DAY) (getTime t0Str - n * MS_PER_DAY) n in
  Contrast.velocityChart res
  = Contrast.velocityLoop (Contrast.sales (Contrast.after res))
      (Contrast.sales (Contrast.before res))
      (Contrast.afterVelocity st) (Contrast.beforeVelocity st)
      (map Z.of_nat (seq 0 (Z.to_nat n))) 0 0.
Proof. reflexivity. Qed.

(** The velocity arrays of a result: slot [j] holds the returns of lag [j]
    of the after window, and of the before window the returns of lag [j]
    dated before T0. *)
Lemma contrast_velocity (orders : list RawOrderRow) (t0Str sd : isodate) (j : nat) :
  latestTime orders = getTime sd ->
  t0Str < sd ->
  (j < Z.to_nat (sd - t0Str))%nat ->
  let n := sd - t0Str in
  let st := Contrast.fairnessLoop orders (latestTime orders)
              (getTime t0Str + MS_PER_DAY) (getTime t0Str - n * MS_PER_DAY) n in
  nth j (Contrast.afterVelocity st) 0
  = sumZ Contrast.getReturnCount
      (filter (fun o => ((0 <? Contrast.getReturnCount o) && (t0Str <? purchase_date o))
                        && Lags.lagIs (Z.of_nat j) o) orders)
  /\ nth j (Contrast.beforeVelocity st) 0
     = sumZ Contrast.getReturnCount
         (filter (fun o => (((0 <? Contrast.getReturnCount o)
                             && Props.returnedBefore t0Str o)
                            && Props.inDays (t0Str - n) t0Str o)
                           && Lags.lagIs (Z.of_nat j) o) orders).
Proof.
  intros Es Hlt Hj. cbv zeta. unfold Contrast.fairnessLoop.
  match goal with
  | |- context [fold_left _ ?idx ?st0] =>
      destruct (loop_velocity orders (latestTime orders) (getTime t0Str + MS_PER_DAY)
                  (getTime t0Str - (sd - t0Str) * MS_PER_DAY) (sd - t0Str) j idx st0)
        as (_ & _ & A & B)
  end; try (cbn [Contrast.afterVelocity Contrast.beforeVelocity]; apply repeat_length);
    [exact Hj|].
  cbv zeta in A, B. rewrite A, B.
  cbn [Contrast.afterVelocity Contrast.beforeVelocity].
  rewrite !nth_repeat, !Z.add_0_l. unfold Contrast.dayIndices. split.
  - rewrite (sumZ_ext_in _
               (fun i => sumZ Contrast.getReturnCount
                           (filter (fun o => (0 <? Contrast.getReturnCount o)
                                             && Lags.lagIs (Z.of_nat j) o)
                                   (Contrast.ordersOn (t0Str + 1 + i) orders)))).
    2:{ intros i _.
        replace (getTime t0Str + MS_PER_DAY + i * MS_PER_DAY)
          with (getTime (t0Str + 1 + i)) by (unfold getTime; ring).
        now rewrite toISODate_getTime. }
    rewrite sumZ_by_day. f_equal. apply filter_ext_in. intros x Hx.
    apply latestTime_ge in Hx. rewrite Es, toISODate_getTime in Hx.
    assert (E : Props.inDays (t0Str + 1) (t0Str + 1 + Z.of_nat (Z.to_nat (sd - t0Str))) x
                = (t0Str <? purchase_date x)).
    { unfold Props.inDays.
      destruct (Z.leb_spec (t0Str + 1) (purchase_date x)),
        (Z.ltb_spec (purchase_date x) (t0Str + 1 + Z.of_nat (Z.to_nat (sd - t0Str)))),
        (Z.ltb_spec t0Str (purchase_date x)); simpl; try reflexivity; lia. }
    rewrite E.
    destruct (0 <? Contrast.getReturnCount x), (Lags.lagIs (Z.of_nat j) x),
      (t0Str <? purchase_date x); reflexivity.
  - rewrite (sumZ_ext_in _
               (fun i => sumZ Contrast.getReturnCount
                           (filter (fun o => ((0 <? Contrast.getReturnCount o)
                                              && Props.returnedBefore t0Str o)
                                             && Lags.lagIs (Z.of_nat j) o)
                                   (Contrast.ordersOn (t0Str - (sd - t0Str) + i) orders)))).
    2:{ intros i _.
        replace (getTime t0Str - (sd - t0Str) * MS_PER_DAY + i * MS_PER_DAY)
          with (getTime (t0Str - (sd - t0Str) + i)) by (unfold getTime; ring).
        rewrite toISODate_getTime, Es. f_equal. apply filter_ext_in.
        intros x Hx. unfold Contrast.ordersOn in Hx. apply filter_In in Hx.
        destruct Hx as (_ & Hx). apply Z.eqb_eq in Hx.
        now rewrite (countedBefore_mirror t0Str sd i x Hx). }
    rewrite sumZ_by_day. f_equal. apply filter_ext_in. intros x _.
    replace (t0Str - (sd - t0Str) + Z.of_nat (Z.to_nat (sd - t0Str))) with t0Str by lia.
    destruct (0 <? Contrast.getReturnCount x), (Props.returnedBefore t0Str x),
      (Lags.lagIs (Z.of_nat j) x), (Props.inDays (t0Str - (sd - t0Str)) t0Str x);
      reflexivity.
Qed.

Lemma sumZ_filter_mono {A : Type} (f : A -> Z) (p p' : A -> bool) (l : list A) :
  (forall x, In x l -> p x = true -> p' x = true) ->
  (forall x, In x l -> p' x = true -> 0 <= f x) ->
  sumZ f (filter p l) <= sumZ f (filter p' l).
Proof.
  induction l as [|x t IH]; intros Hp Hf; [simpl; lia|].
  rewrite !sumZ_filter_cons.
  assert (sumZ f (filter p t) <= sumZ f (filter p' t))
    by (apply IH; intros; [apply Hp | apply Hf]; auto; now right).
  pose proof (Hp x (or_introl eq_refl)) as Hpx.
  pose proof (Hf x (or_introl eq_refl)) as Hfx.
  destruct (p x), (p' x); try specialize (Hpx eq_refl); try specialize (Hfx eq_refl);
    try discriminate; lia.
Qed.

Lemma lagUpTo_mono (k k' : Z) (o : RawOrderRow) :
  k <= k' -> Lags.lagUpTo k o = true -> Lags.lagUpTo k' o = true.
Proof.
  intros Hk. unfold Lags.lagUpTo. destruct (Contrast.getLag o) as [l|]; [|discriminate].
  intros H. apply andb_prop in H. destruct H as (H1 & H2).
  apply Z.leb_le in H1, H2. apply andb_true_intro. split; apply Z.leb_le; lia.
Qed.

Lemma rate_mono (a b v : Z) :
  a <= b ->
  Props.rateLe (if 0 <? v then js_div (inject_Z a) (inject_Z v) else Fin 0)
               (if 0 <? v then js_div (inject_Z b) (inject_Z v) else Fin 0).
Proof.
  intros Hab. destruct (Z.ltb_spec 0 v) as [L|L].
  - rewrite !js_div_pos by exact L. cbn [Props.rateLe]. now apply ratio_le.
  - cbn [Props.rateLe]. apply Qle_refl.
Qed.

(** X16. The velocity chart has one point per day offset 0 .. runDays-1.
    At offset k the after rate is the returns of the orders purchased after
    T0 whose lag is between 0 and k days, divided by after.sales; the before
    rate is the returns dated before T0 of the orders purchased in
    [T0 - runDays, T0) whose lag is between 0 and k days, divided by
    before.sales; both are 0 when the sales are 0.  Both curves are
    non-decreasing in the offset. *)
Theorem velocity_chart (data : AppData) (orders : list RawOrderRow)
        (res : Contrast.ContrastResult)
        (Ho : return_order data = Some orders)
        (H : Contrast.analyzeContrast data = Some res) :
  let n := Contrast.runDays res in
  let T0 := Contrast.t0 res in
  Z.of_nat (List.length (Contrast.velocityChart res)) = n
  /\ (forall k p,
         nth_error (Contrast.velocityChart res) k = Some p ->
         Contrast.day p = Z.of_nat k
         /\ Spec.guardedRatio (Contrast.afterRate p)
              (inject_Z (Lags.afterCum orders T0 (Z.of_nat k)))
              (inject_Z (Contrast.sales (Contrast.after res)))
         /\ Spec.guardedRatio (Contrast.beforeRate p)
              (inject_Z (Lags.beforeCum orders T0 n (Z.of_nat k)))
              (inject_Z (Contrast.sales (Contrast.before res))))
  /\ (forall k k' p p',
         (k <= k')%nat ->
         nth_error (Contrast.velocityChart res) k = Some p ->
         nth_error (Contrast.velocityChart res) k' = Some p' ->
         Props.rateLe (Contrast.afterRate p) (Contrast.afterRate p')
         /\ Props.rateLe (Contrast.beforeRate p) (Contrast.beforeRate p')).
Proof.
  apply analyzeContrast_Some in H. destruct H as (o & rest & t0Str & Ho' & _ & L & ->).
  rewrite Ho in Ho'. injection Ho' as ->.
  destruct (runDays_days (o :: rest) t0Str L) as (sd & Es & Hlt & Edc).
  assert (Er : Contrast.runDays (Contrast.contrast (o :: rest) t0Str) = sd - t0Str)
    by exact Edc.
  assert (Et : Contrast.t0 (Contrast.contrast (o :: rest) t0Str) = t0Str) by reflexivity.
  cbv zeta. rewrite contrast_chart. cbv zeta. rewrite Er, Et.
  set (aS := Contrast.sales (Contrast.after (Contrast.contrast (o :: rest) t0Str))).
  set (bS := Contrast.sales (Contrast.before (Contrast.contrast (o :: rest) t0Str))).
  set (st := Contrast.fairnessLoop _ _ _ _ _).
  destruct (velocityLoop_nth aS bS (Contrast.afterVelocity st)
              (Contrast.beforeVelocity st) (Z.to_nat (sd - t0Str)) 0 0 0) as (Hl & Hn).
  set (chart := Contrast.velocityLoop _ _ _ _ _ _ _) in *.
  assert (Pt : forall k p,
             nth_error chart k = Some p ->
             Contrast.day p = Z.of_nat k
             /\ Contrast.afterRate p
                = (if 0 <? aS
                   then js_div (inject_Z (Lags.afterCum (o :: rest) t0Str (Z.of_nat k)))
                               (inject_Z aS)
                   else Fin 0)
             /\ Contrast.beforeRate p
                = (if 0 <? bS
                   then js_div (inject_Z (Lags.beforeCum (o :: rest) t0Str (sd - t0Str)
                                            (Z.of_nat k)))
                               (inject_Z bS)
                   else Fin 0)).
  { intros k p Hk.
    assert (Hklt : (k < Z.to_nat (sd - t0Str))%nat).
    { rewrite <- Hl. apply nth_error_Some. congruence. }
    apply Hn in Hk. cbv zeta in Hk. destruct Hk as (D & A & B).
    rewrite Z.add_0_l in A, B. split; [exact D|].
    assert (V : forall j, In j (map Z.of_nat (seq 0 (S k))) ->
                nth (Z.to_nat j) (Contrast.afterVelocity st) 0
                = sumZ Contrast.getReturnCount
                    (filter (fun x => ((0 <? Contrast.getReturnCount x)
                                       && (t0Str <? purchase_date x))
                                      && Lags.lagIs j x) (o :: rest))
                /\ nth (Z.to_nat j) (Contrast.beforeVelocity st) 0
                   = sumZ Contrast.getReturnCount
                       (filter (fun x => (((0 <? Contrast.getReturnCount x)
                                           && Props.returnedBefore t0Str x)
                                          && Props.inDays (t0Str - (sd - t0Str)) t0Str x)
                                         && Lags.lagIs j x) (o :: rest))).
    { intros j Hj. apply in_map_iff in Hj. destruct Hj as (j' & <- & Hj').
      apply in_seq in Hj'. rewrite Nat2Z.id.
      apply (contrast_velocity (o :: rest) t0Str sd j' Es Hlt). lia. }
    rewrite (sumZ_ext_in _ _ _ (fun j Hj => proj1 (V j Hj))) in A.
    rewrite (sumZ_ext_in _ _ _ (fun j Hj => proj2 (V j Hj))) in B.
    rewrite (sumZ_by_lag Contrast.getReturnCount
               (fun x => (0 <? Contrast.getReturnCount x) && (t0Str <? purchase_date x)))
      in A.
    rewrite (sumZ_by_lag Contrast.getReturnCount
               (fun x => ((0 <? Contrast.getReturnCount x)
                          && Props.returnedBefore t0Str x)
                         && Props.inDays (t0Str - (sd - t0Str)) t0Str x)) in B.
    split; [exact A | exact B]. }
  split; [rewrite Hl; lia|]. split.
  - intros k p Hk. destruct (Pt k p Hk) as (D & A & B).
    rewrite A, B. split; [exact D|]. split; apply guarded_intro.
  - intros k k' p p' Hkk Hk Hk'.
    destruct (Pt k p Hk) as (_ & A & B). destruct (Pt k' p' Hk') as (_ & A' & B').
    rewrite A, B, A', B'. split; apply rate_mono.
    + unfold Lags.afterCum. apply sumZ_filter_mono.
      * intros x _ Hx. apply andb_prop in Hx. destruct Hx as (Hq & Hx).
        rewrite Hq. apply (lagUpTo_mono (Z.of_nat k)); [lia | exact Hx].
      * intros x _ Hx. apply andb_prop in Hx. destruct Hx as (Hq & _).
        apply andb_prop in Hq. destruct Hq as (Hq & _). apply Z.ltb_lt in Hq. lia.
    + unfold Lags.beforeCum. apply sumZ_filter_mono.
      * intros x _ Hx. apply andb_prop in Hx. destruct Hx as (Hq & Hx).
        rewrite Hq. apply (lagUpTo_mono (Z.of_nat k)); [lia | exact Hx].
      * intros x _ Hx. apply andb_prop in Hx. destruct Hx as (Hq & _).
        apply andb_prop in Hq. destruct Hq as (Hq & _).
        apply andb_prop in Hq. destruct Hq as (Hq & _). apply Z.ltb_lt in Hq. lia.
Qed.

Lemma velocity_chart_witness :
  exists res p,
    Contrast.analyzeContrast Samples.contrastData = Some res
    /\ nth_error (Contrast.velocityChart res) 1 = Some p
    /\ Lags.beforeCum Samples.contrastOrders (Contrast.t0 res) (Contrast.runDays res) 1 = 4
    /\ Contrast.sales (Contrast.before res) = 12
    /\ Contrast.day p = 1
    /\ Spec.guardedRatio (Contrast.beforeRate p)
         (inject_Z (Lags.beforeCum Samples.contrastOrders (Contrast.t0 res)
                      (Contrast.runDays res) (Z.of_nat 1)))
         (inject_Z (Contrast.sales (Contrast.before res))).
Proof.
  eexists. eexists. split; [reflexivity|]. split; [reflexivity|].
  split; [reflexivity|]. split; [reflexivity|].
  pose proof (proj1 (proj2 (velocity_chart Samples.contrastData Samples.contrastOrders _
                              eq_refl eq_refl)) 1%nat _ eq_refl) as (D & _ & B).
  split; [exact D | exact B].
Defined.

End Velocity.

(* ================================================================== *)
(** ** Rates of the two engines *)

Section EngineRates.
Import JS.

(** The points of the velocity chart of a result, with the numerators of
    their two rates. *)
Lemma chart_points (orders : list RawOrderRow) (t0Str : isodate) :
  getTime t0Str < latestTime orders ->
  let res := Contrast.contrast orders t0Str in
  List.length (Contrast.velocityChart res) = Z.to_nat (Contrast.runDays res)
  /\ 0 < Contrast.runDays res
  /\ forall k p,
       nth_error (Contrast.velocityChart res) k = Some p ->
       Contrast.day p = Z.of_nat k
       /\ Contrast.afterRate p
          = (if 0 <? Contrast.sales (Contrast.after res)
             then js_div (inject_Z (Lags.afterCum orders t0Str (Z.of_nat k)))
                         (inject_Z (Contrast.sales (Contrast.after res)))
             else Fin 0)
       /\ Contrast.beforeRate p
          = (if 0 <? Contrast.sales (Contrast.before res)
             then js_div (inject_Z (Lags.beforeCum orders t0Str (Contrast.runDays res)
                                      (Z.of_nat k)))
                         (inject_Z (Contrast.sales (Contrast.before res)))
             else Fin 0).
Proof.
  intros L. cbv zeta.
  destruct (runDays_days orders t0Str L) as (sd & Es & Hlt & Edc).
  assert (Er : Contrast.runDays (Contrast.contrast orders t0Str) = sd - t0Str)
    by exact Edc.
  rewrite contrast_chart. cbv zeta. rewrite Er.
  set (aS := Contrast.sales (Contrast.after (Contrast.contrast orders t0Str))).
  set (bS := Contrast.sales (Contrast.before (Contrast.contrast orders t0Str))).
  set (st := Contrast.fairnessLoop _ _ _ _ _).
  destruct (velocityLoop_nth aS bS (Contrast.afterVelocity st)
              (Contrast.beforeVelocity st) (Z.to_nat (sd - t0Str)) 0 0 0) as (Hl & Hn).
  set (chart := Contrast.velocityLoop _ _ _ _ _ _ _) in *.
  split; [exact Hl|]. split; [lia|].
  intros k p Hk.
  assert (Hklt : (k < Z.to_nat (sd - t0Str))%nat).
  { rewrite <- Hl. apply nth_error_Some. congruence. }
  apply Hn in Hk. cbv zeta in Hk. destruct Hk as (D & A & B).
  rewrite Z.add_0_l in A, B. split; [exact D|].
  assert (V : forall j, In j (map Z.of_nat (seq 0 (S k))) ->
              nth (Z.to_nat j) (Contrast.afterVelocity st) 0
              = sumZ Contrast.getReturnCount
                  (filter (fun x => ((0 <? Contrast.getReturnCount x)
                                     && (t0Str <? purchase_date x))
                                    && Lags.lagIs j x) orders)
              /\ nth (Z.to_nat j) (Contrast.beforeVelocity st) 0
                 = sumZ Contrast.getReturnCount
                     (filter (fun x => (((0 <? Contrast.getReturnCount x)
                                         && Props.returnedBefore t0Str x)
                                        && Props.inDays (t0Str - (sd - t0Str)) t0Str x)
                                       && Lags.lagIs j x) orders)).
  { intros j Hj. apply in_map_iff in Hj. destruct Hj as (j' & <- & Hj').
    apply in_seq in Hj'. rewrite Nat2Z.id.
    apply (contrast_velocity orders t0Str sd j' Es Hlt). lia. }
  rewrite (sumZ_ext_in _ _ _ (fun j Hj => proj1 (V j Hj))) in A.
  rewrite (sumZ_ext_in _ _ _ (fun j Hj => proj2 (V j Hj))) in B.
  rewrite (sumZ_by_lag Contrast.getReturnCount
             (fun x => (0 <? Contrast.getReturnCount x) && (t0Str <? purchase_date x)))
    in A.
  rewrite (sumZ_by_lag Contrast.getReturnCount
             (fun x => ((0 <? Contrast.getReturnCount x)
                        && Props.returnedBefore t0Str x)
                       && Props.inDays (t0Str - (sd - t0Str)) t0Str x)) in B.
  split; [exact A | exact B].
Qed.

(** C9. Every rate field of the two engines is a guarded ratio: it equals
    returns / sales when the sales total is positive, is 0 when the sales
    total is 0, and is never NaN.  This covers before.rate and after.rate of
    the contrast result; the velocity-chart rates, of which there is one
    pair per day offset 0 .. runDays-1, the returns of the after rate at
    offset d being those of the orders purchased after T0 with a lag
    between 0 and d days, and the returns of the before rate those counted
    for the orders purchased in [T0 - runDays, T0) with a lag between 0 and
    d days; and the four MaturityMetrics rates, the baseline rate, each
    daily currentRate and projectedRate, and each trend rate of the
    maturity result. *)
Theorem rates_guarded (data : AppData) :
  (forall res,
      Contrast.analyzeContrast data = Some res ->
      Spec.guardedRatio (Contrast.rate (Contrast.before res))
        (inject_Z (Contrast.returns (Contrast.before res)))
        (inject_Z (Contrast.sales (Contrast.before res)))
      /\ Spec.guardedRatio (Contrast.rate (Contrast.after res))
           (inject_Z (Contrast.returns (Contrast.after res)))
           (inject_Z (Contrast.sales (Contrast.after res)))
      /\ Z.of_nat (List.length (Contrast.velocityChart res)) = Contrast.runDays res
      /\ (forall d, 0 <= d < Contrast.runDays res ->
                    exists p, In p (Contrast.velocityChart res) /\ Contrast.day p = d)
      /\ (forall orders p,
             return_order data = Some orders ->
             In p (Contrast.velocityChart res) ->
             0 <= Contrast.day p < Contrast.runDays res
             /\ Spec.guardedRatio (Contrast.afterRate p)
                  (inject_Z (Lags.afterCum orders (Contrast.t0 res) (Contrast.day p)))
                  (inject_Z (Contrast.sales (Contrast.after res)))
             /\ Spec.guardedRatio (Contrast.beforeRate p)
                  (inject_Z (Lags.beforeCum orders (Contrast.t0 res)
                               (Contrast.runDays res) (Contrast.day p)))
                  (inject_Z (Contrast.sales (Contrast.before res)))))
  /\ (forall res,
         Maturity.analyzeMaturity data = Some res ->
         (forall m,
             In m [Maturity.pre (Maturity.metrics res);
                   Maturity.reference (Maturity.metrics res);
                   Maturity.postMature (Maturity.metrics res);
                   Maturity.postNominal (Maturity.metrics res)] ->
             Spec.guardedRatio (Maturity.rate m)
               (inject_Z (Maturity.returns m)) (inject_Z (Maturity.volume m)))
         /\ Spec.guardedRatio (Maturity.baselineRate (Maturity.projection res))
              (inject_Z (Maturity.returns (Maturity.pre (Maturity.metrics res))))
              (inject_Z (Maturity.volume (Maturity.pre (Maturity.metrics res))))
         /\ (forall row,
                In row (Maturity.dailyProjections res) ->
                Spec.guardedRatio (Maturity.currentRate row)
                  (inject_Z (Maturity.realized row)) (inject_Z (Maturity.sales row))
                /\ Spec.guardedRatio (Maturity.projectedRate row)
                     (Maturity.projectedTotal row) (inject_Z (Maturity.sales row)))
         /\ (forall t,
                In t (Maturity.trend res) ->
                Spec.guardedRatio (Maturity.trend_rate t)
                  (inject_Z (Maturity.trend_returns t))
                  (inject_Z (Maturity.trend_volume t)))).
Proof.
  split.
  - intros res H. apply analyzeContrast_Some in H.
    destruct H as (o & rest & t0Str & Ho & _ & L & ->).
    destruct (chart_points (o :: rest) t0Str L) as (Hl & Hpos & Hp).
    cbv zeta in Hl, Hpos, Hp.
    split; [|split; [|split; [|split]]].
    + unfold Contrast.contrast. cbv zeta.
      cbn [Contrast.before Contrast.rate Contrast.returns Contrast.sales].
      apply guarded_intro.
    + unfold Contrast.contrast. cbv zeta.
      cbn [Contrast.after Contrast.rate Contrast.returns Contrast.sales].
      apply guarded_intro.
    + rewrite Hl. lia.
    + intros d Hd.
      destruct (nth_error (Contrast.velocityChart (Contrast.contrast (o :: rest) t0Str))
                          (Z.to_nat d)) as [p|] eqn:E.
      * exists p. split; [exact (nth_error_In _ _ E)|].
        destruct (Hp _ _ E) as (D & _). rewrite D. lia.
      * apply nth_error_None in E. lia.
    + intros orders p Ho' Hin. rewrite Ho in Ho'. injection Ho' as <-.
      apply In_nth_error in Hin. destruct Hin as (k & Hk).
      assert (Hklt : (k < Z.to_nat (Contrast.runDays
                                      (Contrast.contrast (o :: rest) t0Str)))%nat).
      { rewrite <- Hl. apply nth_error_Some. congruence. }
      destruct (Hp k p Hk) as (D & A & B). rewrite D, A, B.
      split; [lia|]. split; apply guarded_intro.
  - intros res H. apply analyzeMaturity_Some in H.
    destruct H as (o & rest & t0Str & _ & _ & ->).
    split; [|split; [|split]].
    + unfold Maturity.analyze. cbn [Maturity.metrics Maturity.pre Maturity.reference
                                    Maturity.postMature Maturity.postNominal].
      intros m [<-|[<-|[<-|[<-|[]]]]]; apply calcStats_guarded.
    + unfold Maturity.analyze.
      cbn [Maturity.metrics Maturity.pre Maturity.projection Maturity.baselineRate].
      apply calcStats_guarded.
    + intros row Hrow. apply dailyProjections_row in Hrow.
      destruct Hrow as (entry & Hentry & ->). apply projectDay_guarded.
    + unfold Maturity.analyze. cbn [Maturity.trend].
      intros t Ht. exact (trendLoop_guarded _ _ _ _ _ _ _ Ht).
Qed.

Lemma rates_guarded_witness :
  exists cres mres p,
    Contrast.analyzeContrast Samples.contrastData = Some cres
    /\ Maturity.analyzeMaturity Samples.contrastData = Some mres
    /\ Contrast.sales (Contrast.before cres) = 12
    /\ Contrast.rate (Contrast.before cres) = Fin (4 # 12)
    /\ nth_error (Contrast.velocityChart cres) 1 = Some p
    /\ Lags.beforeCum Samples.contrastOrders (Contrast.t0 cres) (Contrast.runDays cres)
         (Contrast.day p) = 4
    /\ Spec.guardedRatio (Contrast.rate (Contrast.before cres))
         (inject_Z (Contrast.returns (Contrast.before cres)))
         (inject_Z (Contrast.sales (Contrast.before cres)))
    /\ Spec.guardedRatio (Contrast.beforeRate p)
         (inject_Z (Lags.beforeCum Samples.contrastOrders (Contrast.t0 cres)
                      (Contrast.runDays cres) (Contrast.day p)))
         (inject_Z (Contrast.sales (Contrast.before cres)))
    /\ Spec.guardedRatio (Maturity.baselineRate (Maturity.projection mres))
         (inject_Z (Maturity.returns (Maturity.pre (Maturity.metrics mres))))
         (inject_Z (Maturity.volume (Maturity.pre (Maturity.metrics mres)))).
Proof.
  eexists. eexists. eexists. split; [reflexivity|]. split; [reflexivity|].
  split; [reflexivity|]. split; [reflexivity|].
  match goal with
  | |- ?A /\ _ => assert (E : A) by (vm_compute; reflexivity)
  end.
  split; [exact E|]. split; [vm_compute; reflexivity|].
  pose proof (rates_guarded Samples.contrastData) as (C & M).
  destruct (C _ eq_refl) as (C1 & _ & _ & _ & C5).
  split; [exact C1|]. split.
  - exact (proj2 (proj2 (C5 Samples.contrastOrders _ eq_refl (nth_error_In _ _ E)))).
  - exact (proj1 (proj2 (M _ eq_refl))).
Defined.

End EngineRates.

(* ================================================================== *)
(** ** Bounds of the forecast *)

Section ForecastBounds.
Import JS.

Lemma getReturnCount_nonneg (o : RawOrderRow) :
  0 <= units_sold o -> 0 <= Maturity.getReturnCount o.
Proof.
  intros Hu. unfold Maturity.getReturnCount.
  destruct (units_returned o) as [u|].
  - destruct (Z.ltb_spec 0 u); [lia|]. destruct (Maturity.has_return_date o); lia.
  - destruct (Maturity.has_return_date o); lia.
Qed.

Lemma result_lookup_unit (data : AppData) (res : Maturity.MaturityAnalysisResult)
      (ageDays : Z) :
  Maturity.analyzeMaturity data = Some res ->
  (0 <= Maturity.getCumulativePct (Maturity.distribution res) ageDays <= 1)%Q.
Proof.
  intros H.
  pose proof (distribution_shape data res H) as Hshape.
  assert (Hunit : forall k b, nth_error (Maturity.distribution res) k = Some b ->
                              (0 <= Maturity.cumulativePct b <= 1)%Q)
    by (intros k b; apply (distribution_unit data res k b H)).
  assert (Hmono : forall j k b b',
             (j <= k)%nat ->
             nth_error (Maturity.distribution res) j = Some b ->
             nth_error (Maturity.distribution res) k = Some b' ->
             (Maturity.cumulativePct b <= Maturity.cumulativePct b')%Q)
    by (intros j k b b'; apply (distribution_mono data res j k b b' H)).
  destruct (Maturity.distribution res) as [|b0 t] eqn:Ed.
  - simpl. lra.
  - rewrite <- Ed in *. apply lookup_unit; try assumption. rewrite Ed. discriminate.
Qed.

(** With a non-negative realized count and a fraction in [0,1], the gross-up
    adds between 0 and 99 times the realized count, and above the 1% floor
    it is realized / fraction - realized without clamping. *)
Lemma grossUp_bounds (realized : Z) (cumPct : Q) :
  0 <= realized -> (0 <= cumPct <= 1)%Q ->
  (0 <= Maturity.grossUp realized cumPct <= 99 * inject_Z realized)%Q
  /\ ((1 # 100 < cumPct)%Q ->
      (Maturity.grossUp realized cumPct
       == inject_Z realized / cumPct - inject_Z realized)%Q).
Proof.
  intros Hr (Hc0 & Hc1).
  assert (Hq : (0 <= inject_Z realized)%Q) by now apply inject_Z_nonneg.
  destruct (Qlt_le_dec (1 # 100) cumPct) as [L|L].
  - assert (Hpos : (0 < cumPct)%Q) by lra.
    assert (Lo : (inject_Z realized <= inject_Z realized / cumPct)%Q).
    { apply Qle_shift_div_l; [exact Hpos|].
      rewrite <- (Qmult_1_r (inject_Z realized)) at 2.
      rewrite !(Qmult_comm (inject_Z realized)).
      now apply Qmult_le_compat_r. }
    assert (Hi : (inject_Z realized / cumPct <= 100 * inject_Z realized)%Q).
    { apply Qle_shift_div_r; [exact Hpos|].
      setoid_replace (100 * inject_Z realized * cumPct)%Q
        with ((100 * cumPct) * inject_Z realized)%Q by ring.
      rewrite <- (Qmult_1_l (inject_Z realized)) at 1.
      apply Qmult_le_compat_r; [lra | exact Hq]. }
    assert (E : (Maturity.grossUp realized cumPct
                 == inject_Z realized / cumPct - inject_Z realized)%Q).
    { rewrite (grossUp_above realized cumPct L). apply Q.max_r. lra. }
    split; [rewrite E; lra | intros _; exact E].
  - rewrite grossUp_below by (apply Qle_not_lt; exact L).
    split; [lra | intros L'; lra].
Qed.

Lemma sumQ_scaled {A : Type} (f : A -> Q) (g : A -> Z) (l : list A) :
  (forall x, In x l -> (0 <= f x <= 99 * inject_Z (g x))%Q) ->
  (0 <= Spec.sumQ f l <= 99 * inject_Z (sumZ g l))%Q.
Proof.
  induction l as [|x t IH]; intros Hf.
  - simpl. rewrite sumZ_nil. change (inject_Z 0) with 0%Q. lra.
  - cbn [Spec.sumQ fold_right]. rewrite sumZ_cons, inject_Z_plus.
    pose proof (Hf x (or_introl eq_refl)).
    assert (0 <= Spec.sumQ f t <= 99 * inject_Z (sumZ g t))%Q
      by (apply IH; intros; apply Hf; now right).
    unfold Spec.sumQ in *. lra.
Qed.

Lemma analyze_projection (orders : list RawOrderRow) (o : RawOrderRow)
      (t0Str : isodate) (span : Z) :
  let res := Maturity.analyze orders o t0Str span in
  let pa := Maturity.projectAll (latestTime orders) (Maturity.d_value res)
              (Maturity.p90_value res) (Maturity.distribution res)
              (Maturity.buildDailyMap
                 (filter (Maturity.in_window (getTime t0Str)
                            (getTime t0Str + span * MS_PER_DAY)) orders)) in
  let reliableVolume := Maturity.bucket_volume (Maturity.b_finalized (snd pa))
                        + Maturity.bucket_volume (Maturity.b_mature (snd pa)) in
  let reliableRealized := Maturity.realizedReturns (Maturity.b_finalized (snd pa))
                          + Maturity.realizedReturns (Maturity.b_mature (snd pa)) in
  let reliableForecasted :=
    (0 + Maturity.forecastedReturns (Maturity.b_finalized (snd pa))
     + Maturity.forecastedReturns (Maturity.b_mature (snd pa)))%Q in
  Maturity.projection_projectedRate (Maturity.projection res)
  = (if 0 <? reliableVolume
     then Some (js_div (inject_Z reliableRealized + reliableForecasted)
                       (inject_Z reliableVolume))
     else None)
  /\ Maturity.forecastedVolume (Maturity.projection res) = reliableForecasted.
Proof.
  cbv zeta. unfold Maturity.analyze.
  cbn [Maturity.projection Maturity.projection_projectedRate Maturity.forecastedVolume
       Maturity.d_value Maturity.p90_value Maturity.distribution].
  rewrite !Z.add_0_l. split; reflexivity.
Qed.

(** X17. With no negative quantity in the input, every cohort day has a
    non-negative realized count and a forecast between 0 and 99 times that
    count; a mature or finalized day whose cumulative fraction exceeds 1% is
    projected to realized / fraction.  Hence the forecast of the projection
    is between 0 and 99 times the realized returns of the reliable days, and
    a projected rate lies between the realized rate of the reliable days
    and 100 times it. *)
Theorem forecast_bounds (data : AppData) (orders : list RawOrderRow)
        (res : Maturity.MaturityAnalysisResult)
        (Ho : return_order data = Some orders)
        (H : Maturity.analyzeMaturity data = Some res)
        (Hunits : forall o, In o orders -> 0 <= units_sold o) :
  let rows := Maturity.dailyProjections res in
  let R := sumZ Maturity.realized (filter Spec.reliable rows) in
  let V := sumZ Maturity.sales (filter Spec.reliable rows) in
  (forall row,
      In row rows ->
      0 <= Maturity.realized row
      /\ (0 <= Maturity.forecastAdd row <= 99 * inject_Z (Maturity.realized row))%Q
      /\ (Maturity.phase row <> Maturity.rampup ->
          (1 # 100 < Maturity.lagPct row)%Q ->
          (Maturity.projectedTotal row
           == inject_Z (Maturity.realized row) / Maturity.lagPct row)%Q))
  /\ (0 <= Maturity.forecastedVolume (Maturity.projection res) <= 99 * inject_Z R)%Q
  /\ (forall q,
         Maturity.projection_projectedRate (Maturity.projection res) = Some (Fin q) ->
         0 < V
         /\ (inject_Z R / inject_Z V <= q)%Q
         /\ (q <= 100 * (inject_Z R / inject_Z V))%Q).
Proof.
  cbv zeta.
  assert (Rows : forall row,
             In row (Maturity.dailyProjections res) ->
             0 <= Maturity.realized row
             /\ (0 <= Maturity.forecastAdd row
                 <= 99 * inject_Z (Maturity.realized row))%Q
             /\ (Maturity.phase row <> Maturity.rampup ->
                 (1 # 100 < Maturity.lagPct row)%Q ->
                 (Maturity.projectedTotal row
                  == inject_Z (Maturity.realized row) / Maturity.lagPct row)%Q)).
  { intros row Hrow.
    pose proof (row_lagPct data res row H Hrow) as El.
    pose proof (result_lookup_unit data res (Maturity.age row) H) as Ul.
    rewrite <- El in Ul. clear El.
    apply analyzeMaturity_Some in H. destruct H as (o & rest & t0Str & Ho' & _ & ->).
    rewrite Ho in Ho'. injection Ho' as ->.
    pose proof (analyze_markers (o :: rest) o t0Str (Maturity.spanDays data))
      as (_ & _ & (Hd & _) & _).
    apply dailyProjections_row in Hrow. destruct Hrow as ([k e] & Hentry & ->).
    match goal with
    | |- context [Maturity.projectDay ?a ?b ?c ?d (k, e)] =>
        pose proof (projectDay_cases a b c d (k, e) Hd) as P;
        pose proof (projectDay_fields a b c d (k, e)) as F
    end.
    cbv zeta in P, F. destruct P as (_ & _ & _ & _ & Pr & Pu).
    destruct F as (_ & _ & Fr & _). cbn [snd] in Fr.
    set (row := Maturity.projectDay _ _ _ _ (k, e)) in *.
    assert (Hr : 0 <= Maturity.realized row).
    { rewrite Fr. apply buildDailyMap_totals in Hentry.
      destruct Hentry as (_ & ->). apply sumZ_nonneg. intros x Hx.
      apply filter_In in Hx. destruct Hx as (Hx & _).
      apply filter_In in Hx. destruct Hx as (Hx & _).
      apply getReturnCount_nonneg. now apply Hunits. }
    destruct (grossUp_bounds (Maturity.realized row) (Maturity.lagPct row) Hr Ul)
      as (G1 & G2).
    split; [exact Hr|].
    assert (Hq : (0 <= inject_Z (Maturity.realized row))%Q)
      by now apply inject_Z_nonneg.
    destruct (Maturity.phase row) eqn:Ep.
    - destruct (Pu eq_refl) as (-> & _). split; [lra | congruence].
    - destruct (Pr ltac:(discriminate)) as (Ef & Et). rewrite Ef.
      split; [exact G1|]. intros _ L. rewrite Et, Ef, (G2 L). ring.
    - destruct (Pr ltac:(discriminate)) as (Ef & Et). rewrite Ef.
      split; [exact G1|]. intros _ L. rewrite Et, Ef, (G2 L). ring. }
  split; [exact Rows|].
  assert (Rel : forall row,
             In row (filter Spec.reliable (Maturity.dailyProjections res)) ->
             (0 <= Maturity.forecastAdd row <= 99 * inject_Z (Maturity.realized row))%Q).
  { intros row Hrow. apply filter_In in Hrow. destruct Hrow as (Hrow & _).
    now destruct (Rows row Hrow) as (_ & B & _). }
  pose proof (sumQ_scaled Maturity.forecastAdd Maturity.realized _ Rel) as SQ.
  clear Rows Rel.
  apply analyzeMaturity_Some in H. destruct H as (o & rest & t0Str & Ho' & _ & ->).
  pose proof (analyze_projection (o :: rest) o t0Str (Maturity.spanDays data)) as A.
  pose proof (analyze_rows (o :: rest) o t0Str (Maturity.spanDays data)) as Er.
  cbv zeta in A, Er. destruct A as (Ep & Ef).
  set (res := Maturity.analyze (o :: rest) o t0Str (Maturity.spanDays data)) in *.
  set (pa := Maturity.projectAll _ _ _ _ _) in *.
  pose proof (projectAll_rollup (latestTime (o :: rest)) (Maturity.d_value res)
                (Maturity.p90_value res) (Maturity.distribution res)
                (Maturity.buildDailyMap
                   (filter (Maturity.in_window (getTime t0Str)
                              (getTime t0Str + Maturity.spanDays data * MS_PER_DAY))
                           (o :: rest)))) as T.
  fold pa in T. unfold Spec.rollupInv in T. cbv zeta in T.
  destruct T as (V & _ & R & F).
  set (cmp := fun a b : Maturity.DailyProjectionRow => Maturity.age b - Maturity.age a)
    in *.
  assert (P : Permutation (Maturity.dailyProjections res) (fst pa)).
  { rewrite Er. unfold pa. rewrite projectAll_rows. apply sort_perm. }
  rewrite <- (sumZ_perm Maturity.sales _ _ (filter_perm Spec.reliable _ _ P)) in V.
  rewrite <- (sumZ_perm Maturity.realized _ _ (filter_perm Spec.reliable _ _ P)) in R.
  rewrite <- (sumQ_perm Maturity.forecastAdd _ _ (filter_perm Spec.reliable _ _ P)) in F.
  rewrite Ep, Ef, V, R.
  set (Rz := sumZ Maturity.realized _) in *.
  set (Vz := sumZ Maturity.sales _) in *.
  assert (Fv : (0 + Maturity.forecastedReturns (Maturity.b_finalized (snd pa))
                + Maturity.forecastedReturns (Maturity.b_mature (snd pa))
                == Spec.sumQ Maturity.forecastAdd
                     (filter Spec.reliable (Maturity.dailyProjections res)))%Q)
    by (rewrite <- F; ring).
  split; [rewrite Fv; exact SQ|].
  intros q Hq. destruct (Z.ltb_spec 0 Vz) as [L|L]; [|discriminate].
  rewrite js_div_pos in Hq by exact L. injection Hq as <-.
  split; [exact L|]. rewrite Fv.
  assert (Hinv : (0 <= / inject_Z Vz)%Q)
    by (apply Qinv_le_0_compat, inject_Z_nonneg; lia).
  unfold Qdiv. split.
  - apply Qmult_le_compat_r; [lra | exact Hinv].
  - rewrite Qmult_assoc. apply Qmult_le_compat_r; [lra | exact Hinv].
Qed.

Lemma forecast_bounds_witness :
  exists res q,
    Maturity.analyzeMaturity Samples.maturityData = Some res
    /\ Maturity.projection_projectedRate (Maturity.projection res) = Some (Fin q)
    /\ sumZ Maturity.realized (filter Spec.reliable (Maturity.dailyProjections res)) = 11
    /\ sumZ Maturity.sales (filter Spec.reliable (Maturity.dailyProjections res)) = 106
    /\ (inject_Z (sumZ Maturity.realized
                    (filter Spec.reliable (Maturity.dailyProjections res)))
        / inject_Z (sumZ Maturity.sales
                      (filter Spec.reliable (Maturity.dailyProjections res))) <= q)%Q.
Proof.
  eexists. eexists. split; [reflexivity|].
  match goal with
  | |- ?A /\ _ => assert (E : A) by (vm_compute; reflexivity)
  end.
  split; [exact E|]. split; [vm_compute; reflexivity|].
  split; [vm_compute; reflexivity|].
  assert (Hu : forall o, In o Samples.maturityOrders -> 0 <= units_sold o).
  { intros o Ho. repeat (destruct Ho as [<-|Ho]; [vm_compute; discriminate|]).
    destruct Ho. }
  pose proof (proj2 (proj2 (forecast_bounds Samples.maturityData Samples.maturityOrders _
                              eq_refl eq_refl Hu)) _ E) as (_ & B & _).
  exact B.
Defined.

End ForecastBounds.

(* ================================================================== *)
(** ** Window metrics and the latest purchase date *)

Section Windows.
Import JS.

Lemma analyze_metrics (orders : list RawOrderRow) (o : RawOrderRow)
      (t0Str : isodate) (span : Z) :
  let res := Maturity.analyze orders o t0Str span in
  let post := filter (Maturity.in_window (getTime t0Str)
                        (getTime t0Str + span * MS_PER_DAY)) orders in
  Maturity.pre (Maturity.metrics res)
  = Maturity.calcStats
      (filter (Maturity.in_window (getTime t0Str - 60 * MS_PER_DAY) (getTime t0Str))
              orders)
  /\ Maturity.reference (Maturity.metrics res)
     = Maturity.calcStats
         (filter (Maturity.in_window (getTime t0Str - span * MS_PER_DAY) (getTime t0Str))
                 orders)
  /\ Maturity.postMature (Maturity.metrics res) = Maturity.calcStats post
  /\ Maturity.postNominal (Maturity.metrics res) = Maturity.calcStats post
  /\ Maturity.baselineRange res = Maturity.range (Maturity.pre (Maturity.metrics res))
  /\ Maturity.baselineRate (Maturity.projection res)
     = Maturity.rate (Maturity.pre (Maturity.metrics res)).
Proof. cbv zeta. repeat split; reflexivity. Qed.

Lemma sumZ_filter_if {A : Type} (f : A -> Z) (p : A -> bool) (l : list A) :
  sumZ f (filter p l) = sumZ (fun x => if p x then f x else 0) l.
Proof.
  induction l as [|x t IH]; [reflexivity|].
  rewrite sumZ_filter_cons, sumZ_cons, IH. reflexivity.
Qed.

(** A sum over a list, written over the indices of its elements. *)
Lemma sumZ_by_index {A : Type} (g : A -> Z) (h : Z -> Z) (l : list A) :
  (forall k x, nth_error l k = Some x -> g x = h (Z.of_nat k)) ->
  sumZ g l = sumZ h (map Z.of_nat (seq 0 (List.length l))).
Proof.
  induction l as [|x t IH] using rev_ind; intros Hg; [reflexivity|].
  rewrite length_app, Nat.add_comm. cbn [List.length Nat.add].
  rewrite seq_S, map_app, !sumZ_app. cbn [map Nat.add].
  rewrite !sumZ_cons, !sumZ_nil. f_equal; [|f_equal].
  - apply IH. intros k y Hk. apply Hg. rewrite nth_error_app1; [exact Hk|].
    apply nth_error_Some. congruence.
  - apply Hg. rewrite nth_error_app2 by lia. now rewrite Nat.sub_diag.
Qed.

(** The rows of the daily trend of a result, by index. *)
Lemma trend_rows (orders : list RawOrderRow) (o : RawOrderRow)
      (t0Str sd : isodate) (span : Z) :
  latestTime orders = getTime sd ->
  let res := Maturity.analyze orders o t0Str span in
  let n := Z.max 0 (Z.min (t0Str + span) (sd + 1) - (t0Str - span)) in
  List.length (Maturity.trend res) = Z.to_nat n
  /\ forall k row,
       nth_error (Maturity.trend res) k = Some row ->
       let d := t0Str - span + Z.of_nat k in
       Maturity.isPost row = (t0Str <=? d)
       /\ Maturity.trend_volume row = sumZ units_sold (filter (Props.onDay d) orders)
       /\ Maturity.trend_returns row
          = sumZ Maturity.getReturnCount (filter (Props.onDay d) orders).
Proof.
  intros Es. cbv zeta. rewrite analyze_trend, Es.
  replace (getTime t0Str - span * MS_PER_DAY) with (getTime (t0Str - span))
    by (unfold getTime; ring).
  replace (getTime t0Str + span * MS_PER_DAY) with (getTime (t0Str + span))
    by (unfold getTime; ring).
  replace (getTime sd + MS_PER_DAY) with (getTime (sd + 1)) by (unfold getTime; ring).
  rewrite getTime_min, ceil_div_days.
  set (n := Z.max 0 (Z.min (t0Str + span) (sd + 1) - (t0Str - span))).
  match goal with
  | |- context [Maturity.trendLoop ?tm ?ts ?sT ?t0T ?steps 0] =>
      destruct (trendLoop_spec tm ts sT t0T steps 0) as (Hl & Hn)
  end.
  { intros j Hj. rewrite getTime_shift. apply getTime_le. unfold n in Hj. lia. }
  split; [exact Hl|].
  intros k row Hk.
  assert (Hklt : (k < Z.to_nat n)%nat).
  { rewrite <- Hl. apply nth_error_Some. congruence. }
  apply Hn in Hk. cbv zeta in Hk. rewrite Z.add_0_l in Hk.
  rewrite getTime_shift, toISODate_getTime in Hk.
  destruct Hk as (_ & V & R & P). rewrite V, R, P.
  assert (Hd : t0Str - span <= t0Str - span + Z.of_nat k < t0Str + span)
    by (unfold n in Hklt; lia).
  split.
  - destruct (Z.leb_spec t0Str (t0Str - span + Z.of_nat k)) as [L|L].
    + apply Z.leb_le. now apply getTime_le.
    + apply Z.leb_gt. now apply getTime_lt.
  - rewrite trendLookup_build. cbn [fst snd].
    rewrite (filter_ext _ _ (in_window_getTime (t0Str - span) t0Str)).
    rewrite (filter_ext _ _ (in_window_getTime t0Str (t0Str + span))).
    rewrite onDay_both_windows by exact Hd. split; reflexivity.
Qed.

(** The per-day totals of the trend rows on one side of T0, summed over the
    days of the trend, are the totals of the orders purchased on that side
    within the days of the trend. *)
Lemma trend_side_sum (f : RawOrderRow -> Z) (orders : list RawOrderRow)
      (a t0Str : isodate) (N : nat) (side : bool) :
  sumZ (fun i => if Bool.eqb (t0Str <=? a + i) side
                 then sumZ f (filter (Props.onDay (a + i)) orders) else 0)
       (map Z.of_nat (seq 0 N))
  = sumZ f (filter (fun x => Bool.eqb (t0Str <=? purchase_date x) side
                             && Props.inDays a (a + Z.of_nat N) x) orders).
Proof.
  rewrite <- (sumZ_by_day f (fun x => Bool.eqb (t0Str <=? purchase_date x) side)).
  apply sumZ_ext_in. intros i _. unfold Contrast.ordersOn.
  change (fun o : RawOrderRow => purchase_date o =? a + i) with (Props.onDay (a + i)).
  destruct (Bool.eqb (t0Str <=? a + i) side) eqn:E.
  - f_equal. symmetry. apply filter_every. apply Forall_forall. intros x Hx.
    apply filter_In in Hx. destruct Hx as (_ & Hx). unfold Props.onDay in Hx.
    apply Z.eqb_eq in Hx. now rewrite Hx.
  - rewrite filter_none; [reflexivity|]. apply Forall_forall. intros x Hx.
    apply filter_In in Hx. destruct Hx as (_ & Hx). unfold Props.onDay in Hx.
    apply Z.eqb_eq in Hx. now rewrite Hx.
Qed.

(** The trend rows on one side of T0 add up to the totals of the window of
    that side. *)
Lemma trend_side_total (f : RawOrderRow -> Z) (g : Maturity.DailyTrend -> Z)
      (orders : list RawOrderRow) (t0Str sd span : Z) (side : bool)
      (rows : list Maturity.DailyTrend) :
  (forall x, In x orders -> purchase_date x <= sd) ->
  List.length rows
  = Z.to_nat (Z.max 0 (Z.min (t0Str + span) (sd + 1) - (t0Str - span))) ->
  (forall k row,
      nth_error rows k = Some row ->
      Maturity.isPost row = (t0Str <=? t0Str - span + Z.of_nat k)
      /\ g row = sumZ f (filter (Props.onDay (t0Str - span + Z.of_nat k)) orders)) ->
  sumZ g (filter (fun r => Bool.eqb (Maturity.isPost r) side) rows)
  = sumZ f (filter (fun x => Bool.eqb (t0Str <=? purchase_date x) side
                             && Props.inDays (t0Str - span) (t0Str + span) x) orders).
Proof.
  intros Hle Hlen Hrows. rewrite sumZ_filter_if.
  rewrite (sumZ_by_index _
             (fun i => if Bool.eqb (t0Str <=? t0Str - span + i) side
                       then sumZ f (filter (Props.onDay (t0Str - span + i)) orders)
                       else 0)).
  2:{ intros k row Hk. destruct (Hrows k row Hk) as (-> & ->). reflexivity. }
  rewrite trend_side_sum, Hlen. f_equal. apply filter_ext_in. intros x Hx.
  apply Hle in Hx. f_equal. unfold Props.inDays.
  destruct (Z.leb_spec (t0Str - span) (purchase_date x)),
    (Z.ltb_spec (purchase_date x)
       (t0Str - span
        + Z.of_nat (Z.to_nat (Z.max 0 (Z.min (t0Str + span) (sd + 1)
                                       - (t0Str - span)))))),
    (Z.ltb_spec (purchase_date x) (t0Str + span)); cbn [andb]; try reflexivity; lia.
Qed.

(** X18. The daily trend accounts for the reference and the post-cutoff
    metric blocks, although it stops at S: the volumes and the returns of
    its rows before T0 add up to the volume and the returns of
    metrics.reference, and those of its rows on or after T0 to the volume
    and the returns of metrics.postNominal, so no order of either window is
    missing from the trend and none is counted twice.  With no negative
    quantity and a comparison span between 0 and 60 days, the reference
    block is bounded by the pre block of the fixed 60-day baseline. *)
Theorem trend_accounts_for_metrics (data : AppData) (orders : list RawOrderRow)
        (res : Maturity.MaturityAnalysisResult)
        (Ho : return_order data = Some orders)
        (H : Maturity.analyzeMaturity data = Some res) :
  let before := filter (fun r => negb (Maturity.isPost r)) (Maturity.trend res) in
  let after := filter Maturity.isPost (Maturity.trend res) in
  sumZ Maturity.trend_volume before
  = Maturity.volume (Maturity.reference (Maturity.metrics res))
  /\ sumZ Maturity.trend_returns before
     = Maturity.returns (Maturity.reference (Maturity.metrics res))
  /\ sumZ Maturity.trend_volume after
     = Maturity.volume (Maturity.postNominal (Maturity.metrics res))
  /\ sumZ Maturity.trend_returns after
     = Maturity.returns (Maturity.postNominal (Maturity.metrics res))
  /\ ((forall o, In o orders -> 0 <= units_sold o) ->
      0 <= Maturity.spanDays data <= 60 ->
      0 <= Maturity.volume (Maturity.reference (Maturity.metrics res))
        <= Maturity.volume (Maturity.pre (Maturity.metrics res))
      /\ 0 <= Maturity.returns (Maturity.reference (Maturity.metrics res))
           <= Maturity.returns (Maturity.pre (Maturity.metrics res))).
Proof.
  apply analyzeMaturity_Some in H. destruct H as (o & rest & t0Str & Ho' & _ & ->).
  rewrite Ho in Ho'. injection Ho' as ->.
  set (span := Maturity.spanDays data).
  destruct (latestTime_day (o :: rest)) as (sd & _ & Es).
  assert (Hle : forall x, In x (o :: rest) -> purchase_date x <= sd).
  { intros x Hx. apply latestTime_ge in Hx.
    now rewrite Es, toISODate_getTime in Hx. }
  destruct (trend_rows (o :: rest) o t0Str sd span Es) as (Hlen & Hrows).
  cbv zeta in Hlen, Hrows.
  destruct (analyze_metrics (o :: rest) o t0Str span) as (E1 & E2 & _ & E4 & _).
  cbv zeta. rewrite E1, E2, E4.
  unfold Maturity.calcStats. cbv zeta. cbn [Maturity.volume Maturity.returns].
  replace (getTime t0Str - 60 * MS_PER_DAY) with (getTime (t0Str - 60))
    by (unfold getTime; ring).
  replace (getTime t0Str - span * MS_PER_DAY) with (getTime (t0Str - span))
    by (unfold getTime; ring).
  replace (getTime t0Str + span * MS_PER_DAY) with (getTime (t0Str + span))
    by (unfold getTime; ring).
  rewrite !(filter_ext _ _ (in_window_getTime _ _)).
  set (rows := Maturity.trend (Maturity.analyze (o :: rest) o t0Str span)) in *.
  assert (Side : forall (f : RawOrderRow -> Z) (g : Maturity.DailyTrend -> Z),
             (forall k row, nth_error rows k = Some row ->
                            g row = sumZ f (filter (Props.onDay
                                                      (t0Str - span + Z.of_nat k))
                                                   (o :: rest))) ->
             sumZ g (filter (fun r => negb (Maturity.isPost r)) rows)
             = sumZ f (filter (Props.inDays (t0Str - span) t0Str) (o :: rest))
             /\ sumZ g (filter Maturity.isPost rows)
                = sumZ f (filter (Props.inDays t0Str (t0Str + span)) (o :: rest))).
  { intros f g Hg.
    assert (Hboth : forall k row,
               nth_error rows k = Some row ->
               Maturity.isPost row = (t0Str <=? t0Str - span + Z.of_nat k)
               /\ g row = sumZ f (filter (Props.onDay (t0Str - span + Z.of_nat k))
                                         (o :: rest))).
    { intros k row Hk. split; [exact (proj1 (Hrows k row Hk)) | exact (Hg k row Hk)]. }
    pose proof (trend_side_total f g (o :: rest) t0Str sd span false rows
                  Hle Hlen Hboth) as Sb.
    pose proof (trend_side_total f g (o :: rest) t0Str sd span true rows
                  Hle Hlen Hboth) as Sa.
    split.
    - rewrite (filter_ext _ (fun r => Bool.eqb (Maturity.isPost r) false))
        by (intros r; destruct (Maturity.isPost r); reflexivity).
      rewrite Sb. f_equal. apply filter_ext. intros x. unfold Props.inDays.
      destruct (Z.leb_spec t0Str (purchase_date x)),
        (Z.leb_spec (t0Str - span) (purchase_date x)),
        (Z.ltb_spec (purchase_date x) (t0Str + span)),
        (Z.ltb_spec (purchase_date x) t0Str); cbn [andb Bool.eqb]; try reflexivity; lia.
    - rewrite (filter_ext _ (fun r => Bool.eqb (Maturity.isPost r) true))
        by (intros r; destruct (Maturity.isPost r); reflexivity).
      rewrite Sa. f_equal. apply filter_ext. intros x. unfold Props.inDays.
      destruct (Z.leb_spec t0Str (purchase_date x)),
        (Z.leb_spec (t0Str - span) (purchase_date x)),
        (Z.ltb_spec (purchase_date x) (t0Str + span));
        cbn [andb Bool.eqb]; try reflexivity; lia. }
  destruct (Side units_sold Maturity.trend_volume) as (Vb & Va).
  { intros k row Hk. exact (proj1 (proj2 (Hrows k row Hk))). }
  destruct (Side Maturity.getReturnCount Maturity.trend_returns) as (Rb & Ra).
  { intros k row Hk. exact (proj2 (proj2 (Hrows k row Hk))). }
  split; [exact Vb|]. split; [exact Rb|]. split; [exact Va|]. split; [exact Ra|].
  intros Hnn Hspan.
  assert (Hin : forall x, In x (o :: rest) ->
                  Props.inDays (t0Str - span) t0Str x = true ->
                  Props.inDays (t0Str - 60) t0Str x = true).
  { intros x _. unfold Props.inDays. intros Hx. apply andb_prop in Hx.
    destruct Hx as (H1 & H2). apply Z.leb_le in H1. rewrite H2, andb_true_r.
    apply Z.leb_le. lia. }
  split; (split; [apply sumZ_nonneg | apply sumZ_filter_mono; [exact Hin|]]).
  - intros x Hx. apply filter_In in Hx. now apply Hnn.
  - intros x Hx _. now apply Hnn.
  - intros x Hx. apply filter_In in Hx. apply getReturnCount_nonneg. now apply Hnn.
  - intros x Hx _. apply getReturnCount_nonneg. now apply Hnn.
Qed.

Lemma trend_accounts_for_metrics_witness :
  exists res,
    Maturity.analyzeMaturity Samples.maturityData = Some res
    /\ Maturity.volume (Maturity.reference (Maturity.metrics res)) = 31
    /\ Maturity.volume (Maturity.postNominal (Maturity.metrics res)) = 113
    /\ sumZ Maturity.trend_volume
         (filter (fun r => negb (Maturity.isPost r)) (Maturity.trend res))
       = Maturity.volume (Maturity.reference (Maturity.metrics res))
    /\ sumZ Maturity.trend_volume (filter Maturity.isPost (Maturity.trend res))
       = Maturity.volume (Maturity.postNominal (Maturity.metrics res)).
Proof.
  eexists. split; [reflexivity|]. split; [reflexivity|]. split; [reflexivity|].
  pose proof (trend_accounts_for_metrics Samples.maturityData Samples.maturityOrders _
                eq_refl eq_refl) as (Vb & _ & Va & _).
  split; [exact Vb | exact Va].
Defined.

Lemma latest_fold_attained (orders : list RawOrderRow) (a : isodate) :
  exists d,
    fold_left (fun maxTime o =>
                 let t := getTime (purchase_date o) in
                 if maxTime <? t then t else maxTime) orders (getTime a) = getTime d
    /\ a <= d
    /\ (d = a \/ exists o, In o orders /\ purchase_date o = d).
Proof.
  revert a. induction orders as [|x xs IH]; intros a; simpl.
  - exists a. split; [reflexivity|]. split; [lia | now left].
  - destruct (Z.ltb_spec (getTime a) (getTime (purchase_date x))) as [L|L].
    + destruct (IH (purchase_date x)) as (d & E & Hd & Hat).
      exists d. split; [exact E|]. apply (proj1 (getTime_lt _ _)) in L.
      split; [lia|]. right. destruct Hat as [->|(o & Ho & Eo)].
      * exists x. split; [now left | reflexivity].
      * exists o. split; [now right | exact Eo].
    + destruct (IH a) as (d & E & Hd & Hat).
      exists d. split; [exact E|]. split; [exact Hd|].
      destruct Hat as [->|(o & Ho & Eo)]; [now left|].
      right. exists o. split; [now right | exact Eo].
Qed.

(** S as both engines compute it: the latest purchase day, but never before
    the epoch day 0. *)
Lemma latestTime_max (orders : list RawOrderRow) :
  let S := toISODate (latestTime orders) in
  latestTime orders = getTime S
  /\ 0 <= S
  /\ (forall o, In o orders -> purchase_date o <= S)
  /\ ((exists o, In o orders /\ purchase_date o = S) \/ S = 0).
Proof.
  cbv zeta. unfold latestTime.
  destruct (latest_fold_attained orders 0) as (d & E & Hd & Hat).
  change (getTime 0) with 0 in E.
  pose proof (proj2 (latest_fold_ge orders 0)) as G. rewrite E in G.
  cbv zeta in E. rewrite E, toISODate_getTime.
  split; [reflexivity|]. split; [exact Hd|]. split.
  - intros o Ho. apply (proj1 (getTime_le _ _)). now apply G.
  - destruct Hat as [->|Hat]; [now right | now left].
Qed.

(** X19. Both engines take as S the latest purchase date of the whole order
    list, except that S is never before the epoch day 1970-01-01: S is on
    or after every purchase date, and either it is the purchase date of an
    order or it is the epoch day and no order was purchased after it.  A
    maturity result exists exactly when the list is non-empty and T0 is
    given, and echoes T0; a contrast result exists exactly when moreover
    T0 < S, and then has hasData = true and echoes T0. *)
Theorem latest_purchase_date (data : AppData) (orders : list RawOrderRow)
        (Ho : return_order data = Some orders) :
  let S := toISODate (latestTime orders) in
  0 <= S
  /\ (forall o, In o orders -> purchase_date o <= S)
  /\ ((exists o, In o orders /\ purchase_date o = S) \/ S = 0)
  /\ (forall res, Maturity.analyzeMaturity data = Some res ->
                  Maturity.s res = S /\ t0Date data = Some (Maturity.t0 res))
  /\ (forall res, Contrast.analyzeContrast data = Some res ->
                  Contrast.s res = S /\ t0Date data = Some (Contrast.t0 res)
                  /\ Contrast.hasData res = true /\ Contrast.t0 res < S)
  /\ ((exists res, Contrast.analyzeContrast data = Some res)
      <-> orders <> [] /\ exists T0, t0Date data = Some T0 /\ T0 < S)
  /\ ((exists res, Maturity.analyzeMaturity data = Some res)
      <-> orders <> [] /\ exists T0, t0Date data = Some T0).
Proof.
  destruct (latestTime_max orders) as (Es & H0 & Hge & Hat). cbv zeta.
  split; [exact H0|]. split; [exact Hge|]. split; [exact Hat|].
  split; [|split; [|split]].
  - intros res H. apply analyzeMaturity_Some in H.
    destruct H as (o & rest & t0Str & Ho' & Ht & ->).
    rewrite Ho in Ho'. injection Ho' as ->. split; [reflexivity | exact Ht].
  - intros res H. apply analyzeContrast_Some in H.
    destruct H as (o & rest & t0Str & Ho' & Ht & L & ->).
    rewrite Ho in Ho'. injection Ho' as ->.
    split; [reflexivity|]. split; [exact Ht|]. split; [reflexivity|].
    cbn [Contrast.t0 Contrast.contrast]. rewrite Es in L.
    now apply (proj1 (getTime_lt _ _)).
  - unfold Contrast.analyzeContrast. rewrite Ho. split.
    + intros (res & H). destruct orders as [|o rest]; [discriminate|].
      split; [discriminate|]. destruct (t0Date data) as [T0|]; [|discriminate].
      exists T0. split; [reflexivity|]. cbv zeta in H.
      destruct (Z.leb_spec (latestTime (o :: rest)) (getTime T0)) as [L|L];
        [discriminate|].
      rewrite Es in L. now apply (proj1 (getTime_lt _ _)).
    + intros (Hne & T0 & -> & L). destruct orders as [|o rest]; [contradiction|].
      cbv zeta. apply getTime_lt in L. rewrite <- Es in L.
      destruct (Z.leb_spec (latestTime (o :: rest)) (getTime T0)); [lia|].
      eexists. reflexivity.
  - unfold Maturity.analyzeMaturity. rewrite Ho. split.
    + intros (res & H). destruct orders as [|o rest]; [discriminate|].
      split; [discriminate|]. destruct (t0Date data) as [T0|]; [|discriminate].
      now exists T0.
    + intros (Hne & T0 & ->). destruct orders as [|o rest]; [contradiction|].
      eexists. reflexivity.
Qed.

Lemma latest_purchase_date_witness :
  toISODate (latestTime Samples.maturityOrders) = ymd 2024 4 3
  /\ forall o, In o Samples.maturityOrders ->
               purchase_date o <= toISODate (latestTime Samples.maturityOrders).
Proof.
  split; [reflexivity|].
  exact (proj1 (proj2 (latest_purchase_date Samples.maturityData Samples.maturityOrders
                         eq_refl))).
Defined.

End Windows.

(* ================================================================== *)
(** ** The rate cards of the maturity view *)

Section RateCards.
Import JS.

Lemma calcStats_rate_nonneg (subset : list RawOrderRow) :
  (forall o, In o subset -> 0 <= units_sold o) ->
  exists q,
    Maturity.rate (Maturity.calcStats subset) = Fin q
    /\ (0 <= q)%Q
    /\ (0 < sumZ units_sold subset ->
        (q == inject_Z (sumZ Maturity.getReturnCount subset)
              / inject_Z (sumZ units_sold subset))%Q)
    /\ (sumZ units_sold subset <= 0 -> q = 0%Q).
Proof.
  intros Hu. unfold Maturity.calcStats. cbv zeta. cbn [Maturity.rate].
  apply guarded_rate_nonneg. apply sumZ_nonneg. intros o Ho.
  apply getReturnCount_nonneg. now apply Hu.
Qed.

(** X20. On the maturity view, with no negative quantity in the input, the
    actual rate (postNominal) and the reference rate are finite and
    non-negative, and the relative delta of card A is (actual - reference) /
    reference when the reference rate is positive, 1 when the reference rate
    is 0 and the actual rate is positive, and 0 when both are 0; the
    improvement flag is set exactly when the actual rate is below the
    reference rate.  The projection delta of card B is null when the
    projected rate is null, and projected - actual when it is a finite
    rate. *)
Theorem view_rate_cards (data : AppData) (orders : list RawOrderRow)
        (res : Maturity.MaturityAnalysisResult)
        (Ho : return_order data = Some orders)
        (H : Maturity.analyzeMaturity data = Some res)
        (Hunits : forall o, In o orders -> 0 <= units_sold o) :
  exists a b d : Q,
    Maturity.rate (Maturity.postNominal (Maturity.metrics res)) = Fin a
    /\ Maturity.rate (Maturity.reference (Maturity.metrics res)) = Fin b
    /\ View.relativeDelta res = Fin d
    /\ (0 <= a)%Q /\ (0 <= b)%Q
    /\ (View.isActualImprovement res = true <-> (a < b)%Q)
    /\ ((a == b)%Q -> (d == 0)%Q)
    /\ ((0 < b)%Q -> (d == (a - b) / b)%Q)
    /\ ((b == 0)%Q -> (0 < a)%Q -> (d == 1)%Q)
    /\ ((b == 0)%Q -> (a == 0)%Q -> (d == 0)%Q)
    /\ (Maturity.projection_projectedRate (Maturity.projection res) = None ->
        View.projectionDelta res = None)
    /\ (forall p, Maturity.projection_projectedRate (Maturity.projection res)
                  = Some (Fin p) ->
                  View.projectionDelta res = Some (Fin (p - a))).
Proof.
  apply analyzeMaturity_Some in H. destruct H as (o & rest & t0Str & Ho' & _ & ->).
  rewrite Ho in Ho'. injection Ho' as ->.
  destruct (analyze_metrics (o :: rest) o t0Str (Maturity.spanDays data))
    as (_ & E2 & _ & E4 & _).
  unfold View.isActualImprovement, View.relativeDelta, View.projectionDelta. cbv zeta.
  rewrite E2, E4.
  destruct (calcStats_rate_nonneg
              (filter (Maturity.in_window (getTime t0Str)
                         (getTime t0Str + Maturity.spanDays data * MS_PER_DAY))
                      (o :: rest))) as (a & Ea & Ha & _).
  { intros x Hx. apply filter_In in Hx. now apply Hunits. }
  destruct (calcStats_rate_nonneg
              (filter (Maturity.in_window
                         (getTime t0Str - Maturity.spanDays data * MS_PER_DAY)
                         (getTime t0Str))
                      (o :: rest))) as (b & Eb & Hb & _).
  { intros x Hx. apply filter_In in Hx. now apply Hunits. }
  rewrite Ea, Eb.
  destruct (delta_branches a b Ha Hb) as (d & Ed & P1 & P2 & P3 & P4 & P5).
  exists a, b, d. rewrite Ed.
  repeat (split; [first [reflexivity | assumption]|]).
  split.
  - intros ->. reflexivity.
  - intros p ->. reflexivity.
Qed.

Lemma view_rate_cards_witness :
  exists res,
    Maturity.analyzeMaturity Samples.maturityData = Some res
    /\ Maturity.rate (Maturity.postNominal (Maturity.metrics res)) = Fin (11 # 113)
    /\ Maturity.rate (Maturity.reference (Maturity.metrics res)) = Fin (7 # 31)
    /\ View.isActualImprovement res = true
    /\ exists a b d : Q,
         Maturity.rate (Maturity.postNominal (Maturity.metrics res)) = Fin a
         /\ Maturity.rate (Maturity.reference (Maturity.metrics res)) = Fin b
         /\ View.relativeDelta res = Fin d
         /\ (View.isActualImprovement res = true <-> (a < b)%Q).
Proof.
  eexists. split; [reflexivity|]. split; [reflexivity|]. split; [reflexivity|].
  split; [reflexivity|].
  assert (Hu : forall o, In o Samples.maturityOrders -> 0 <= units_sold o).
  { intros o Ho. repeat (destruct Ho as [<-|Ho]; [vm_compute; discriminate|]).
    destruct Ho. }
  destruct (view_rate_cards Samples.maturityData Samples.maturityOrders _
              eq_refl eq_refl Hu)
    as (a & b & d & Ea & Eb & Ed & _ & _ & Hi & _).
  exists a, b, d. split; [exact Ea | split; [exact Eb | split; [exact Ed | exact Hi]]].
Defined.

End RateCards.
